(** * Map Whisperer: the conversational recommendation engine

    A shallow embedding of the chat pipeline of [api/ai.js] (the
    [chatSaved] part: interpreter, candidate filter, enrichment gate,
    scorer, explanation generator, orchestrator) and of the place store
    it reads, followed by the properties of the specification.

    Conventions of the embedding.
    - A JavaScript number is a rational ([Q]); [NaN] and the infinities
      are outside the model.  Scores are compared with [==] and [<=].
    - A JavaScript string is a [string] of 8-bit code units; case folding
      and white space are those of ASCII.
    - A property that may be missing is a [nullable]: [undefined], [null]
      or a value.  Exceptions are values of [result].
    - What the runtime or the network provides ([Math], number printing,
      [JSON.parse], [fetch]) is a parameter: a class or a field of [Env]. *)

From Stdlib Require Import String Ascii List ZArith QArith Qminmax Lia Lqa.
From Stdlib Require Import Permutation Sorted Bool.
From stdpp Require Import gmap strings.
Import ListNotations.
Open Scope string_scope.
Open Scope Q_scope.

(* ================================================================== *)
(** ** JavaScript values and the runtime functions the code calls      *)
(* ================================================================== *)

Module JS.

Inductive nullable (A : Type) : Type :=
| undefined
| null
| val (a : A).
Arguments undefined {A}.
Arguments null {A}.
Arguments val {A} a.

Inductive exn : Type :=
| TypeError | RangeError | SyntaxError | HttpError | NetworkError.

Inductive result (A : Type) : Type :=
| Ok (a : A)
| Throw (e : exn).
Arguments Ok {A} a.
Arguments Throw {A} e.

Definition rbind {A B} (m : result A) (k : A -> result B) : result B :=
  match m with
  | Ok a => k a
  | Throw e => Throw e
  end.

(** [try { body } catch { handler }] *)
Definition try_catch {A} (body : result A) (handler : exn -> A) : A :=
  match body with
  | Ok a => a
  | Throw e => handler e
  end.

(** Truthiness, per type of value. *)
Class Truthy (A : Type) := truthy : A -> bool.

#[global] Instance truthy_string : Truthy string :=
  fun s => match s with EmptyString => false | String _ _ => true end.
#[global] Instance truthy_number : Truthy Q :=
  fun q => negb (Qeq_bool q 0).
#[global] Instance truthy_bool : Truthy bool := fun b => b.
(** Arrays are objects: always truthy. *)
#[global] Instance truthy_array {A} : Truthy (list A) := fun _ => true.
#[global] Instance truthy_nullable {A} `{Truthy A} : Truthy (nullable A) :=
  fun x => match x with val a => truthy a | _ => false end.
#[global] Instance truthy_option {A} `{Truthy A} : Truthy (option A) :=
  fun x => match x with Some a => truthy a | None => false end.

(** [x || d] where [d] is a plain value. *)
Definition or_else {A} `{Truthy A} (x : nullable A) (d : A) : A :=
  match x with
  | val a => if truthy a then a else d
  | _ => d
  end.

(** [x || null] *)
Definition or_null {A} `{Truthy A} (x : nullable A) : option A :=
  match x with
  | val a => if truthy a then Some a else None
  | _ => None
  end.

(** [x?.f] on a nullable object. *)
Definition opt_chain {A B} (x : nullable A) (f : A -> nullable B)
  : nullable B :=
  match x with
  | val a => f a
  | _ => undefined
  end.

(** [x === null || x === undefined] *)
Definition is_nullish {A} (x : nullable A) : bool :=
  match x with val _ => false | _ => true end.

(** [x !== null] *)
Definition not_null {A} (x : nullable A) : bool :=
  match x with null => false | _ => true end.

(** *** Strings *)

Definition lower_unit (c : ascii) : ascii :=
  let n := nat_of_ascii c in
  if ((65 <=? n) && (n <=? 90))%nat then ascii_of_nat (n + 32) else c.

Fixpoint toLowerCase (s : string) : string :=
  match s with
  | EmptyString => EmptyString
  | String c r => String (lower_unit c) (toLowerCase r)
  end.

(** [s.includes(sub)] *)
Fixpoint includes (s sub : string) : bool :=
  String.prefix sub s
  || match s with
     | EmptyString => false
     | String _ r => includes r sub
     end.

(** The class [\s] of regular expressions, also what [trim] removes. *)
Definition is_space (c : ascii) : bool :=
  let n := nat_of_ascii c in
  ((9 <=? n) && (n <=? 13) || (n =? 32))%nat.

Fixpoint trimStart (s : string) : string :=
  match s with
  | EmptyString => EmptyString
  | String c r => if is_space c then trimStart r else s
  end.

Fixpoint trimEnd (s : string) : string :=
  match s with
  | EmptyString => EmptyString
  | String c r =>
      match trimEnd r with
      | EmptyString => if is_space c then EmptyString else String c EmptyString
      | r' => String c r'
      end
  end.

Definition trim (s : string) : string := trimEnd (trimStart s).

(** [s.split(/\s+/)]: [in_sep] tells that the previous unit belonged
    to a separator. *)
Fixpoint split_ws_from (in_sep : bool) (s : string) : list string :=
  match s with
  | EmptyString => [EmptyString]
  | String c r =>
      if is_space c then
        if in_sep then split_ws_from true r
        else EmptyString :: split_ws_from true r
      else
        match split_ws_from false r with
        | p :: ps => String c p :: ps
        | [] => [String c EmptyString]
        end
  end.

Definition split_ws (s : string) : list string := split_ws_from false s.

(** [s.slice(|w|)] when [s] starts with [w]. *)
Fixpoint strip_prefix (w s : string) : option string :=
  match w, s with
  | EmptyString, _ => Some s
  | String a w', String b s' =>
      if Ascii.eqb a b then strip_prefix w' s' else None
  | String _ _, EmptyString => None
  end.

(** [String(t)] of a string, and of an absent value inside a template. *)
Definition show_nullable (x : nullable string) : string :=
  match x with
  | undefined => "undefined"
  | null => "null"
  | val s => s
  end.

(** [Math]: the functions the distance computation calls. *)
Class MathLib := {
  Math_PI : Q;
  Math_sin : Q -> Q;
  Math_cos : Q -> Q;
  Math_sqrt : Q -> Q;
  Math_atan2 : Q -> Q -> Q;
}.

(** How numbers are printed: in a template literal, and by
    [toLocaleString]. *)
Class NumberFormat := {
  number_to_string : Q -> string;
  toLocaleString : Q -> string;
}.

End JS.
Import JS.

(* ================================================================== *)
(** ** The place store ([api/data.js])                                 *)
(* ================================================================== *)

Module Place.
Record t : Type := mk {
  id : string;
  name : nullable string;
  lat : nullable Q;
  lng : nullable Q;
  address : nullable string;
  listName : nullable string;
  placeTags : nullable (list string);
  notes : nullable string;
  tags : nullable (list string);
  type : nullable string;
  vibe : nullable string;
  priceLevel : nullable Q;
  placeId : nullable string;
}.
End Place.

(** The module-level array [places]. *)
Definition Store := list Place.t.

Definition getAllPlaces (places : Store) : list Place.t := places.

Definition nullable_string_eqb (x : nullable string) (s : string) : bool :=
  match x with
  | val a => String.eqb a s
  | _ => false
  end.

Definition getPlacesByListName (places : Store) (listName : string)
  : list Place.t :=
  List.filter (fun p => nullable_string_eqb (Place.listName p) listName) places.

(* ================================================================== *)
(** ** Normalized place details ([api/placeDetails.js])                *)
(* ================================================================== *)

Module Categories.
Record t : Type := mk {
  primary : nullable string;
  primaryDisplayName : nullable string;
  types : list string;
}.
End Categories.

Module Contact.
Record t : Type := mk {
  phone : nullable string;
  website : nullable string;
}.
End Contact.

Module OpeningHours.
Record t : Type := mk {
  weekdayText : nullable (list string);
  openNow : nullable bool;
}.
End OpeningHours.

Module Details.
Record t : Type := mk {
  placeId : nullable string;
  name : nullable string;
  address : nullable string;
  rating : nullable Q;
  userRatingCount : nullable Q;
  priceLevel : nullable Q;
  categories : nullable Categories.t;
  contact : nullable Contact.t;
  openingHours : nullable OpeningHours.t;
  about : nullable string;
}.
End Details.

(** [enrichedData?.f]: the argument is [null] or an object. *)
Definition enriched {B} (enrichedData : option Details.t)
  (f : Details.t -> nullable B) : nullable B :=
  match enrichedData with
  | Some d => f d
  | None => undefined
  end.

Definition primaryDisplayName_of (enrichedData : option Details.t)
  : nullable string :=
  opt_chain (enriched enrichedData Details.categories)
            Categories.primaryDisplayName.

Definition openNow_of (enrichedData : option Details.t) : nullable bool :=
  opt_chain (enriched enrichedData Details.openingHours) OpeningHours.openNow.

(* ================================================================== *)
(** ** Slots, coordinates                                              *)
(* ================================================================== *)

Module Slots.
(** A slot that is [undefined] is a key the object does not have. *)
Record t : Type := mk {
  category : nullable string;
  cuisine : nullable string;
  price : nullable string;
  vibe : nullable string;
  openNow : nullable bool;
  distanceKm : nullable Q;
}.

(** [{}] *)
Definition empty : t :=
  mk undefined undefined undefined undefined undefined undefined.

Definition present {A} (x : nullable A) : nat :=
  match x with undefined => 0 | _ => 1 end.

(** [Object.keys(slots).length] *)
Definition keys_length (s : t) : nat :=
  (present (category s) + present (cuisine s) + present (price s)
   + present (vibe s) + present (openNow s) + present (distanceKm s))%nat.
End Slots.

Module LatLng.
Record t : Type := mk { lat : Q; lng : Q }.
End LatLng.

(* ================================================================== *)
(** ** Distance, candidate filter, scorer ([api/ai.js])                *)
(* ================================================================== *)

Section Distance.
Context `{MathLib}.

(** Haversine formula. *)
Definition calculateDistance (lat1 lng1 lat2 lng2 : Q) : Q :=
  let R := 6371 in
  let dLat := ((lat2 - lat1) * Math_PI) / 180 in
  let dLng := ((lng2 - lng1) * Math_PI) / 180 in
  let a :=
    Math_sin (dLat / 2) * Math_sin (dLat / 2)
    + Math_cos ((lat1 * Math_PI) / 180)
      * Math_cos ((lat2 * Math_PI) / 180)
      * Math_sin (dLng / 2)
      * Math_sin (dLng / 2) in
  let c := 2 * Math_atan2 (Math_sqrt a) (Math_sqrt (1 - a)) in
  R * c.
End Distance.

(** [x || []] *)
Definition or_empty {A} (x : nullable (list A)) : list A :=
  match x with
  | val l => l
  | _ => []
  end.

(** [[...].filter(Boolean).map(t => String(t).toLowerCase())] *)
Definition lowered (xs : list (nullable string)) : list string :=
  List.map (fun t => toLowerCase (show_nullable t))
           (List.filter truthy xs).

(** [allTags.some(tag => tag.includes(needle))] *)
Definition some_includes (allTags : list string) (needle : string) : bool :=
  existsb (fun tag => includes tag needle) allTags.

(** [slots.price === 'cheap' ? [0, 1] : [2, 3]] *)
Definition targetLevels (price : string) : list Q :=
  if String.eqb price "cheap" then [0; 1] else [2; 3].

(** [targetLevels.includes(x)] *)
Definition levels_include (levels : list Q) (x : nullable Q) : bool :=
  match x with
  | val q => existsb (fun l => Qeq_bool l q) levels
  | _ => false
  end.

(** [slots.price && slots.price !== 'any'] *)
Definition price_requested (slots : Slots.t) : option string :=
  match Slots.price slots with
  | val p => if truthy p && negb (String.eqb p "any") then Some p else None
  | _ => None
  end.

Definition category_tags_filter (p : Place.t) : list (nullable string) :=
  List.map val (or_empty (Place.tags p))
  ++ List.map val (or_empty (Place.placeTags p))
  ++ [Place.type p; Place.name p].

Definition cuisine_tags_filter (p : Place.t) : list (nullable string) :=
  List.map val (or_empty (Place.tags p))
  ++ List.map val (or_empty (Place.placeTags p))
  ++ [Place.name p; Place.notes p].

Definition filter_by_category (slots : Slots.t) (candidates : list Place.t)
  : list Place.t :=
  match or_null (Slots.category slots) with
  | Some category =>
      let categoryLower := toLowerCase category in
      List.filter
        (fun p => some_includes (lowered (category_tags_filter p)) categoryLower)
        candidates
  | None => candidates
  end.

Definition filter_by_cuisine (slots : Slots.t) (candidates : list Place.t)
  : list Place.t :=
  match or_null (Slots.cuisine slots) with
  | Some cuisine =>
      let cuisineLower := toLowerCase cuisine in
      List.filter
        (fun p => some_includes (lowered (cuisine_tags_filter p)) cuisineLower)
        candidates
  | None => candidates
  end.

(** The callback of the price filter. *)
Definition price_keeps (levels : list Q) (p : Place.t) : bool :=
  if is_nullish (Place.priceLevel p) then true
  else levels_include levels (Place.priceLevel p).

Definition filter_by_price (slots : Slots.t) (candidates : list Place.t)
  : list Place.t :=
  match price_requested slots with
  | Some price => List.filter (price_keeps (targetLevels price)) candidates
  | None => candidates
  end.

Definition filterCandidates (store : Store) (places : list Place.t)
  (slots : Slots.t) (listName : option string) : list Place.t :=
  let candidates :=
    match listName with
    | Some l => if truthy l then getPlacesByListName store l else places
    | None => places
    end in
  let candidates := filter_by_category slots candidates in
  let candidates := filter_by_cuisine slots candidates in
  let candidates := filter_by_price slots candidates in
  firstn 50 candidates.

Section Scorer.
Context `{MathLib}.

Definition category_tags (place : Place.t) (enrichedData : option Details.t)
  : list (nullable string) :=
  List.map val (or_empty (Place.tags place))
  ++ List.map val (or_empty (Place.placeTags place))
  ++ [Place.type place; primaryDisplayName_of enrichedData].

Definition cuisine_tags (place : Place.t) (enrichedData : option Details.t)
  : list (nullable string) :=
  List.map val (or_empty (Place.tags place))
  ++ List.map val (or_empty (Place.placeTags place))
  ++ [Place.name place; Place.notes place;
      primaryDisplayName_of enrichedData].

Definition category_matches (place : Place.t) (slots : Slots.t)
  (enrichedData : option Details.t) : bool :=
  match or_null (Slots.category slots) with
  | Some category =>
      some_includes (lowered (category_tags place enrichedData))
                    (toLowerCase category)
  | None => false
  end.

Definition cuisine_matches (place : Place.t) (slots : Slots.t)
  (enrichedData : option Details.t) : bool :=
  match or_null (Slots.cuisine slots) with
  | Some cuisine =>
      some_includes (lowered (cuisine_tags place enrichedData))
                    (toLowerCase cuisine)
  | None => false
  end.

Definition category_points place slots enrichedData : Q :=
  if category_matches place slots enrichedData then 20 else 0.

Definition cuisine_points place slots enrichedData : Q :=
  if cuisine_matches place slots enrichedData then 15 else 0.

(** The price rule reads [enrichedData.priceLevel] without [?.] once
    [enrichedData?.priceLevel !== null] has passed. *)
Definition price_points (slots : Slots.t) (enrichedData : option Details.t)
  : result Q :=
  match price_requested slots with
  | Some price =>
      if not_null (enriched enrichedData Details.priceLevel) then
        match enrichedData with
        | None => Throw TypeError
        | Some d =>
            if levels_include (targetLevels price) (Details.priceLevel d)
            then Ok 10 else Ok 0
        end
      else Ok 0
  | None => Ok 0
  end.

Definition nullable_bool_is (x : nullable bool) (b : bool) : bool :=
  match x with
  | val c => Bool.eqb c b
  | _ => false
  end.

Definition open_now_points (slots : Slots.t)
  (enrichedData : option Details.t) : Q :=
  if nullable_bool_is (Slots.openNow slots) true
     && nullable_bool_is (openNow_of enrichedData) true then 15
  else if nullable_bool_is (Slots.openNow slots) false
          && nullable_bool_is (openNow_of enrichedData) false then 5
  else 0.

Definition rating_points (enrichedData : option Details.t) : Q :=
  match or_null (enriched enrichedData Details.rating) with
  | Some rating => Qmin (rating * 2) 10
  | None => 0
  end.

Definition distance_points (place : Place.t) (slots : Slots.t)
  (userLocation : option LatLng.t) : Q :=
  match userLocation, or_null (Place.lat place), or_null (Place.lng place) with
  | Some u, Some plat, Some plng =>
      let distance :=
        calculateDistance (LatLng.lat u) (LatLng.lng u) plat plng in
      match or_null (Slots.distanceKm slots) with
      | Some km =>
          if Qle_bool distance km then 10
          else if Qle_bool distance 5 then 5 else 0
      | None => if Qle_bool distance 5 then 5 else 0
      end
  | _, _, _ => 0
  end.

Definition vibe_points (place : Place.t) (slots : Slots.t) : Q :=
  match or_null (Slots.vibe slots), or_null (Place.vibe place) with
  | Some v, Some pv =>
      if includes (toLowerCase pv) (toLowerCase v) then 10 else 0
  | _, _ => 0
  end.

Definition scorePlace (place : Place.t) (slots : Slots.t)
  (enrichedData : option Details.t) (userLocation : option LatLng.t)
  : result Q :=
  let score := 0 in
  let score := score + category_points place slots enrichedData in
  let score := score + cuisine_points place slots enrichedData in
  rbind (price_points slots enrichedData) (fun price =>
  let score := score + price in
  let score := score + open_now_points slots enrichedData in
  let score := score + rating_points enrichedData in
  let score := score + distance_points place slots userLocation in
  let score := score + vibe_points place slots in
  Ok score).
End Scorer.

(* ================================================================== *)
(** ** Sessions, the provider, the world a turn runs in                *)
(* ================================================================== *)

Module Session.
Record t : Type := mk { slots : Slots.t }.
End Session.

#[global] Instance truthy_slots : Truthy Slots.t := fun _ => true.

Definition LF : string := String (ascii_of_nat 10) EmptyString.

Definition bytes (codes : list nat) : string :=
  fold_right (fun n s => String (ascii_of_nat n) s) EmptyString codes.

(** The glyphs of the answers, as UTF-8. *)
Definition STAR : string := bytes [226; 173; 144]%nat.
Definition PIN : string := bytes [240; 159; 147; 141]%nat.
Definition CLOCK : string := bytes [240; 159; 149; 144]%nat.
Definition PHONE : string := bytes [240; 159; 147; 158]%nat.
Definition GLOBE : string := bytes [240; 159; 140; 144]%nat.

(** What a prompt is built from; its fixed wording is not modelled. *)
Inductive Prompt : Type :=
| InterpretPrompt (message : string) (currentSlots : Slots.t)
| ExplainPrompt (placesInfo : string) (slots : Slots.t) (count : nat).

(** [await httpResponse.json()]: it rejects, or yields a nullish value,
    or a value whose [choices?.[0]?.message?.content] is read. *)
Inductive HttpBody : Type :=
| BodyUnparseable
| BodyNullish
| BodyContent (content : nullable string).

(** [await fetch(...)] *)
Inductive FetchOutcome : Type :=
| FetchRejects
| FetchResponds (ok : bool) (body : HttpBody).

Module Reply.
(** The properties read from the parsed answer of the interpreter. *)
Record t : Type := mk {
  intentType : nullable string;
  slots : nullable Slots.t;
  targetPlaceName : nullable string;
  questionType : nullable string;
  needsFollowUp : nullable bool;
  questions : nullable (list string);
  assistantMessage : nullable string;
}.
End Reply.

Inductive ParsedReply : Type :=
| ReplyNull
| ReplyValue (r : Reply.t).

Inductive ParsedExplanations : Type :=
| NotAnArray
| AnArray (items : list (nullable string)).

(** [JSON.parse], seen through what each caller reads of the result;
    [None] is a [SyntaxError]. *)
Class JsonLib := {
  JSON_parse_reply : string -> option ParsedReply;
  JSON_parse_explanations : string -> option ParsedExplanations;
}.

Record Env : Type := mkEnv {
  OPENROUTER_API_KEY : nullable string;
  GEMINI_API_KEY : nullable string;
  Date_now : Q;
  (** the answer of the language provider to a prompt *)
  openrouter : Prompt -> FetchOutcome;
  (** [fetchPlaceDetails(placeId)] of [placeDetails.js] *)
  fetchPlaceDetails : nullable string -> result (option Details.t);
  (** the array of [data.js] *)
  places : Store;
}.

Inductive Call : Type :=
| CallProvider (prompt : Prompt)
| CallPlaceDetails (placeId : nullable string).

Record World : Type := mkWorld {
  sessions : gmap string Session.t;
  calls : list Call;
}.

(** Computations that read and write the world and may throw. *)
Definition M (A : Type) : Type := World -> result A * World.

Definition ret {A} (a : A) : M A := fun w => (Ok a, w).

Definition bind {A B} (m : M A) (k : A -> M B) : M B :=
  fun w =>
    match m w with
    | (Ok a, w') => k a w'
    | (Throw e, w') => (Throw e, w')
    end.

Definition lift {A} (r : result A) : M A := fun w => (r, w).

(** [try { body } catch (error) { handler }] *)
Definition catch {A} (body : M A) (handler : exn -> M A) : M A :=
  fun w =>
    match body w with
    | (Ok a, w') => (Ok a, w')
    | (Throw e, w') => handler e w'
    end.

Definition sessions_get (sessionId : string) : M (option Session.t) :=
  fun w => (Ok (sessions w !! sessionId), w).

Definition sessions_set (sessionId : string) (session : Session.t) : M unit :=
  fun w => (Ok tt, mkWorld (<[sessionId := session]> (sessions w)) (calls w)).

Definition record_call (c : Call) : M unit :=
  fun w => (Ok tt, mkWorld (sessions w) (calls w ++ [c])).

Declare Scope turn_scope.
Delimit Scope turn_scope with turn.
Notation "'let*' x ':=' m 'in' k" := (bind m (fun x => k))
  (at level 10, x name, m at level 200, k at level 200) : turn_scope.
Notation "m ';;;' k" := (bind m (fun _ => k))
  (at level 100, k at level 200, right associativity) : turn_scope.

(** The first [open] through the last [close]: what
    [text.match(/\{[\s\S]*\}/)] and [text.match(/\[[\s\S]*\]/)] find. *)
Fixpoint after_first (c : ascii) (s : string) : option string :=
  match s with
  | EmptyString => None
  | String a r => if Ascii.eqb a c then Some r else after_first c r
  end.

Fixpoint upto_last (c : ascii) (s : string) : option string :=
  match s with
  | EmptyString => None
  | String a r =>
      match upto_last c r with
      | Some t => Some (String a t)
      | None => if Ascii.eqb a c then Some (String a EmptyString) else None
      end
  end.

Definition match_span (open close : ascii) (text : string) : option string :=
  match after_first open text with
  | Some r =>
      match upto_last close r with
      | Some t => Some (String open t)
      | None => None
      end
  | None => None
  end.

(** [jsonMatch ? jsonMatch[0] : text] *)
Definition matched_or_text (open close : ascii) (text : string) : string :=
  match match_span open close text with
  | Some m => m
  | None => text
  end.

(** The text handed to [JSON.parse] by the interpreter. *)
Definition json_object_text (content : nullable string) : string :=
  let text := or_else content "{}" in
  matched_or_text "{" "}" text.

(** The text handed to [JSON.parse] by the explanation generator. *)
Definition json_array_text (content : nullable string) : string :=
  let text := or_else content "[]" in
  matched_or_text "[" "]" text.

(** [process.env.OPENROUTER_API_KEY || process.env.GEMINI_API_KEY || null] *)
Definition getOpenRouterApiKey (env : Env) : option string :=
  match or_null (OPENROUTER_API_KEY env) with
  | Some k => Some k
  | None => or_null (GEMINI_API_KEY env)
  end.

(* ================================================================== *)
(** ** Intent interpreter                                              *)
(* ================================================================== *)

Module Interpretation.
Record t : Type := mk {
  intentType : string;
  slots : Slots.t;
  targetPlaceName : option string;
  questionType : option string;
  needsFollowUp : bool;
  questions : list string;
  assistantMessage : string;
}.
End Interpretation.

Definition fallback_interpretation (currentSlots : Slots.t)
  : Interpretation.t :=
  {| Interpretation.intentType := "recommendations";
     Interpretation.slots := currentSlots;
     Interpretation.targetPlaceName := None;
     Interpretation.questionType := None;
     Interpretation.needsFollowUp := false;
     Interpretation.questions := [];
     Interpretation.assistantMessage :=
       "I can help you find places from your saved lists. What are you looking for?" |}.

Section Interpreter.
Context `{JsonLib}.
Variable env : Env.

(** The body of the [try] once [fetch] has settled. *)
Definition read_interpretation (outcome : FetchOutcome)
  (currentSlots : Slots.t) : result Interpretation.t :=
  match outcome with
  | FetchRejects => Throw NetworkError
  | FetchResponds ok body =>
      if negb ok then Throw HttpError
      else
        match body with
        | BodyUnparseable => Throw SyntaxError
        | BodyNullish => Throw TypeError
        | BodyContent content =>
            let jsonText := json_object_text content in
            match JSON_parse_reply jsonText with
            | None => Throw SyntaxError
            | Some ReplyNull => Throw TypeError
            | Some (ReplyValue result) =>
                Ok {| Interpretation.intentType :=
                        or_else (Reply.intentType result) "recommendations";
                      Interpretation.slots :=
                        or_else (Reply.slots result) currentSlots;
                      Interpretation.targetPlaceName :=
                        or_null (Reply.targetPlaceName result);
                      Interpretation.questionType :=
                        or_null (Reply.questionType result);
                      Interpretation.needsFollowUp :=
                        or_else (Reply.needsFollowUp result) false;
                      Interpretation.questions :=
                        or_else (Reply.questions result) [];
                      Interpretation.assistantMessage :=
                        or_else (Reply.assistantMessage result)
                          "I can help you find places. What are you looking for?" |}
            end
        end
  end.

Definition interpretMessageWithGemini (message : string)
  (currentSlots : Slots.t) : M Interpretation.t :=
  match getOpenRouterApiKey env with
  | None => ret (fallback_interpretation currentSlots)
  | Some apiKey =>
      (let prompt := InterpretPrompt message currentSlots in
       record_call (CallProvider prompt) ;;;
       ret (try_catch
              (read_interpretation (openrouter env prompt) currentSlots)
              (fun error => fallback_interpretation currentSlots)))%turn
  end.
End Interpreter.

(* ================================================================== *)
(** ** Candidates, ranking                                             *)
(* ================================================================== *)

Module Candidate.
Record t : Type := mk {
  place : Place.t;
  enrichedData : option Details.t;
}.
End Candidate.

Module Scored.
Record t : Type := mk {
  place : Place.t;
  enrichedData : option Details.t;
  score : Q;
}.
End Scored.

(** [p => p.placeId] *)
Definition has_placeId (p : Place.t) : bool := truthy (Place.placeId p).

(** [scored.sort((a, b) => b.score - a.score)]: the sort of the runtime
    is stable, so an element goes behind the elements that compare equal
    and were before it. *)
Fixpoint insert_by_score (x : Scored.t) (sorted : list Scored.t)
  : list Scored.t :=
  match sorted with
  | [] => [x]
  | y :: rest =>
      if Qlt_le_dec (Scored.score x) (Scored.score y)
      then y :: insert_by_score x rest
      else x :: sorted
  end.

Definition sort_by_score (scored : list Scored.t) : list Scored.t :=
  fold_right insert_by_score [] scored.

Section Ranking.
Context `{MathLib}.

(** [allCandidatesForRanking.map(...)]: the first throwing call ends it. *)
Fixpoint score_all (pool : list Candidate.t) (slots : Slots.t)
  (userLocation : option LatLng.t) : result (list Scored.t) :=
  match pool with
  | [] => Ok []
  | c :: rest =>
      rbind (scorePlace (Candidate.place c) slots
                        (Candidate.enrichedData c) userLocation)
        (fun score =>
      rbind (score_all rest slots userLocation) (fun scored =>
      Ok (Scored.mk (Candidate.place c) (Candidate.enrichedData c) score
          :: scored)))
  end.
End Ranking.

(* ================================================================== *)
(** ** Explanation generator                                           *)
(* ================================================================== *)

Fixpoint string_repeat (s : string) (n : nat) : string :=
  match n with
  | O => EmptyString
  | S k => s ++ string_repeat s k
  end.

(** ['$'.repeat(count)]: the count is truncated, a negative one throws. *)
Definition dollars (count : Q) : result string :=
  let n := Z.quot (Qnum count) (Zpos (Qden count)) in
  if (n <? 0)%Z then Throw RangeError
  else Ok (string_repeat "$" (Z.to_nat n)).

Section Explanations.
Context `{JsonLib} `{NumberFormat}.
Variable env : Env.

Definition template_explanation (enrichedData : option Details.t) : string :=
  "Great " ++ or_else (primaryDisplayName_of enrichedData) "place"
  ++ " with "
  ++ match or_null (enriched enrichedData Details.rating) with
     | Some rating => number_to_string rating ++ STAR ++ " rating"
     | None => "good reviews"
     end
  ++ ".".

Definition template_explanations (top5Places : list Scored.t)
  : list (nullable string) :=
  List.map (fun c => val (template_explanation (Scored.enrichedData c)))
           top5Places.

Definition price_line (enrichedData : option Details.t) : result string :=
  match enriched enrichedData Details.priceLevel with
  | val priceLevel => dollars priceLevel
  | _ => Ok "Unknown"
  end.

Definition place_info (index : nat) (c : Scored.t) : result string :=
  let place := Scored.place c in
  let enrichedData := Scored.enrichedData c in
  rbind (price_line enrichedData) (fun price =>
  Ok (number_to_string (inject_Z (Z.of_nat (index + 1))) ++ ". "
      ++ show_nullable (Place.name place) ++ LF
      ++ "   Type: "
      ++ or_else (primaryDisplayName_of enrichedData)
           (or_else (Place.type place) "Unknown") ++ LF
      ++ "   Rating: "
      ++ match or_null (enriched enrichedData Details.rating) with
         | Some rating => number_to_string rating
         | None => "N/A"
         end
      ++ match or_null (enriched enrichedData Details.userRatingCount) with
         | Some n => " (" ++ number_to_string n ++ " reviews)"
         | None => ""
         end ++ LF
      ++ "   Price: " ++ price ++ LF
      ++ "   Open now: "
      ++ (if truthy (openNow_of enrichedData) then "Yes" else "No"))).

Fixpoint places_info_from (index : nat) (top5Places : list Scored.t)
  : result (list string) :=
  match top5Places with
  | [] => Ok []
  | c :: rest =>
      rbind (place_info index c) (fun line =>
      rbind (places_info_from (S index) rest) (fun lines =>
      Ok (line :: lines)))
  end.

Definition placesInfo (top5Places : list Scored.t) : result string :=
  rbind (places_info_from 0 top5Places) (fun lines =>
  Ok (String.concat (LF ++ LF) lines)).

(** The body of the [try] once [fetch] has settled, up to [JSON.parse]. *)
Definition read_explanations (outcome : FetchOutcome)
  : result ParsedExplanations :=
  match outcome with
  | FetchRejects => Throw NetworkError
  | FetchResponds ok body =>
      if negb ok then Throw HttpError
      else
        match body with
        | BodyUnparseable => Throw SyntaxError
        | BodyNullish => Throw TypeError
        | BodyContent content =>
            let jsonText := json_array_text content in
            match JSON_parse_explanations jsonText with
            | None => Throw SyntaxError
            | Some explanations => Ok explanations
            end
        end
  end.

Definition generateBatchExplanations (top5Places : list Scored.t)
  (slots : Slots.t) : M (list (nullable string)) :=
  match getOpenRouterApiKey env with
  | None => ret (template_explanations top5Places)
  | Some apiKey =>
      catch
        (let* info := lift (placesInfo top5Places) in
         let prompt :=
           ExplainPrompt info slots (List.length top5Places) in
         record_call (CallProvider prompt) ;;;
         let* explanations := lift (read_explanations (openrouter env prompt)) in
         match explanations with
         | AnArray items =>
             if (List.length items =? List.length top5Places)%nat
             then ret items
             else ret (template_explanations top5Places)
         | NotAnArray => ret (template_explanations top5Places)
         end)%turn
        (fun error => ret (template_explanations top5Places))
  end.
End Explanations.

(* ================================================================== *)
(** ** Chat orchestrator                                               *)
(* ================================================================== *)

Module Context.
Record t : Type := mk {
  sessionId : option string;
  listName : option string;
  userLocation : option LatLng.t;
  slots : option Slots.t;
}.
(** [{}] *)
Definition empty : t := mk None None None None.
End Context.

Module Request.
(** [req.body] *)
Record t : Type := mk {
  message : nullable string;
  context : option Context.t;
}.
End Request.

Module ResultRecord.
Record t : Type := mk {
  id : string;
  placeId : option string;
  name : nullable string;
  address : nullable string;
  rating : option Q;
  userRatingCount : option Q;
  priceLevel : option Q;
  primaryType : option string;
  primaryTypeDisplayName : option string;
  types : list string;
  openNow : option bool;
  openingHoursText : option string;
  reviewSummary : option string;
  why : string;
  score : Q;
  lat : option Q;
  lng : option Q;
}.
End ResultRecord.

Module ChatBody.
(** The body of a [res.json] with [ok: true]. *)
Record t : Type := mk {
  mode : string;
  assistantMessage : string;
  updatedSlots : Slots.t;
  results : list ResultRecord.t;
  optionalQuestion : nullable string;
}.
End ChatBody.

Inductive Response : Type :=
| Status400 (error : string)
| Status500 (error : exn)
| Json (body : ChatBody.t).

Definition WELCOME : string :=
  "Hi there! I can help you find places from your saved list. To get started, what kind of place are you looking for?".

Definition NO_MATCH : string :=
  "I couldn't find any places matching your criteria. Try adjusting your search!".

(** *** Greeting detection *)

Definition greetings_long : list string :=
  ["hi"; "hello"; "hey"; "greetings"; "howdy";
   "hi there"; "hello there"; "hey there"].

Definition greetings_short : list string := ["hi"; "hello"; "hey"].

Definition is_punct (c : ascii) : bool :=
  Ascii.eqb c "!" || Ascii.eqb c "." || Ascii.eqb c "," || Ascii.eqb c "?".

(** [(\s|$|[!.,?])] at the head of what is left of the input. *)
Definition at_boundary (rest : string) : bool :=
  match rest with
  | EmptyString => true
  | String c _ => is_space c || is_punct c
  end.

(** [(w1|w2|...)(\s|$|[!.,?])] anchored at the head of [s], flag [i]. *)
Definition word_then_boundary (words : list string) (s : string) : bool :=
  existsb
    (fun w =>
       match strip_prefix w (toLowerCase s) with
       | Some rest => at_boundary rest
       | None => false
       end)
    words.

(** [/^(hi|hello|hey|greetings|howdy|hi there|hello there|hey there)(\s|$|[!.,?])/i] *)
Definition greeting_pattern_1 (s : string) : bool :=
  word_then_boundary greetings_long s.

(** [/^(\s|^)(hi|hello|hey)(\s|$|[!.,?])/i] *)
Definition greeting_pattern_2 (s : string) : bool :=
  match s with
  | String c r => is_space c && word_then_boundary greetings_short r
  | EmptyString => false
  end
  || word_then_boundary greetings_short s.

Definition isGreeting (message : string) : bool :=
  let messageLower := trim (toLowerCase message) in
  (greeting_pattern_1 messageLower || greeting_pattern_2 messageLower)
  && (List.length (split_ws messageLower) <=? 5)%nat.

(** *** Enrichment gate *)

Section Gate.
Variable env : Env.

Definition enrich_one (place : Place.t) : M Candidate.t :=
  (record_call (CallPlaceDetails (Place.placeId place)) ;;;
   ret (try_catch
          (rbind (fetchPlaceDetails env (Place.placeId place))
             (fun enrichedData => Ok (Candidate.mk place enrichedData)))
          (fun error => Candidate.mk place None)))%turn.

(** [Promise.all(list.map(async ...))]: the results are in the order of
    the list, and so are the calls. *)
Fixpoint enrich_all (l : list Place.t) : M (list Candidate.t) :=
  match l with
  | [] => ret []
  | place :: rest =>
      (let* c := enrich_one place in
       let* cs := enrich_all rest in
       ret (c :: cs))%turn
  end.

Definition candidates_for_ranking (scoredCandidates : list Place.t)
  : M (list Candidate.t) :=
  (let topCandidatesForEnrichment :=
     firstn 20 (List.filter has_placeId scoredCandidates) in
   let* enrichedCandidates := enrich_all topCandidatesForEnrichment in
   let placesWithoutEnrichment :=
     List.map (fun place => Candidate.mk place None)
       (firstn 10
          (List.filter (fun p => negb (has_placeId p)) scoredCandidates)) in
   ret (enrichedCandidates ++ placesWithoutEnrichment)%list)%turn.
End Gate.

(** *** Answers to informational questions *)

(** A [find] whose callback may throw. *)
Fixpoint find_r {A} (f : A -> result bool) (l : list A) : result (option A) :=
  match l with
  | [] => Ok None
  | x :: rest =>
      rbind (f x) (fun b => if b then Ok (Some x) else find_r f rest)
  end.

(** [p => p.name && p.name.toLowerCase() === searchName] *)
Definition name_equals (searchName : string) (p : Place.t) : bool :=
  match or_null (Place.name p) with
  | Some n => String.eqb (toLowerCase n) searchName
  | None => false
  end.

(** [p => p.name && p.name.toLowerCase().includes(searchName) ||
     searchName.includes(p.name.toLowerCase())] *)
Definition name_overlaps (searchName : string) (p : Place.t) : result bool :=
  match Place.name p with
  | val n =>
      Ok ((truthy n && includes (toLowerCase n) searchName)
          || includes searchName (toLowerCase n))
  | _ => Throw TypeError
  end.

Definition find_target (allPlaces : list Place.t)
  (targetPlaceName : option string) : result (option Place.t) :=
  match targetPlaceName with
  | Some n =>
      let searchName := toLowerCase n in
      match List.find (name_equals searchName) allPlaces with
      | Some p => Ok (Some p)
      | None => find_r (name_overlaps searchName) allPlaces
      end
  | None => Ok None
  end.

Section Answers.
Context `{NumberFormat}.

Definition question_is (questionType : option string) (q : string) : bool :=
  match questionType with
  | Some t => String.eqb t q
  | None => false
  end.

(** [enrichedData.openingHours]: a property of [null] cannot be read. *)
Definition openingHours_strict (enrichedData : option Details.t)
  : result OpeningHours.t :=
  match enrichedData with
  | Some d =>
      match Details.openingHours d with
      | val h => Ok h
      | _ => Throw TypeError
      end
  | None => Throw TypeError
  end.

Definition reviews_suffix (enrichedData : option Details.t) : string :=
  let reviewCount := or_else (enriched enrichedData Details.userRatingCount) 0 in
  if Qlt_le_dec 0 reviewCount
  then " (" ++ toLocaleString reviewCount ++ " reviews)"
  else "".

Definition open_word (isOpen : nullable bool) (yes no : string) : string :=
  if truthy isOpen then yes else no.

Definition answer_hours (name : string) (enrichedData : option Details.t)
  : result string :=
  if not_null (openNow_of enrichedData) then
    rbind (openingHours_strict enrichedData) (fun hours =>
    let isOpen := OpeningHours.openNow hours in
    let answer :=
      name ++ " is currently " ++ open_word isOpen "**open**" "**closed**"
      ++ "." in
    match OpeningHours.weekdayText hours with
    | val (d :: ds) =>
        Ok (answer ++ LF ++ LF ++ "Opening hours:" ++ LF
            ++ String.concat LF (firstn 7 (d :: ds)))
    | _ => Ok answer
    end)
  else Ok ("I don't have opening hours information for " ++ name ++ ".").

Definition answer_general (name : string) (enrichedData : option Details.t)
  : result string :=
  let answer := "Here's what I know about " ++ name ++ ":" ++ LF ++ LF in
  let answer :=
    match or_null (enriched enrichedData Details.address) with
    | Some a => answer ++ PIN ++ " Address: " ++ a ++ LF
    | None => answer
    end in
  let answer :=
    match or_null (enriched enrichedData Details.rating) with
    | Some r =>
        answer ++ STAR ++ " Rating: " ++ number_to_string r
        ++ reviews_suffix enrichedData ++ LF
    | None => answer
    end in
  rbind
    (if not_null (openNow_of enrichedData) then
       rbind (openingHours_strict enrichedData) (fun hours =>
       Ok (answer ++ CLOCK ++ " Status: "
           ++ open_word (OpeningHours.openNow hours) "Open now" "Closed"
           ++ LF))
     else Ok answer)
    (fun answer =>
  let phone := opt_chain (enriched enrichedData Details.contact) Contact.phone in
  let answer :=
    match or_null phone with
    | Some p => answer ++ PHONE ++ " Phone: " ++ p ++ LF
    | None => answer
    end in
  let website :=
    opt_chain (enriched enrichedData Details.contact) Contact.website in
  let answer :=
    match or_null website with
    | Some u => answer ++ GLOBE ++ " Website: " ++ u ++ LF
    | None => answer
    end in
  Ok answer).

Definition informational_answer (targetPlace : Place.t)
  (questionType : option string) (enrichedData : option Details.t)
  : result string :=
  let name := show_nullable (Place.name targetPlace) in
  if question_is questionType "openingHours"
     || question_is questionType "openNow"
  then answer_hours name enrichedData
  else if question_is questionType "rating" then
    match or_null (enriched enrichedData Details.rating) with
    | Some r =>
        Ok (name ++ " has a rating of **" ++ number_to_string r ++ STAR
            ++ "**" ++ reviews_suffix enrichedData ++ ".")
    | None => Ok ("I don't have rating information for " ++ name ++ ".")
    end
  else if question_is questionType "address" then
    Ok (name ++ " is located at **"
        ++ or_else (enriched enrichedData Details.address)
             (or_else (Place.address targetPlace) "address not available")
        ++ "**.")
  else if question_is questionType "phone" then
    match or_null (opt_chain (enriched enrichedData Details.contact)
                             Contact.phone) with
    | Some p => Ok ("You can reach " ++ name ++ " at **" ++ p ++ "**.")
    | None =>
        Ok ("I don't have phone number information for " ++ name ++ ".")
    end
  else if question_is questionType "website" then
    match or_null (opt_chain (enriched enrichedData Details.contact)
                             Contact.website) with
    | Some u =>
        Ok ("You can visit " ++ name ++ "'s website at **" ++ u ++ "**.")
    | None => Ok ("I don't have website information for " ++ name ++ ".")
    end
  else answer_general name enrichedData.
End Answers.

(** *** The handler *)

Section Orchestrator.
Context `{MathLib} `{JsonLib} `{NumberFormat}.
Variable env : Env.

Definition chat_body (assistantMessage : string) (updatedSlots : Slots.t)
  (results : list ResultRecord.t) (optionalQuestion : nullable string)
  : Response :=
  Json (ChatBody.mk "recommendations" assistantMessage updatedSlots results
                    optionalQuestion).

(** [x ?? y] with [undefined] and [null] both giving way. *)
Definition coalesce {A} (x y : nullable A) : nullable A :=
  match x with
  | val a => val a
  | _ => y
  end.

Definition nullable_to_option {A} (x : nullable A) : option A :=
  match x with
  | val a => Some a
  | _ => None
  end.

Definition or_nullable {A} `{Truthy A} (x y : nullable A) : nullable A :=
  if truthy x then x else y.

Definition format_result (explanations : list (nullable string))
  (index : nat) (c : Scored.t) : ResultRecord.t :=
  let place := Scored.place c in
  let enrichedData := Scored.enrichedData c in
  let openingHoursText :=
    match opt_chain (enriched enrichedData Details.openingHours)
                    OpeningHours.weekdayText with
    | val weekdayText => Some (String.concat ", " weekdayText)
    | _ => None
    end in
  {| ResultRecord.id := Place.id place;
     ResultRecord.placeId :=
       or_null (or_nullable (Place.placeId place)
                            (enriched enrichedData Details.placeId));
     ResultRecord.name :=
       or_nullable (enriched enrichedData Details.name) (Place.name place);
     ResultRecord.address :=
       or_nullable (enriched enrichedData Details.address)
                   (Place.address place);
     ResultRecord.rating := or_null (enriched enrichedData Details.rating);
     ResultRecord.userRatingCount :=
       or_null (enriched enrichedData Details.userRatingCount);
     ResultRecord.priceLevel :=
       nullable_to_option
         (coalesce (enriched enrichedData Details.priceLevel)
                   (Place.priceLevel place));
     ResultRecord.primaryType :=
       or_null (opt_chain (enriched enrichedData Details.categories)
                          Categories.primary);
     ResultRecord.primaryTypeDisplayName :=
       or_null (primaryDisplayName_of enrichedData);
     ResultRecord.types :=
       match enriched enrichedData Details.categories with
       | val cats => Categories.types cats
       | _ => []
       end;
     ResultRecord.openNow := nullable_to_option (openNow_of enrichedData);
     ResultRecord.openingHoursText := openingHoursText;
     ResultRecord.reviewSummary :=
       or_null (enriched enrichedData Details.about);
     ResultRecord.why :=
       or_else (nth index explanations undefined)
               (template_explanation enrichedData);
     ResultRecord.score := Scored.score c;
     ResultRecord.lat := or_null (Place.lat place);
     ResultRecord.lng := or_null (Place.lng place) |}.

(** [top5.map((c, index) => ...)] *)
Fixpoint format_results_from (explanations : list (nullable string))
  (index : nat) (top5 : list Scored.t) : list ResultRecord.t :=
  match top5 with
  | [] => []
  | c :: rest =>
      format_result explanations index c
      :: format_results_from explanations (S index) rest
  end.

(** [questions && questions.length > 0 ? questions[0] : null] *)
Definition first_question (interpretation : Interpretation.t)
  : nullable string :=
  match Interpretation.questions interpretation with
  | q :: _ => val q
  | [] => null
  end.

Definition or_string (s d : string) : string :=
  if truthy s then s else d.

(** The branch of an informational question. *)
Definition answer_turn (interpretation : Interpretation.t)
  (session : Session.t) : M Response :=
  (let allPlaces := getAllPlaces (places env) in
   let* targetPlace :=
     lift (find_target allPlaces
             (Interpretation.targetPlaceName interpretation)) in
   match targetPlace with
   | Some target =>
       if truthy (Place.placeId target) then
         catch
           (record_call (CallPlaceDetails (Place.placeId target)) ;;;
            let* enrichedData :=
              lift (fetchPlaceDetails env (Place.placeId target)) in
            let* answer :=
              lift (informational_answer target
                      (Interpretation.questionType interpretation)
                      enrichedData) in
            ret (chat_body answer (Session.slots session) [] null))
           (fun error =>
              ret (chat_body
                     ("I couldn't find detailed information for "
                      ++ show_nullable (Place.name target)
                      ++ ". Would you like to see it in a recommendation list?")
                     (Session.slots session) [] null))
       else
         ret (chat_body
                (or_string (Interpretation.assistantMessage interpretation)
                   "I couldn't find that place in your saved list. Which place are you asking about?")
                (Session.slots session) [] null)
   | None =>
       ret (chat_body
              (or_string (Interpretation.assistantMessage interpretation)
                 "I couldn't find that place in your saved list. Which place are you asking about?")
              (Session.slots session) [] null)
   end)%turn.

(** Enrich, score, sort: from the filtered candidates to the ranking. *)
Definition rank_candidates (scoredCandidates : list Place.t)
  (slots : Slots.t) (userLocation : option LatLng.t) : M (list Scored.t) :=
  (let* allCandidatesForRanking :=
     candidates_for_ranking env scoredCandidates in
   let* scored :=
     lift (score_all allCandidatesForRanking slots userLocation) in
   ret (sort_by_score scored))%turn.

(** The branch of a recommendation request. *)
Definition recommend_turn (interpretation : Interpretation.t)
  (sessionId : string) (listName : option string)
  (userLocation : option LatLng.t) : M Response :=
  (let session := Session.mk (Interpretation.slots interpretation) in
   sessions_set sessionId session ;;;
   let allPlaces := getAllPlaces (places env) in
   let scoredCandidates :=
     filterCandidates (places env) allPlaces (Session.slots session)
                      listName in
   match scoredCandidates with
   | [] => ret (chat_body NO_MATCH (Session.slots session) [] undefined)
   | _ :: _ =>
       let* scored :=
         rank_candidates scoredCandidates (Session.slots session)
                         userLocation in
       let top5 := firstn 5 scored in
       match top5 with
       | [] =>
           ret (chat_body
                  (or_string (Interpretation.assistantMessage interpretation)
                             NO_MATCH)
                  (Session.slots session) []
                  (first_question interpretation))
       | _ :: _ =>
           let* explanations :=
             generateBatchExplanations env top5 (Session.slots session) in
           let results := format_results_from explanations 0 top5 in
           ret (chat_body
                  (or_string (Interpretation.assistantMessage interpretation)
                     ("Here are "
                      ++ number_to_string
                           (inject_Z (Z.of_nat (List.length results)))
                      ++ " recommendations based on your saved places:"))
                  (Session.slots session) results
                  (first_question interpretation))
       end
   end)%turn.

(** [const { message, context = {} } = req.body] *)
Definition request_context (req : Request.t) : Context.t :=
  match Request.context req with
  | Some c => c
  | None => Context.empty
  end.

(** [sessionId = `session_${Date.now()}`] as the default. *)
Definition request_sessionId (context : Context.t) : string :=
  match Context.sessionId context with
  | Some s => s
  | None => "session_" ++ number_to_string (Date_now env)
  end.

(** [slots: initialSlots = {}] *)
Definition request_initialSlots (context : Context.t) : Slots.t :=
  match Context.slots context with
  | Some s => s
  | None => Slots.empty
  end.

(** [sessions.get(sessionId) || { slots: initialSlots }] *)
Definition session_or_new (stored : option Session.t)
  (initialSlots : Slots.t) : Session.t :=
  match stored with
  | Some s => s
  | None => Session.mk initialSlots
  end.

(** The body of the outer [try]. *)
Definition chat_turn (req : Request.t) : M Response :=
  match or_null (Request.message req) with
  | None => ret (Status400 "Message is required")
  | Some message =>
      (let context := request_context req in
       let sessionId := request_sessionId context in
       let listName := Context.listName context in
       let userLocation := Context.userLocation context in
       let initialSlots := request_initialSlots context in
       let* stored := sessions_get sessionId in
       let session := session_or_new stored initialSlots in
       if isGreeting message
          && (Slots.keys_length (Session.slots session) =? 0)%nat
       then ret (chat_body WELCOME (Session.slots session) [] null)
       else
         let* interpretation :=
           interpretMessageWithGemini env message (Session.slots session) in
         if String.eqb (Interpretation.intentType interpretation)
                       "informational"
         then answer_turn interpretation session
         else recommend_turn interpretation sessionId listName userLocation)%turn
  end.

Definition handleChatSaved (req : Request.t) (w : World) : Response * World :=
  match chat_turn req w with
  | (Ok response, w') => (response, w')
  | (Throw error, w') => (Status500 error, w')
  end.
End Orchestrator.

(* ================================================================== *)
(** ** Sample runtime, places and turns                                *)
(* ================================================================== *)

Module Sample.

(** A runtime to evaluate with.  Its functions stand in for the real
    ones and agree with them at 0, so the distance between equal
    coordinates is 0. *)
Definition math : MathLib :=
  {| Math_PI := 355 # 113;
     Math_sin := fun x => x;
     Math_cos := fun _ => 1;
     Math_sqrt := fun x => x;
     Math_atan2 := fun y _ => y |}.

(** A number is printed as the digit of its integer part. *)
Definition digit (n : nat) : string :=
  String (ascii_of_nat (48 + n)) EmptyString.

Definition format : NumberFormat :=
  {| number_to_string := fun q => digit (Z.to_nat (Qnum q / Zpos (Qden q)));
     toLocaleString := fun q => digit (Z.to_nat (Qnum q / Zpos (Qden q))) |}.

Definition DQ : string := String (ascii_of_nat 34) EmptyString.

(** The text of an array of four strings. *)
Definition four_strings : string :=
  "[" ++ DQ ++ "a" ++ DQ ++ "," ++ DQ ++ "b" ++ DQ ++ ","
  ++ DQ ++ "c" ++ DQ ++ "," ++ DQ ++ "d" ++ DQ ++ "]".

(** A parser that knows the empty object, the empty array and the text
    above, and rejects everything else. *)
Definition json : JsonLib :=
  {| JSON_parse_reply := fun s =>
       if String.eqb s "{}"
       then Some (ReplyValue
                    (Reply.mk undefined undefined undefined undefined
                              undefined undefined undefined))
       else None;
     JSON_parse_explanations := fun s =>
       if String.eqb s "[]" then Some (AnArray [])
       else if String.eqb s four_strings
            then Some (AnArray [val "a"; val "b"; val "c"; val "d"])
            else None |}.

Definition place (id : string) (tags : list string)
  (placeId : nullable string) : Place.t :=
  {| Place.id := id;
     Place.name := val id;
     Place.lat := null;
     Place.lng := null;
     Place.address := null;
     Place.listName := null;
     Place.placeTags := val [];
     Place.notes := null;
     Place.tags := val tags;
     Place.type := null;
     Place.vibe := null;
     Place.priceLevel := null;
     Place.placeId := placeId |}.

Definition cafe : Place.t := place "Cafe Olimpico" ["cafe"] null.
Definition bakery : Place.t := place "Hof Kelsten" ["bakery"] (val "ChIJ1").

(** A place that meets every rule of the scorer. *)
Definition bistro : Place.t :=
  {| Place.id := "p1";
     Place.name := val "Bistro Vegan";
     Place.lat := val (91 # 2);
     Place.lng := val (-147 # 2);
     Place.address := null;
     Place.listName := val "Montreal";
     Place.placeTags := val [];
     Place.notes := null;
     Place.tags := val ["Restaurant"; "vegan"];
     Place.type := null;
     Place.vibe := val "Cozy and quiet";
     Place.priceLevel := val 1;
     Place.placeId := val "ChIJ2" |}.

Definition bistro_details : Details.t :=
  {| Details.placeId := val "ChIJ2";
     Details.name := val "Bistro Vegan";
     Details.address := null;
     Details.rating := val 5;
     Details.userRatingCount := val 7;
     Details.priceLevel := val 1;
     Details.categories :=
       val (Categories.mk (val "restaurant") (val "Restaurant") []);
     Details.contact := null;
     Details.openingHours := val (OpeningHours.mk (val []) (val true));
     Details.about := null |}.

Definition here : LatLng.t := LatLng.mk (91 # 2) (-147 # 2).

Definition all_slots : Slots.t :=
  {| Slots.category := val "restaurant";
     Slots.cuisine := val "vegan";
     Slots.price := val "cheap";
     Slots.vibe := val "cozy";
     Slots.openNow := val true;
     Slots.distanceKm := val 2 |}.

Definition category_only (c : string) : Slots.t :=
  {| Slots.category := val c;
     Slots.cuisine := undefined;
     Slots.price := undefined;
     Slots.vibe := undefined;
     Slots.openNow := undefined;
     Slots.distanceKm := undefined |}.

Definition cheap : Slots.t :=
  {| Slots.category := undefined;
     Slots.cuisine := undefined;
     Slots.price := val "cheap";
     Slots.vibe := undefined;
     Slots.openNow := undefined;
     Slots.distanceKm := undefined |}.

(** A provider that cannot be reached. *)
Definition unreachable : Prompt -> FetchOutcome := fun _ => FetchRejects.

(** A provider that answers every prompt with four strings. *)
Definition four_answers : Prompt -> FetchOutcome :=
  fun _ => FetchResponds true (BodyContent (val four_strings)).

(** Place details are never found. *)
Definition no_details : nullable string -> result (option Details.t) :=
  fun _ => Ok None.

(** No credential, no details, two saved places. *)
Definition offline : Env :=
  {| OPENROUTER_API_KEY := undefined;
     GEMINI_API_KEY := undefined;
     Date_now := 0;
     openrouter := unreachable;
     fetchPlaceDetails := no_details;
     places := [cafe; bakery] |}.

Definition with_key (provider : Prompt -> FetchOutcome) : Env :=
  {| OPENROUTER_API_KEY := val "sk-or-1";
     GEMINI_API_KEY := undefined;
     Date_now := 0;
     openrouter := provider;
     fetchPlaceDetails := no_details;
     places := [cafe; bakery] |}.

(** A provider that answers with prose and no JSON. *)
Definition small_talk : Prompt -> FetchOutcome :=
  fun _ => FetchResponds true
             (BodyContent (val "Sorry, I can not help with that.")).

Definition unscored (p : Place.t) : Scored.t := Scored.mk p None 0.

(** Five candidates to explain. *)
Definition five : list Scored.t :=
  [unscored bakery; unscored cafe; unscored bistro; unscored cafe;
   unscored bakery].

Definition fresh : World := mkWorld ∅ [].

Definition say (message : string) (slots : option Slots.t) : Request.t :=
  Request.mk (val message)
    (Some (Context.mk (Some "s1") None None slots)).

End Sample.

(* ================================================================== *)
(** ** What the specification says, in the terms of the model          *)
(* ================================================================== *)

(** Adding a tag to the combined tag set of a place. *)
Definition add_tag (tag : string) (p : Place.t) : Place.t :=
  {| Place.id := Place.id p;
     Place.name := Place.name p;
     Place.lat := Place.lat p;
     Place.lng := Place.lng p;
     Place.address := Place.address p;
     Place.listName := Place.listName p;
     Place.placeTags := Place.placeTags p;
     Place.notes := Place.notes p;
     Place.tags := val (or_empty (Place.tags p) ++ [tag])%list;
     Place.type := Place.type p;
     Place.vibe := Place.vibe p;
     Place.priceLevel := Place.priceLevel p;
     Place.placeId := Place.placeId p |}.



(** No slot is set: every property is missing or [null]. *)
Definition no_slot_set (s : Slots.t) : Prop :=
  is_nullish (Slots.category s) = true
  /\ is_nullish (Slots.cuisine s) = true
  /\ is_nullish (Slots.price s) = true
  /\ is_nullish (Slots.vibe s) = true
  /\ is_nullish (Slots.openNow s) = true
  /\ is_nullish (Slots.distanceKm s) = true.

(** [a] stands before [b] in [l]. *)
Definition stands_before {A} (l : list A) (a b : A) : Prop :=
  exists i j, (i < j)%nat /\ nth_error l i = Some a /\ nth_error l j = Some b.

(** The ranking as the specification words it: two results of equal
    score are in the order the candidate filter gave their places. *)
Definition ties_keep_filter_order (filtered : list Place.t)
  (ranked : list Scored.t) : Prop :=
  forall a b,
    stands_before ranked a b ->
    Scored.score a == Scored.score b ->
    stands_before filtered (Scored.place a) (Scored.place b).

(** Descending scores. *)
Definition score_ge (a b : Scored.t) : Prop :=
  Scored.score b <= Scored.score a.

(** The candidates of a list whose score is [v]. *)
Definition with_score (v : Q) (l : list Scored.t) : list Scored.t :=
  List.filter (fun c => Qeq_bool (Scored.score c) v) l.

Definition without_score (c : Scored.t) : Candidate.t :=
  Candidate.mk (Scored.place c) (Scored.enrichedData c).

(** What a result record shows of the candidate it was made from. *)
Definition result_key (r : ResultRecord.t) : string * Q :=
  (ResultRecord.id r, ResultRecord.score r).

Definition scored_key (c : Scored.t) : string * Q :=
  (Place.id (Scored.place c), Scored.score c).

(** The answers of the provider after which the interpreter cannot read
    an intent: the call throws (no connection, or a status that is not
    2xx), or the response holds no text that [JSON.parse] accepts. *)
Definition no_intent_from `{JsonLib} (outcome : FetchOutcome) : Prop :=
  outcome = FetchRejects
  \/ (exists body, outcome = FetchResponds false body)
  \/ outcome = FetchResponds true BodyUnparseable
  \/ (exists content,
        outcome = FetchResponds true (BodyContent content)
        /\ JSON_parse_reply (json_object_text content) = None).

(** The answers of the provider that are failures for [n] candidates:
    the call throws, or the array received has another length. *)
Definition no_explanations_from `{JsonLib} (n : nat) (outcome : FetchOutcome)
  : Prop :=
  outcome = FetchRejects
  \/ (exists body, outcome = FetchResponds false body)
  \/ (exists content items,
        outcome = FetchResponds true (BodyContent content)
        /\ JSON_parse_explanations (json_array_text content)
           = Some (AnArray items)
        /\ List.length items <> n).

(** The canned answer to a greeting. *)
Definition welcome_response (slots : Slots.t) : Response :=
  Json {| ChatBody.mode := "recommendations";
          ChatBody.assistantMessage := WELCOME;
          ChatBody.updatedSlots := slots;
          ChatBody.results := [];
          ChatBody.optionalQuestion := null |}.

(** The rating adds a whole number of points, or nothing.  Every
    contribution to the score is then a whole number from 0 to 20 and
    the additions of the runtime, which are additions of doubles, are
    exact. *)
Definition whole_rating_points (enrichedData : option Details.t) : Prop :=
  exists n : nat, rating_points enrichedData == inject_Z (Z.of_nat n).
From Stdlib Require SetoidList SetoidPermutation Qabs.

(* ================================================================== *)
(** ** Numbers that may be [NaN], sorting with a comparator            *)
(* ================================================================== *)

(** [Number(x)] of a coordinate in arithmetic: [null] is 0 and
    [undefined] is [NaN], which is [None]. *)
Definition to_number (x : nullable Q) : option Q :=
  match x with
  | val q => Some q
  | null => Some 0
  | undefined => None
  end.

(** [x === y] of a property and a value that is [null] or a number. *)
Definition number_is (x : nullable Q) (y : option Q) : bool :=
  match x, y with
  | null, None => true
  | val a, Some b => Qeq_bool a b
  | _, _ => false
  end.

(** [x === y] of two properties that hold numbers. *)
Definition number_strict_eq (x y : nullable Q) : bool :=
  match x, y with
  | undefined, undefined => true
  | null, null => true
  | val a, val b => Qeq_bool a b
  | _, _ => false
  end.

(** [a < b] *)
Definition Qlt_bool (a b : Q) : bool := negb (Qle_bool b a).

(** [x || null] as a property. *)
Definition or_null_value {A} `{Truthy A} (x : nullable A) : nullable A :=
  match or_null x with
  | Some a => val a
  | None => null
  end.

(** [array.sort(compare)] for a consistent comparator, [behind x y]
    telling that [compare(x, y) > 0]: the sort is stable, an element
    goes behind those that must come first and those that compare equal
    and were before it. *)
Fixpoint insert_behind {A} (behind : A -> A -> bool) (x : A) (sorted : list A)
  : list A :=
  match sorted with
  | [] => [x]
  | y :: rest =>
      if behind x y then y :: insert_behind behind x rest
      else x :: sorted
  end.

Definition sort_with {A} (behind : A -> A -> bool) (l : list A) : list A :=
  fold_right (insert_behind behind) [] l.

(** [l.map(f)] where a [NaN] makes the whole result unknown. *)
Fixpoint map_defined {A B} (f : A -> option B) (l : list A)
  : option (list B) :=
  match l with
  | [] => Some []
  | x :: rest =>
      match f x, map_defined f rest with
      | Some y, Some ys => Some (y :: ys)
      | _, _ => None
      end
  end.

(* ================================================================== *)
(** ** Distance and scoring utilities ([api/ai.js], third part)        *)
(* ================================================================== *)

Module ScoreContext.
Record t : Type := mk {
  userLat : nullable Q;
  userLng : nullable Q;
  timeOfDay : nullable string;
  category : nullable string;
  priceLevel : nullable Q;
  vibe : nullable string;
}.
End ScoreContext.

Module Scoring.
Section WithMath.
Context `{MathLib}.

Definition toRadians (degrees : Q) : Q := degrees * (Math_PI / 180).

Definition calculateDistance (lat1 lng1 lat2 lng2 : Q) : Q :=
  let R := 6371 in
  let dLat := toRadians (lat2 - lat1) in
  let dLng := toRadians (lng2 - lng1) in
  let a :=
    Math_sin (dLat / 2) * Math_sin (dLat / 2)
    + Math_cos (toRadians lat1)
      * Math_cos (toRadians lat2)
      * Math_sin (dLng / 2)
      * Math_sin (dLng / 2) in
  let c := 2 * Math_atan2 (Math_sqrt a) (Math_sqrt (1 - a)) in
  R * c.

(** The base score and the distance rule: closer places get more, up to
    30.  [None] is [NaN], which a coordinate that is [undefined]
    gives.  The [NaN] that rounding can give where a user location is
    set ([Math.sqrt(1 - a)] for nearly antipodal points, [a] rounding
    above 1) is not told apart: what is stated of a score that is a
    number holds of the numbers the runtime returns. *)
Definition distance_scored (place : Place.t) (context : ScoreContext.t)
  : option Q :=
  let score := 50 in
  match or_null (ScoreContext.userLat context),
        or_null (ScoreContext.userLng context) with
  | Some userLat, Some userLng =>
      match to_number (Place.lat place), to_number (Place.lng place) with
      | Some plat, Some plng =>
          let distance := calculateDistance userLat userLng plat plng in
          let distanceScore := Qmax 0 (30 - distance * 2) in
          Some (score + distanceScore)
      | _, _ => None
      end
  | _, _ => Some score
  end.

(** The score of a place in a context.  The rule of the time of day has
    an empty body. *)
Definition scorePlace (place : Place.t) (context : ScoreContext.t)
  : option Q :=
  let score := distance_scored place context in
  let score :=
    if truthy (ScoreContext.category context)
       && match ScoreContext.category context with
          | val c => nullable_string_eqb (Place.type place) c
          | _ => false
          end
    then option_map (fun s => s + 20) score else score in
  let score :=
    if negb (match ScoreContext.priceLevel context with
             | undefined => true
             | _ => false
             end)
       && number_strict_eq (Place.priceLevel place)
                           (ScoreContext.priceLevel context)
    then option_map (fun s => s + 10) score else score in
  let score :=
    if truthy (ScoreContext.vibe context)
       && match ScoreContext.vibe context with
          | val v => nullable_string_eqb (Place.vibe place) v
          | _ => false
          end
    then option_map (fun s => s + 10) score else score in
  option_map (fun s => Qmin 100 (Qmax 0 s)) score.

(** [(a, b) => b.score - a.score] is positive. *)
Definition lower_score (a b : Place.t * Q) : bool := Qlt_bool (snd a) (snd b).

(** The places by descending score; [None] when a score is [NaN], the
    order being then left to the runtime. *)
Definition sortByScore (places : list Place.t) (context : ScoreContext.t)
  : option (list Place.t) :=
  match map_defined
          (fun place =>
             option_map (fun score => (place, score))
                        (scorePlace place context))
          places with
  | Some scored => Some (List.map fst (sort_with lower_score scored))
  | None => None
  end.

End WithMath.
End Scoring.

(* ================================================================== *)
(** ** Recommendations from a context ([api/ai.js], first part)        *)
(* ================================================================== *)

Module RecContext.
Record t : Type := mk {
  timeOfDay : nullable string;
  category : nullable string;
  priceLevel : nullable Q;
  vibe : nullable string;
  userLat : nullable Q;
  userLng : nullable Q;
}.
End RecContext.

Module Interpreted.
Record t : Type := mk {
  timeOfDay : string;
  category : option string;
  priceLevel : option Q;
  vibe : option string;
  userLocation : option LatLng.t;
}.
End Interpreted.

Module Recommendation.
Record t : Type := mk {
  interpreted : Interpreted.t;
  results : list Place.t;
}.
End Recommendation.

Section Recommendations.
Context `{MathLib}.

Definition interpret_context (context : RecContext.t) : Interpreted.t :=
  {| Interpreted.timeOfDay := or_else (RecContext.timeOfDay context) "any";
     Interpreted.category := or_null (RecContext.category context);
     Interpreted.priceLevel := or_null (RecContext.priceLevel context);
     Interpreted.vibe := or_null (RecContext.vibe context);
     Interpreted.userLocation :=
       match or_null (RecContext.userLat context),
             or_null (RecContext.userLng context) with
       | Some lat, Some lng => Some (LatLng.mk lat lng)
       | _, _ => None
       end |}.

(** [Math.sqrt(Math.pow(a.lat - u.lat, 2) + Math.pow(a.lng - u.lng, 2))] *)
Definition flat_distance (u : LatLng.t) (p : Place.t) : option Q :=
  match to_number (Place.lat p), to_number (Place.lng p) with
  | Some lat, Some lng =>
      Some (Math_sqrt ((lat - LatLng.lat u) * (lat - LatLng.lat u)
                       + (lng - LatLng.lng u) * (lng - LatLng.lng u)))
  | _, _ => None
  end.

(** [(a, b) => distA - distB] is positive. *)
Definition farther (a b : Place.t * Q) : bool := Qlt_bool (snd b) (snd a).

(** The filters of [getRecommendations], before the sort.  The price
    filter always runs, since the interpreted price level is [null] and
    never [undefined] when the context has none. *)
Definition recommendation_filter (interpreted : Interpreted.t)
  (places : list Place.t) : list Place.t :=
  let results := places in
  let results :=
    match Interpreted.category interpreted with
    | Some category =>
        List.filter (fun p => nullable_string_eqb (Place.type p) category)
                    results
    | None => results
    end in
  let results :=
    List.filter
      (fun p => number_is (Place.priceLevel p)
                          (Interpreted.priceLevel interpreted))
      results in
  let results :=
    match Interpreted.vibe interpreted with
    | Some vibe =>
        List.filter (fun p => nullable_string_eqb (Place.vibe p) vibe) results
    | None => results
    end in
  results.

(** [None] when a distance is [NaN]: the order is then left to the
    runtime. *)
Definition getRecommendations (places : list Place.t)
  (context : RecContext.t) : option Recommendation.t :=
  let interpreted := interpret_context context in
  let results := recommendation_filter interpreted places in
  let sorted :=
    match Interpreted.userLocation interpreted with
    | Some u =>
        option_map
          (fun keyed => List.map fst (sort_with farther keyed))
          (map_defined
             (fun p => option_map (fun d => (p, d)) (flat_distance u p))
             results)
    | None => Some results
    end in
  option_map
    (fun results => Recommendation.mk interpreted (firstn 10 results))
    sorted.

(** [enrichPlaces]: nothing is enriched yet. *)
Definition enrichPlaces (places : list Place.t) : nat :=
  let enrichedCount := 0%nat in
  match places with
  | [] => 0%nat
  | _ :: _ => enrichedCount
  end.

End Recommendations.

(* ================================================================== *)
(** ** Fetching and normalizing place details ([api/placeDetails.js])  *)
(* ================================================================== *)

(** A text of the response: a plain string, or a localized text, whose
    [text] the API never leaves empty. *)
Inductive DisplayText : Type :=
| PlainText (s : string)
| LocalizedText (first : ascii) (rest : string).

Module Period.
Record t : Type := mk {
  day : Q;
  openTime : string;
  closeTime : string;
}.
End Period.

Module RawHours.
Record t : Type := mk {
  weekdayDescriptions : nullable (list string);
  openNow : nullable bool;
  periods : nullable (list Period.t);
}.
End RawHours.

Module RawReview.
Record t : Type := mk {
  (** [authorAttribution?.displayName] *)
  authorName : nullable string;
  rating : nullable Q;
  (** [text?.text] *)
  text : nullable string;
  publishTime : nullable string;
}.
End RawReview.

Module Raw.
(** The body of the response of the Places API. *)
Record t : Type := mk {
  displayName : nullable DisplayText;
  formattedAddress : nullable string;
  websiteUri : nullable string;
  nationalPhoneNumber : nullable string;
  internationalPhoneNumber : nullable string;
  rating : nullable Q;
  userRatingCount : nullable Q;
  priceLevel : nullable Q;
  primaryType : nullable string;
  primaryTypeDisplayName : nullable DisplayText;
  types : nullable (list string);
  regularOpeningHours : nullable RawHours.t;
  reviews : nullable (list RawReview.t);
  editorialSummary : nullable DisplayText;
}.
End Raw.

Module Review.
Record t : Type := mk {
  author : string;
  rating : nullable Q;
  text : nullable string;
  relativeTime : nullable string;
}.
End Review.

Module Normalized.
(** What [normalizePlaceDetails] returns: the properties that the chat
    reads, which are a [Details.t], the periods of the opening hours and
    the reviews. *)
Record t : Type := mk {
  details : Details.t;
  periods : nullable (list Period.t);
  reviews : list Review.t;
}.
End Normalized.

(** [x?.text || x || null] *)
Definition text_or_null (x : nullable DisplayText) : nullable string :=
  match x with
  | val (PlainText s) => or_null_value (val s)
  | val (LocalizedText c r) => val (String c r)
  | _ => null
  end.

(** [x ? (typeof x === 'string' ? x : x.text || null) : null] *)
Definition display_name_or_null (x : nullable DisplayText) : nullable string :=
  match x with
  | val (PlainText s) => if truthy s then val s else null
  | val (LocalizedText c r) => val (String c r)
  | _ => null
  end.

#[global] Instance truthy_hours : Truthy RawHours.t := fun _ => true.

Module PlaceDetails.

Definition normalize_review (review : RawReview.t) : Review.t :=
  {| Review.author := or_else (RawReview.authorName review) "Anonymous";
     Review.rating := or_null_value (RawReview.rating review);
     Review.text := or_null_value (RawReview.text review);
     Review.relativeTime := or_null_value (RawReview.publishTime review) |}.

Definition normalizePlaceDetails (data : Raw.t) (placeId : nullable string)
  : Normalized.t :=
  let openingHours :=
    match Raw.regularOpeningHours data with
    | val hours =>
        val {| OpeningHours.weekdayText :=
                 val (or_empty (RawHours.weekdayDescriptions hours));
               OpeningHours.openNow :=
                 or_null_value (RawHours.openNow hours) |}
    | _ => null
    end in
  let periods :=
    match Raw.regularOpeningHours data with
    | val hours =>
        match RawHours.periods hours with
        | val p => val p
        | _ => null
        end
    | _ => undefined
    end in
  let reviews :=
    match Raw.reviews data with
    | val rs => List.map normalize_review (firstn 3 rs)
    | _ => []
    end in
  let primaryDisplayName :=
    display_name_or_null (Raw.primaryTypeDisplayName data) in
  let types := or_empty (Raw.types data) in
  let categories :=
    {| Categories.primary := or_null_value (Raw.primaryType data);
       Categories.primaryDisplayName := primaryDisplayName;
       Categories.types := types |} in
  {| Normalized.details :=
       {| Details.placeId := placeId;
          Details.name := text_or_null (Raw.displayName data);
          Details.address := or_null_value (Raw.formattedAddress data);
          Details.rating := or_null_value (Raw.rating data);
          Details.userRatingCount := or_null_value (Raw.userRatingCount data);
          Details.priceLevel := or_null_value (Raw.priceLevel data);
          Details.categories := val categories;
          Details.contact :=
            val {| Contact.phone :=
                     or_null_value
                       (if truthy (Raw.nationalPhoneNumber data)
                        then Raw.nationalPhoneNumber data
                        else Raw.internationalPhoneNumber data);
                   Contact.website := or_null_value (Raw.websiteUri data) |};
          Details.openingHours := openingHours;
          Details.about := text_or_null (Raw.editorialSummary data) |};
     Normalized.periods := periods;
     Normalized.reviews := reviews |}.

(** [await response.json()]: it rejects, or gives [null], or the data. *)
Inductive Body : Type :=
| BodyRejects
| BodyNull
| BodyData (data : Raw.t).

(** [await fetch(url, ...)] *)
Inductive Response : Type :=
| Rejects
| Responds (ok : bool) (status : Z) (body : Body).

Record Env : Type := mkEnv {
  GOOGLE_PLACES_API_KEY : nullable string;
  GOOGLE_MAPS_API_KEY : nullable string;
  (** the answer of the API for a place identifier *)
  places_api : string -> Response;
}.

(** [fetchPlaceDetails(placeId)]: what it resolves to, and the place
    identifiers it sent to the API. *)
Definition fetchPlaceDetails (env : Env) (placeId : nullable string)
  : option Normalized.t * list string :=
  let apiKey :=
    if truthy (GOOGLE_PLACES_API_KEY env) then GOOGLE_PLACES_API_KEY env
    else GOOGLE_MAPS_API_KEY env in
  if negb (truthy apiKey) then (None, [])
  else
    match or_null placeId with
    | None => (None, [])
    | Some id =>
        (try_catch
           (match places_api env id with
            | Rejects => Throw NetworkError
            | Responds ok status body =>
                if negb ok then
                  if (status =? 404)%Z then Ok None else Ok None
                else
                  match body with
                  | BodyRejects => Throw SyntaxError
                  | BodyNull => Throw TypeError
                  | BodyData data => Ok (Some (normalizePlaceDetails data placeId))
                  end
            end)
           (fun error => None),
         [id])
    end.

(** The fetcher as the chat calls it. *)
Definition fetcher (env : Env) (placeId : nullable string)
  : result (option Details.t) :=
  Ok (option_map Normalized.details (fst (fetchPlaceDetails env placeId))).

End PlaceDetails.

(* ================================================================== *)
(** ** The place store, in full ([api/data.js])                        *)
(* ================================================================== *)

Module PlaceData.
(** The argument of [addPlace]: any property may be missing. *)
Record t : Type := mk {
  name : nullable string;
  lat : nullable Q;
  lng : nullable Q;
  address : nullable string;
  listName : nullable string;
  listTags : nullable (list string);
  placeTags : nullable (list string);
  notes : nullable string;
  url : nullable string;
  savedAt : nullable string;
  tags : nullable (list string);
  type : nullable string;
  vibe : nullable string;
  priceLevel : nullable Q;
  placeId : nullable string;
  comment : nullable string;
}.
End PlaceData.

Module Saved.
(** A place of the store: the properties that the chat reads, which are
    a [Place.t], and the others. *)
Record t : Type := mk {
  place : Place.t;
  listTags : list string;
  url : nullable string;
  savedAt : nullable string;
  comment : nullable string;
  createdAt : string;
  geoStatus : nullable string;
}.
Definition id (p : t) : string := Place.id (place p).
End Saved.

Module Coords.
(** The second argument of [updatePlaceCoords]. *)
Record t : Type := mk {
  lat : nullable Q;
  lng : nullable Q;
  placeId : nullable string;
  address : nullable string;
  geoStatus : nullable string;
}.
End Coords.

(** [coords.f !== undefined ? coords.f : old] *)
Definition unless_undefined {A} (new old : nullable A) : nullable A :=
  match new with
  | undefined => old
  | _ => new
  end.

Module Data.

(** [addPlace(placeData)], with the identifier that [generateId()] gives
    and the time that [new Date().toISOString()] gives; the place and
    the array after the push. *)
Definition addPlace (id createdAt : string) (placeData : PlaceData.t)
  (places : list Saved.t) : Saved.t * list Saved.t :=
  let place :=
    {| Saved.place :=
         {| Place.id := id;
            Place.name := val (or_else (PlaceData.name placeData) "");
            Place.lat := or_null_value (PlaceData.lat placeData);
            Place.lng := or_null_value (PlaceData.lng placeData);
            Place.address := or_null_value (PlaceData.address placeData);
            Place.listName := or_null_value (PlaceData.listName placeData);
            Place.placeTags := val (or_empty (PlaceData.placeTags placeData));
            Place.notes := or_null_value (PlaceData.notes placeData);
            Place.tags := val (or_empty (PlaceData.tags placeData));
            Place.type := or_null_value (PlaceData.type placeData);
            Place.vibe := or_null_value (PlaceData.vibe placeData);
            Place.priceLevel := or_null_value (PlaceData.priceLevel placeData);
            Place.placeId := or_null_value (PlaceData.placeId placeData) |};
       Saved.listTags := or_empty (PlaceData.listTags placeData);
       Saved.url := or_null_value (PlaceData.url placeData);
       Saved.savedAt := or_null_value (PlaceData.savedAt placeData);
       Saved.comment := or_null_value (PlaceData.comment placeData);
       Saved.createdAt := createdAt;
       Saved.geoStatus := undefined |} in
  (place, (places ++ [place])%list).

Definition getAllPlaces (places : list Saved.t) : list Saved.t := places.

(** [places.find(p => p.id === id) || null] *)
Definition getPlaceById (places : list Saved.t) (id : string)
  : option Saved.t :=
  List.find (fun p => String.eqb (Saved.id p) id) places.

(** [Math.abs(x - y) < 0.0001], false when [x] is [NaN]. *)
Definition close_to (x : nullable Q) (y : Q) : bool :=
  match to_number x with
  | Some a => Qlt_bool (Qabs.Qabs (a - y)) (1 # 10000)
  | None => false
  end.

Definition placeExists (places : list Saved.t) (name : string) (lat lng : Q)
  : bool :=
  existsb
    (fun p =>
       nullable_string_eqb (Place.name (Saved.place p)) name
       && close_to (Place.lat (Saved.place p)) lat
       && close_to (Place.lng (Saved.place p)) lng)
    places.

(** [p.f === x] for two properties that hold texts; the null ones are
    told apart. *)
Definition text_strict_eq (x y : nullable string) : bool :=
  match x, y with
  | undefined, undefined => true
  | null, null => true
  | val a, val b => String.eqb a b
  | _, _ => false
  end.

(** The callback of [placeExistsByUrl]. *)
Definition same_by_url (name : string) (url note : nullable string)
  (p : Saved.t) : bool :=
  let p_url := Saved.url p in
  let p_notes := Place.notes (Saved.place p) in
  if negb (nullable_string_eqb (Place.name (Saved.place p)) name) then false
  else if truthy url && truthy p_url then text_strict_eq p_url url
  else if negb (truthy url) && negb (truthy p_url)
          && truthy note && truthy p_notes
  then text_strict_eq p_notes note
  else if (truthy url && negb (truthy p_url))
          || (negb (truthy url) && truthy p_url)
  then false
  else negb (truthy url) && negb (truthy p_url)
       && negb (truthy note) && negb (truthy p_notes).

(** [note = null]: the default of a parameter that is [undefined]. *)
Definition default_null {A} (x : nullable A) : nullable A :=
  match x with
  | undefined => null
  | _ => x
  end.

(** [placeExistsByUrl(name, url, note = null)] *)
Definition placeExistsByUrl (places : list Saved.t) (name : nullable string)
  (url note : nullable string) : bool :=
  match or_null name with
  | None => false
  | Some n => existsb (same_by_url n url (default_null note)) places
  end.

Definition clearPlaces (places : list Saved.t) : list Saved.t := [].

Definition getPlacesCount (places : list Saved.t) : nat := List.length places.

Definition getPlacesByListName (places : list Saved.t) (listName : string)
  : list Saved.t :=
  List.filter
    (fun p => nullable_string_eqb (Place.listName (Saved.place p)) listName)
    places.

(** The assignments of [updatePlaceCoords] to the place found. *)
Definition with_coords (coords : Coords.t) (p : Saved.t) : Saved.t :=
  let place := Saved.place p in
  {| Saved.place :=
       {| Place.id := Place.id place;
          Place.name := Place.name place;
          Place.lat := unless_undefined (Coords.lat coords) (Place.lat place);
          Place.lng := unless_undefined (Coords.lng coords) (Place.lng place);
          Place.address :=
            unless_undefined (Coords.address coords) (Place.address place);
          Place.listName := Place.listName place;
          Place.placeTags := Place.placeTags place;
          Place.notes := Place.notes place;
          Place.tags := Place.tags place;
          Place.type := Place.type place;
          Place.vibe := Place.vibe place;
          Place.priceLevel := Place.priceLevel place;
          Place.placeId :=
            unless_undefined (Coords.placeId coords) (Place.placeId place) |};
     Saved.listTags := Saved.listTags p;
     Saved.url := Saved.url p;
     Saved.savedAt := Saved.savedAt p;
     Saved.comment := Saved.comment p;
     Saved.createdAt := Saved.createdAt p;
     Saved.geoStatus :=
       unless_undefined (Coords.geoStatus coords) (Saved.geoStatus p) |}.

(** [updatePlaceCoords(placeId, coords)]: the first place with the
    identifier is changed where it stands; what is returned, and the
    array afterwards. *)
Fixpoint updatePlaceCoords (places : list Saved.t) (placeId : string)
  (coords : Coords.t) : option Saved.t * list Saved.t :=
  match places with
  | [] => (None, [])
  | p :: rest =>
      if String.eqb (Saved.id p) placeId then
        (Some (with_coords coords p), with_coords coords p :: rest)
      else
        let (found, rest') := updatePlaceCoords rest placeId coords in
        (found, p :: rest')
  end.

(** What the chat sees of the store. *)
Definition view (places : list Saved.t) : Store :=
  List.map Saved.place places.

End Data.

(* ================================================================== *)
(** ** Import of a list ([api/import.js], [processCSVFile])            *)
(* ================================================================== *)

Module Row.
(** A record of the parsed file, by column name; a column may be
    missing. *)
Record t : Type := mk {
  Title : nullable string;
  Tags : nullable string;
  Note : nullable string;
  URL : nullable string;
  Comment : nullable string;
}.
End Row.

(** [parse(csvContent, options)] of the library; [None] when it
    throws. *)
Class CsvLib := {
  csv_parse : string -> option (list Row.t);
}.

Module ParsedCsv.
Record t : Type := mk {
  listName : string;
  listTags : list string;
  places : list PlaceData.t;
  totalRows : nat;
}.
End ParsedCsv.

(** [s.split(sep)] for a separator of one unit. *)
Fixpoint split_on (sep : ascii) (s : string) : list string :=
  match s with
  | EmptyString => [EmptyString]
  | String c r =>
      if Ascii.eqb c sep then EmptyString :: split_on sep r
      else
        match split_on sep r with
        | p :: ps => String c p :: ps
        | [] => [String c EmptyString]
        end
  end.

(** [text.split(';').map(tag => tag.trim()).filter(tag => tag.length > 0)] *)
Definition parse_tags (text : string) : list string :=
  List.filter (fun tag => truthy tag)
    (List.map trim (split_on ";" text)).

(** [!x || x.trim() === ''] *)
Definition blank (x : nullable string) : bool :=
  match or_null x with
  | Some s => String.eqb (trim s) ""
  | None => true
  end.

(** [x ? x.trim() : null] *)
Definition trimmed_or_null (x : nullable string) : nullable string :=
  match or_null x with
  | Some s => val (trim s)
  | None => null
  end.

(** The loop that pushes the place tags that are not there yet. *)
Fixpoint push_new_tags (allTags placeTags : list string) : list string :=
  match placeTags with
  | [] => allTags
  | tag :: rest =>
      push_new_tags
        (if existsb (String.eqb tag) allTags then allTags
         else (allTags ++ [tag])%list)
        rest
  end.

Definition place_of_row (listName : string) (listTags : list string)
  (row : Row.t) (title : string) : PlaceData.t :=
  let placeTags :=
    match or_null (Row.Tags row) with
    | Some tags => if truthy (trim tags) then parse_tags tags else []
    | None => []
    end in
  let allTags := push_new_tags listTags placeTags in
  {| PlaceData.name := val (trim title);
     PlaceData.lat := null;
     PlaceData.lng := null;
     PlaceData.address := null;
     PlaceData.listName := val listName;
     PlaceData.listTags := val listTags;
     PlaceData.placeTags := val placeTags;
     PlaceData.notes := trimmed_or_null (Row.Note row);
     PlaceData.url := trimmed_or_null (Row.URL row);
     PlaceData.savedAt := undefined;
     PlaceData.tags := val allTags;
     PlaceData.type := undefined;
     PlaceData.vibe := undefined;
     PlaceData.priceLevel := undefined;
     PlaceData.placeId := null;
     PlaceData.comment := trimmed_or_null (Row.Comment row) |}.

(** The loop over the rows: those without a title are passed over. *)
Fixpoint places_of_rows (listName : string) (listTags : list string)
  (records : list Row.t) : list PlaceData.t :=
  match records with
  | [] => []
  | row :: rest =>
      if blank (Row.Title row) then places_of_rows listName listTags rest
      else
        match Row.Title row with
        | val title =>
            place_of_row listName listTags row title
            :: places_of_rows listName listTags rest
        | _ => places_of_rows listName listTags rest
        end
  end.

Section CsvImport.
Context `{CsvLib}.

(** [None] when the file cannot be parsed: the error is thrown again. *)
Definition parseCSV (csvContent listName : string) : option ParsedCsv.t :=
  match csv_parse csvContent with
  | None => None
  | Some records =>
      match records with
      | [] => Some (ParsedCsv.mk listName [] [] 0)
      | metadataRow :: rest =>
          let totalRows := List.length records in
          if blank (Row.Title metadataRow) then
            let listTags :=
              match or_null (Row.Tags metadataRow) with
              | Some tags => parse_tags tags
              | None => []
              end in
            Some (ParsedCsv.mk listName listTags
                    (places_of_rows listName listTags rest) totalRows)
          else
            Some (ParsedCsv.mk listName []
                    (places_of_rows listName [] records) totalRows)
      end
  end.

End CsvImport.

(** [validatePlaceData(placeData)]; a coordinate of the model is a
    number, so the two tests of [typeof] pass. *)
Definition validatePlaceData (placeData : PlaceData.t) : bool :=
  match or_null (PlaceData.name placeData),
        or_null (PlaceData.lat placeData),
        or_null (PlaceData.lng placeData) with
  | Some _, Some lat, Some lng =>
      if Qlt_bool lat (-90) || Qlt_bool 90 lat then false
      else if Qlt_bool lng (-180) || Qlt_bool 180 lng then false
      else true
  | _, _, _ => false
  end.

Module Preview.
Record t : Type := mk {
  id : string;
  name : nullable string;
  url : nullable string;
  notes : nullable string;
  placeTags : nullable (list string);
}.
End Preview.

Module ImportCount.
(** The counters and lists of [processCSVFile]. *)
Record t : Type := mk {
  imported : nat;
  duplicates : nat;
  skipped : nat;
  placesPreview : list Preview.t;
  importedPlaceIds : list string;
}.
Definition zero : t := mk 0 0 0 [] [].
End ImportCount.

Module ImportResult.
Record t : Type := mk {
  listName : string;
  listTags : list string;
  totalRows : nat;
  count : ImportCount.t;
}.
End ImportResult.

(** The loop of [processCSVFile].  [fresh n] is the identifier and the
    time that the [n]-th [addPlace] of the call gets. *)
Fixpoint import_places (fresh : nat -> string * string)
  (placesData : list PlaceData.t) (count : ImportCount.t)
  (places : list Saved.t) : ImportCount.t * list Saved.t :=
  match placesData with
  | [] => (count, places)
  | placeData :: rest =>
      if blank (PlaceData.name placeData) then
        import_places fresh rest
          (ImportCount.mk (ImportCount.imported count)
             (ImportCount.duplicates count)
             (S (ImportCount.skipped count))
             (ImportCount.placesPreview count)
             (ImportCount.importedPlaceIds count))
          places
      else if Data.placeExistsByUrl places (PlaceData.name placeData)
                (PlaceData.url placeData) (PlaceData.notes placeData) then
        import_places fresh rest
          (ImportCount.mk (ImportCount.imported count)
             (S (ImportCount.duplicates count))
             (ImportCount.skipped count)
             (ImportCount.placesPreview count)
             (ImportCount.importedPlaceIds count))
          places
      else
        let (id, createdAt) := fresh (ImportCount.imported count) in
        let (place, places') := Data.addPlace id createdAt placeData places in
        let preview := ImportCount.placesPreview count in
        import_places fresh rest
          (ImportCount.mk (S (ImportCount.imported count))
             (ImportCount.duplicates count)
             (ImportCount.skipped count)
             (if (List.length preview <? 5)%nat
              then (preview
                    ++ [Preview.mk (Saved.id place)
                          (Place.name (Saved.place place))
                          (Saved.url place)
                          (Place.notes (Saved.place place))
                          (Place.placeTags (Saved.place place))])%list
              else preview)
             (ImportCount.importedPlaceIds count ++ [Saved.id place])%list)
          places'
  end.

Section ProcessCsv.
Context `{CsvLib}.

(** [None] when [parseCSV] throws. *)
Definition processCSVFile (fresh : nat -> string * string)
  (csvContent listName : string) (places : list Saved.t)
  : option (ImportResult.t * list Saved.t) :=
  match parseCSV csvContent listName with
  | None => None
  | Some parsed =>
      let (count, places') :=
        import_places fresh (ParsedCsv.places parsed) ImportCount.zero
                      places in
      Some (ImportResult.mk (ParsedCsv.listName parsed)
              (ParsedCsv.listTags parsed) (ParsedCsv.totalRows parsed)
              count,
            places')
  end.

End ProcessCsv.

(* ================================================================== *)
(** ** Further notions used to state properties                        *)
(* ================================================================== *)



(** One of the texts of a place contains the needle, case folded. *)
Definition some_text_contains (texts : list (nullable string))
  (needle : string) : Prop :=
  exists t, In (val t) texts /\ includes (toLowerCase t) needle = true.

(** The session a turn works on: the stored one, or a new one with the
    slots of the request. *)
Definition turn_session `{NumberFormat} (env : Env) (req : Request.t)
  (w : World) : Session.t :=
  session_or_new
    (sessions w !! request_sessionId env (request_context req))
    (request_initialSlots (request_context req)).

(** The test that sends a turn to the welcome. *)
Definition greeted `{NumberFormat} (env : Env) (req : Request.t) (w : World)
  (message : string) : bool :=
  isGreeting message
  && (Slots.keys_length (Session.slots (turn_session env req w)) =? 0)%nat.

(** Scores of results, best first. *)
Definition result_ge (a b : ResultRecord.t) : Prop :=
  ResultRecord.score b <= ResultRecord.score a.

(** A code unit occurs in a text. *)
Fixpoint contains_unit (c : ascii) (s : string) : bool :=
  match s with
  | EmptyString => false
  | String a r => Ascii.eqb a c || contains_unit c r
  end.

(** Two candidates have the same score. *)
Definition same_score (a b : Scored.t) : Prop :=
  Scored.score a == Scored.score b.

(** Strictly descending scores. *)
Definition score_gt (a b : Scored.t) : Prop :=
  Scored.score b < Scored.score a.

(** What is known of a place that [parseCSV] returns. *)
Definition parsed_place_ok (listName : string) (listTags : list string)
  (d : PlaceData.t) : Prop :=
  blank (PlaceData.name d) = false
  /\ (exists title, PlaceData.name d = val (trim title))
  /\ PlaceData.listName d = val listName
  /\ PlaceData.listTags d = val listTags
  /\ PlaceData.lat d = null /\ PlaceData.lng d = null
  /\ PlaceData.placeId d = null
  /\ exists placeTags extra,
       PlaceData.placeTags d = val placeTags
       /\ PlaceData.tags d = val (listTags ++ extra)%list
       /\ List.NoDup extra
       /\ (forall t, In t extra -> In t placeTags /\ ~ In t listTags)
       /\ (forall t, In t placeTags -> In t (listTags ++ extra))
       /\ Forall (fun t => t <> "") placeTags.


(* ================================================================== *)
(** ** Further samples                                                 *)
(* ================================================================== *)

Module Demo.

(** A parser that reads the empty object as a question about the hours
    of a place, and nothing else. *)
Definition json_question : JsonLib :=
  {| JSON_parse_reply := fun s =>
       if String.eqb s "{}"
       then Some (ReplyValue
                    (Reply.mk (val "informational") undefined
                              (val "Cafe Olimpico") (val "hours")
                              undefined undefined undefined))
       else None;
     JSON_parse_explanations := fun _ => None |}.

(** A provider that answers every prompt with the empty object. *)
Definition empty_object : Prompt -> FetchOutcome :=
  fun _ => FetchResponds true (BodyContent (val "{}")).

(** Four candidates to explain. *)
Definition four : list Scored.t :=
  [Sample.unscored Sample.bakery; Sample.unscored Sample.cafe;
   Sample.unscored Sample.bistro; Sample.unscored Sample.cafe].

(** Three candidates with three scores. *)
Definition low : Scored.t := Scored.mk Sample.cafe None 10.
Definition high : Scored.t := Scored.mk Sample.bakery None 30.
Definition middle : Scored.t := Scored.mk Sample.bistro None 20.
Definition pool : list Scored.t := [low; high; middle].

(** A context of the scoring utilities without a location. *)
Definition cozy : ScoreContext.t :=
  {| ScoreContext.userLat := undefined;
     ScoreContext.userLng := undefined;
     ScoreContext.timeOfDay := undefined;
     ScoreContext.category := undefined;
     ScoreContext.priceLevel := val 1;
     ScoreContext.vibe := val "Cozy and quiet" |}.

(** Contexts of the recommendations, without and with a location. *)
Definition anything : RecContext.t :=
  {| RecContext.timeOfDay := undefined;
     RecContext.category := undefined;
     RecContext.priceLevel := undefined;
     RecContext.vibe := undefined;
     RecContext.userLat := undefined;
     RecContext.userLng := undefined |}.

Definition around : RecContext.t :=
  {| RecContext.timeOfDay := undefined;
     RecContext.category := undefined;
     RecContext.priceLevel := undefined;
     RecContext.vibe := undefined;
     RecContext.userLat := val (91 # 2);
     RecContext.userLng := val (-147 # 2) |}.

(** Data of a place with coordinates. *)
Definition located : PlaceData.t :=
  {| PlaceData.name := val "Cafe Olimpico";
     PlaceData.lat := val (91 # 2);
     PlaceData.lng := val (-147 # 2);
     PlaceData.address := undefined;
     PlaceData.listName := val "Montreal";
     PlaceData.listTags := undefined;
     PlaceData.placeTags := undefined;
     PlaceData.notes := undefined;
     PlaceData.url := val "https://maps.example/olimpico";
     PlaceData.savedAt := undefined;
     PlaceData.tags := val ["cafe"];
     PlaceData.type := undefined;
     PlaceData.vibe := undefined;
     PlaceData.priceLevel := undefined;
     PlaceData.placeId := undefined;
     PlaceData.comment := undefined |}.

(** A store with one place. *)
Definition one_place : list Saved.t :=
  snd (Data.addPlace "p1" "2024-01-01T00:00:00.000Z" located []).

(** The records of a list: its row of tags, two places, a row without a
    title. *)
Definition rows : list Row.t :=
  [ Row.mk (val "") (val "food; montreal") (val "") (val "") (val "");
    Row.mk (val "Cafe Olimpico") (val "coffee;food") (val "espresso")
           (val "https://maps.example/olimpico") (val "");
    Row.mk (val "  ") (val "") (val "") (val "") (val "");
    Row.mk (val "Hof Kelsten") (val "") (val "rye bread") (val "")
           undefined ].

(** A parser that reads every file as these records. *)
Definition csv : CsvLib := {| csv_parse := fun _ => Some rows |}.

(** Identifiers and times by the number of the place added. *)
Definition ids (n : nat) : string * string :=
  ("id" ++ Sample.digit n, "2024-01-01T00:00:00.000Z").

End Demo.
(* ================================================================== *)
(** ** Properties of the scorer                                        *)
(* ================================================================== *)

(** One goal per branch of the rule in the goal. *)
Ltac split_branches :=
  repeat match goal with
         | |- context [match ?x with _ => _ end] => destruct x
         end.

Section ScorerProperties.
Context `{MathLib}.

Lemma category_points_bounds place slots enrichedData :
  0 <= category_points place slots enrichedData <= 20.
Proof.
  unfold category_points.
  destruct (category_matches place slots enrichedData); split; lra.
Qed.

Lemma cuisine_points_bounds place slots enrichedData :
  0 <= cuisine_points place slots enrichedData <= 15.
Proof.
  unfold cuisine_points.
  destruct (cuisine_matches place slots enrichedData); split; lra.
Qed.

Lemma price_points_bounds slots enrichedData v :
  price_points slots enrichedData = Ok v -> 0 <= v <= 10.
Proof.
  unfold price_points.
  destruct (price_requested slots) as [price|].
  - destruct (not_null (enriched enrichedData Details.priceLevel)).
    + destruct enrichedData as [d|]; [|discriminate].
      destruct (levels_include (targetLevels price) (Details.priceLevel d));
        intros [= <-]; split; lra.
    + intros [= <-]; split; lra.
  - intros [= <-]; split; lra.
Qed.

Lemma open_now_points_bounds slots enrichedData :
  0 <= open_now_points slots enrichedData <= 15.
Proof. unfold open_now_points. split_branches; split; lra. Qed.

Lemma rating_points_upper enrichedData : rating_points enrichedData <= 10.
Proof.
  unfold rating_points.
  destruct (or_null (enriched enrichedData Details.rating)) as [r|].
  - apply Q.le_min_r.
  - lra.
Qed.

Lemma rating_points_lower enrichedData :
  (forall r, enriched enrichedData Details.rating = val r -> 0 <= r) ->
  0 <= rating_points enrichedData.
Proof.
  intros Hr. unfold rating_points, or_null.
  destruct (enriched enrichedData Details.rating) as [| |r]; try lra.
  destruct (truthy r); [|lra].
  specialize (Hr r eq_refl).
  apply Q.min_glb; lra.
Qed.

Lemma distance_points_bounds place slots userLocation :
  0 <= distance_points place slots userLocation <= 10.
Proof. unfold distance_points. split_branches; split; lra. Qed.

Lemma vibe_points_bounds place slots : 0 <= vibe_points place slots <= 10.
Proof. unfold vibe_points. split_branches; split; lra. Qed.

(** The bounds of the rules, put among the hypotheses. *)
Ltac rule_bounds place slots enrichedData userLocation Hprice :=
  pose proof (category_points_bounds place slots enrichedData);
  pose proof (cuisine_points_bounds place slots enrichedData);
  pose proof (price_points_bounds _ _ _ Hprice);
  pose proof (open_now_points_bounds slots enrichedData);
  pose proof (rating_points_upper enrichedData);
  pose proof (distance_points_bounds place slots userLocation);
  pose proof (vibe_points_bounds place slots).

(** The score is the sum of the seven rules, when the price rule
    returns. *)
Lemma scorePlace_sum place slots enrichedData userLocation v :
  scorePlace place slots enrichedData userLocation = Ok v ->
  exists price,
    price_points slots enrichedData = Ok price
    /\ v = 0 + category_points place slots enrichedData
           + cuisine_points place slots enrichedData
           + price
           + open_now_points slots enrichedData
           + rating_points enrichedData
           + distance_points place slots userLocation
           + vibe_points place slots.
Proof.
  unfold scorePlace, rbind.
  destruct (price_points slots enrichedData) as [price|e]; [|discriminate].
  intros [= <-]. exists price. split; reflexivity.
Qed.

(** The scorer throws exactly when a price band is asked for and there
    are no details. *)
Lemma scorePlace_throws_iff place slots enrichedData userLocation :
  (exists e, scorePlace place slots enrichedData userLocation = Throw e)
  <-> (price_requested slots <> None /\ enrichedData = None).
Proof.
  unfold scorePlace, rbind, price_points. split.
  - intros [e He].
    destruct (price_requested slots) as [price|]; [|discriminate].
    destruct enrichedData as [d|]; [|split; congruence].
    simpl in He.
    destruct (not_null (Details.priceLevel d)); [|discriminate].
    destruct (levels_include (targetLevels price) (Details.priceLevel d));
      discriminate.
  - intros [Hp ->].
    destruct (price_requested slots) as [price|]; [|congruence].
    simpl. eauto.
Qed.

(** With a rating that is not negative, a score that is returned is not
    negative. *)
Lemma scorePlace_nonneg place slots enrichedData userLocation v :
  (forall r, enriched enrichedData Details.rating = val r -> 0 <= r) ->
  scorePlace place slots enrichedData userLocation = Ok v ->
  0 <= v.
Proof.
  intros Hr Hv.
  destruct (scorePlace_sum _ _ _ _ _ Hv) as (price & Hp & ->).
  rule_bounds place slots enrichedData userLocation Hp.
  pose proof (rating_points_lower enrichedData Hr).
  lra.
Qed.

(** With details, the scorer returns. *)
Lemma scorePlace_returns_with_details place slots d userLocation :
  exists v, scorePlace place slots (Some d) userLocation = Ok v.
Proof.
  destruct (scorePlace place slots (Some d) userLocation) as [v|e] eqn:E;
    [eauto|].
  assert (Ht : exists e, scorePlace place slots (Some d) userLocation = Throw e)
    by eauto.
  apply scorePlace_throws_iff in Ht. destruct Ht as [_ Ht]. discriminate.
Qed.

Lemma price_requested_spec slots price :
  Slots.price slots = val price -> price <> "" -> price <> "any" ->
  price_requested slots = Some price.
Proof.
  intros Hp Hne Hany. unfold price_requested. rewrite Hp.
  apply String.eqb_neq in Hany. rewrite Hany.
  destruct price as [|c r]; [congruence|reflexivity].
Qed.

(** C1 (the code departs from the claim): the scorer is to return a
    number that is not negative for every place, slots, details or no
    details, and location, a missing input adding 0, in particular when
    there are no details and a price band other than [any] is asked for.
    On exactly that input the scorer throws a [TypeError] instead of
    returning: the price rule reads [enrichedData.priceLevel] of [null]. *)
Theorem C1_scorer_throws_without_details :
  forall (place : Place.t) (slots : Slots.t) (userLocation : option LatLng.t)
         (price : string),
    Slots.price slots = val price ->
    price <> "" ->
    price <> "any" ->
    scorePlace place slots None userLocation = Throw TypeError.
Proof.
  intros place slots userLocation price Hp Hne Hany.
  unfold scorePlace, rbind, price_points.
  rewrite (price_requested_spec _ _ Hp Hne Hany). reflexivity.
Qed.

(** C10: a score that the scorer returns is at most 90, the sum of the
    greatest amounts of the seven rules. *)
Theorem C10_score_at_most_90 :
  forall (place : Place.t) (slots : Slots.t)
         (enrichedData : option Details.t) (userLocation : option LatLng.t)
         (v : Q),
    scorePlace place slots enrichedData userLocation = Ok v ->
    v <= 90.
Proof.
  intros place slots enrichedData userLocation v Hv.
  destruct (scorePlace_sum _ _ _ _ _ Hv) as (price & Hp & ->).
  rule_bounds place slots enrichedData userLocation Hp.
  lra.
Qed.

End ScorerProperties.

(* ================================================================== *)
(** ** Adding a tag that matches the category                          *)
(* ================================================================== *)

Lemma toLowerCase_nonempty (s : string) :
  s <> EmptyString -> toLowerCase s <> EmptyString.
Proof. destruct s; [congruence|discriminate]. Qed.

Lemma includes_nonempty (s sub : string) :
  includes s sub = true -> sub <> EmptyString -> s <> EmptyString.
Proof.
  intros Hi Hsub ->. simpl in Hi.
  destruct sub; [congruence|discriminate].
Qed.




Lemma or_null_string (s : string) :
  s <> EmptyString -> or_null (val s) = Some s.
Proof. destruct s; [congruence|reflexivity]. Qed.



Section TagProperties.
Context `{MathLib}.





End TagProperties.

(* ================================================================== *)
(** ** Properties of the candidate filter                              *)
(* ================================================================== *)

Lemma or_null_nullish {A} `{Truthy A} (x : nullable A) :
  is_nullish x = true -> or_null x = None.
Proof. destruct x; [reflexivity|reflexivity|discriminate]. Qed.

(** A filter that is implied by another leaves what the other keeps. *)
Lemma filter_filter_implied {A} (f g : A -> bool) (l : list A) :
  (forall x, f x = true -> g x = true) ->
  List.filter f (List.filter g l) = List.filter f l.
Proof.
  intros Himp. induction l as [|x l IH]; [reflexivity|].
  simpl. destruct (g x) eqn:Eg.
  - simpl. rewrite IH. reflexivity.
  - destruct (f x) eqn:Ef; [|exact IH].
    rewrite (Himp x Ef) in Eg. discriminate.
Qed.

(** C7: with no slot set and no list name, the candidate filter returns
    the first 50 places of its input, in their order. *)
Theorem C7_filter_without_slots :
  forall (store : Store) (places : list Place.t) (slots : Slots.t),
    no_slot_set slots ->
    filterCandidates store places slots None = firstn 50 places.
Proof.
  intros store places slots (Hcat & Hcui & Hprice & _).
  unfold filterCandidates, filter_by_category, filter_by_cuisine,
    filter_by_price, price_requested.
  rewrite (or_null_nullish _ Hcat), (or_null_nullish _ Hcui).
  destruct (Slots.price slots); [reflexivity|reflexivity|discriminate].
Qed.

(** C8: a place whose price level is unknown passes the price rule for
    every band asked for, so the price filter keeps it, and keeps all
    such places in their order. *)
Theorem C8_unknown_price_is_kept :
  forall (p : Place.t),
    is_nullish (Place.priceLevel p) = true ->
    (forall band : string, price_keeps (targetLevels band) p = true)
    /\ (forall (slots : Slots.t) (candidates : list Place.t),
          In p candidates -> In p (filter_by_price slots candidates))
    /\ (forall (slots : Slots.t) (candidates : list Place.t),
          List.filter (fun q => is_nullish (Place.priceLevel q))
                      (filter_by_price slots candidates)
          = List.filter (fun q => is_nullish (Place.priceLevel q))
                        candidates).
Proof.
  intros p Hp.
  assert (Hkeep : forall levels q,
             is_nullish (Place.priceLevel q) = true ->
             price_keeps levels q = true).
  { intros levels q Hq. unfold price_keeps. rewrite Hq. reflexivity. }
  split; [|split].
  - intros band. apply Hkeep, Hp.
  - intros slots candidates Hin. unfold filter_by_price.
    destruct (price_requested slots) as [price|]; [|exact Hin].
    apply List.filter_In. split; [exact Hin|apply Hkeep, Hp].
  - intros slots candidates. unfold filter_by_price.
    destruct (price_requested slots) as [price|]; [|reflexivity].
    apply filter_filter_implied. intros q. apply Hkeep.
Qed.

(* ================================================================== *)
(** ** Properties of the enrichment gate                               *)
(* ================================================================== *)

Lemma firstn_incl {A} (n : nat) (l : list A) (x : A) :
  In x (firstn n l) -> In x l.
Proof.
  revert l. induction n as [|n IH]; intros [|y l]; simpl; try tauto.
  intros [->|Hx]; [left; reflexivity|right; apply IH, Hx].
Qed.

Lemma Forall_firstn_filter {A} (f : A -> bool) (n : nat) (l : list A) :
  Forall (fun x => f x = true) (firstn n (List.filter f l)).
Proof.
  apply List.Forall_forall. intros x Hx.
  apply firstn_incl in Hx. apply List.filter_In in Hx. tauto.
Qed.

Lemma filter_none {A} (f : A -> bool) (l : list A) :
  Forall (fun x => f x = false) l -> List.filter f l = [].
Proof.
  induction 1 as [|x l Hx _ IH]; [reflexivity|].
  simpl. rewrite Hx. exact IH.
Qed.

Lemma filter_length_le {A} (f : A -> bool) (l : list A) :
  (List.length (List.filter f l) <= List.length l)%nat.
Proof.
  induction l as [|x l IH]; [simpl; lia|].
  simpl. destruct (f x); simpl; lia.
Qed.

Section GateProperties.
Variable env : Env.

(** Enrichment always returns: a fetch that throws leaves its place
    without details.  It only adds calls. *)
Lemma enrich_all_returns (l : list Place.t) (w : World) :
  exists cs w',
    enrich_all env l w = (Ok cs, w')
    /\ List.map Candidate.place cs = l
    /\ sessions w' = sessions w.
Proof.
  revert w. induction l as [|p l IH]; intros w.
  - exists [], w. repeat split.
  - unfold enrich_all; fold (enrich_all env).
    unfold bind at 1. unfold enrich_one.
    unfold bind at 1. unfold record_call at 1. unfold ret at 1.
    set (w1 := mkWorld (sessions w)
                       (calls w ++ [CallPlaceDetails (Place.placeId p)])).
    set (c := try_catch _ _).
    destruct (IH w1) as (cs & w' & Hcs & Hmap & Hs).
    unfold bind. rewrite Hcs. unfold ret.
    exists (c :: cs), w'. split; [reflexivity|]. split.
    + simpl. f_equal; [|exact Hmap].
      subst c. destruct (fetchPlaceDetails env (Place.placeId p));
        reflexivity.
    + rewrite Hs. reflexivity.
Qed.

(** The pool is the first 20 identified candidates, enriched, then the
    first 10 candidates without an identifier, without details. *)
Lemma candidates_for_ranking_returns (filtered : list Place.t) (w : World) :
  exists enrichedCandidates w',
    candidates_for_ranking env filtered w
    = (Ok (enrichedCandidates
           ++ List.map (fun place => Candidate.mk place None)
                (firstn 10 (List.filter (fun p => negb (has_placeId p))
                                        filtered)))%list,
       w')
    /\ List.map Candidate.place enrichedCandidates
       = firstn 20 (List.filter has_placeId filtered)
    /\ sessions w' = sessions w.
Proof.
  unfold candidates_for_ranking.
  destruct (enrich_all_returns (firstn 20 (List.filter has_placeId filtered)) w)
    as (cs & w' & Hcs & Hmap & Hs).
  exists cs, w'. unfold bind. rewrite Hcs. unfold ret.
  repeat split; assumption.
Qed.

(** C6: the pool the gate hands to the scorer holds at most 20
    candidates with an external identifier and at most 10 without one,
    so at most 30, and a candidate without an identifier has no
    details. *)
Theorem C6_gate_bounds :
  forall (filtered : list Place.t) (w : World),
  exists pool w',
    candidates_for_ranking env filtered w = (Ok pool, w')
    /\ (List.length
          (List.filter (fun c => has_placeId (Candidate.place c)) pool)
        <= 20)%nat
    /\ (List.length
          (List.filter (fun c => negb (has_placeId (Candidate.place c))) pool)
        <= 10)%nat
    /\ (List.length pool <= 30)%nat
    /\ Forall (fun c => has_placeId (Candidate.place c) = false ->
                        Candidate.enrichedData c = None) pool.
Proof.
  intros filtered w.
  destruct (candidates_for_ranking_returns filtered w)
    as (cs & w' & Hrun & Hmap & _).
  eexists _, w'. split; [exact Hrun|].
  set (rest := List.map (fun place => Candidate.mk place None) _).
  assert (Hcs : Forall (fun c => has_placeId (Candidate.place c) = true) cs).
  { apply List.Forall_forall. intros c Hc.
    pose proof (Forall_firstn_filter has_placeId 20 filtered) as Hall.
    rewrite <- Hmap in Hall. rewrite List.Forall_forall in Hall.
    apply Hall. apply List.in_map. exact Hc. }
  assert (Hrest : Forall (fun c => has_placeId (Candidate.place c) = false
                                   /\ Candidate.enrichedData c = None) rest).
  { subst rest. apply List.Forall_forall. intros c Hc.
    apply List.in_map_iff in Hc. destruct Hc as (p & <- & Hp).
    pose proof (Forall_firstn_filter (fun p => negb (has_placeId p)) 10
                  filtered) as Hall.
    rewrite List.Forall_forall in Hall. specialize (Hall p Hp).
    apply negb_true_iff in Hall. split; [exact Hall|reflexivity]. }
  assert (Lcs : (List.length cs <= 20)%nat).
  { rewrite <- (List.length_map Candidate.place), Hmap.
    rewrite List.length_firstn. lia. }
  assert (Lrest : (List.length rest <= 10)%nat).
  { subst rest. rewrite List.length_map, List.length_firstn. lia. }
  repeat split.
  - rewrite List.filter_app, List.length_app.
    rewrite (filter_none _ rest).
    + pose proof (filter_length_le
                    (fun c => has_placeId (Candidate.place c)) cs).
      simpl. lia.
    + eapply List.Forall_impl; [|exact Hrest]. simpl. tauto.
  - rewrite List.filter_app, List.length_app.
    rewrite (filter_none _ cs).
    + pose proof (filter_length_le
                    (fun c => negb (has_placeId (Candidate.place c))) rest).
      simpl. lia.
    + eapply List.Forall_impl; [|exact Hcs]. simpl.
      intros c ->. reflexivity.
  - rewrite List.length_app. lia.
  - apply List.Forall_app. split.
    + eapply List.Forall_impl; [|exact Hcs]. simpl. congruence.
    + eapply List.Forall_impl; [|exact Hrest]. simpl. tauto.
Qed.

End GateProperties.

(* ================================================================== *)
(** ** Properties of the intent interpreter                            *)
(* ================================================================== *)

Section InterpreterProperties.
Context `{JsonLib}.
Variable env : Env.

Lemma read_interpretation_throws outcome currentSlots :
  no_intent_from outcome ->
  exists e, read_interpretation outcome currentSlots = Throw e.
Proof.
  intros [->|[[body ->]|[->|(content & -> & Hparse)]]]; simpl; eauto.
  rewrite Hparse. eauto.
Qed.

(** The interpreter always returns an interpretation, and leaves the
    sessions alone. *)
Lemma interpreter_returns message currentSlots w :
  exists interpretation w',
    interpretMessageWithGemini env message currentSlots w
    = (Ok interpretation, w')
    /\ sessions w' = sessions w.
Proof.
  unfold interpretMessageWithGemini.
  destruct (getOpenRouterApiKey env) as [apiKey|].
  - unfold bind, record_call, ret. eexists _, _. split; reflexivity.
  - unfold ret. eexists _, _. split; reflexivity.
Qed.

(** C4: without a credential, or when the call to the provider throws,
    or when its response holds no text that parses as JSON, the
    interpreter returns the default intent: recommendations, the slots
    it was given, no target place, no question, the invitation. *)
Theorem C4_interpreter_fallback :
  forall (message : string) (currentSlots : Slots.t) (w : World),
    getOpenRouterApiKey env = None
    \/ no_intent_from (openrouter env (InterpretPrompt message currentSlots)) ->
    exists w',
      interpretMessageWithGemini env message currentSlots w
      = (Ok {| Interpretation.intentType := "recommendations";
               Interpretation.slots := currentSlots;
               Interpretation.targetPlaceName := None;
               Interpretation.questionType := None;
               Interpretation.needsFollowUp := false;
               Interpretation.questions := [];
               Interpretation.assistantMessage :=
                 "I can help you find places from your saved lists. What are you looking for?" |},
         w')
      /\ sessions w' = sessions w.
Proof.
  intros message currentSlots w Hfail.
  unfold interpretMessageWithGemini.
  destruct (getOpenRouterApiKey env) as [apiKey|].
  - destruct Hfail as [Hkey|Hfail]; [discriminate|].
    destruct (read_interpretation_throws _ currentSlots Hfail) as [e He].
    unfold bind, record_call, ret. rewrite He.
    eexists. split; reflexivity.
  - unfold ret. exists w. split; reflexivity.
Qed.

(** A response without text is read as the empty object: the same
    intent, with the other invitation. *)
Lemma interpreter_on_empty_content message currentSlots w content apiKey :
  getOpenRouterApiKey env = Some apiKey ->
  openrouter env (InterpretPrompt message currentSlots)
  = FetchResponds true (BodyContent content) ->
  truthy content = false ->
  JSON_parse_reply "{}"
  = Some (ReplyValue (Reply.mk undefined undefined undefined undefined
                               undefined undefined undefined)) ->
  exists w',
    interpretMessageWithGemini env message currentSlots w
    = (Ok {| Interpretation.intentType := "recommendations";
             Interpretation.slots := currentSlots;
             Interpretation.targetPlaceName := None;
             Interpretation.questionType := None;
             Interpretation.needsFollowUp := false;
             Interpretation.questions := [];
             Interpretation.assistantMessage :=
               "I can help you find places. What are you looking for?" |},
       w')
    /\ sessions w' = sessions w.
Proof.
  intros Hkey Hout Hcontent Hparse.
  unfold interpretMessageWithGemini. rewrite Hkey.
  unfold bind, record_call, ret. rewrite Hout.
  assert (Htext : json_object_text content = "{}").
  { unfold json_object_text, or_else.
    destruct content as [| |c]; try reflexivity.
    change (truthy c = false) in Hcontent.
    rewrite Hcontent. reflexivity. }
  unfold read_interpretation. simpl negb. cbv iota.
  rewrite Htext, Hparse.
  eexists. split; reflexivity.
Qed.

End InterpreterProperties.

(* ================================================================== *)
(** ** Properties of the explanation generator                         *)
(* ================================================================== *)

Section ExplanationProperties.
Context `{JsonLib} `{NumberFormat}.
Variable env : Env.

Lemma template_explanations_length top5Places :
  List.length (template_explanations top5Places) = List.length top5Places.
Proof. unfold template_explanations. apply List.length_map. Qed.

(** The generator always returns one entry per candidate, and leaves the
    sessions alone. *)
Lemma explanations_returns top5Places slots w :
  exists explanations w',
    generateBatchExplanations env top5Places slots w = (Ok explanations, w')
    /\ List.length explanations = List.length top5Places
    /\ sessions w' = sessions w.
Proof.
  unfold generateBatchExplanations.
  destruct (getOpenRouterApiKey env) as [apiKey|].
  - unfold catch, bind, lift, record_call, ret.
    destruct (placesInfo top5Places) as [info|e].
    + destruct (read_explanations _) as [[|items]|e].
      * eexists _, _. split; [reflexivity|].
        split; [apply template_explanations_length|reflexivity].
      * destruct (Nat.eqb_spec (List.length items) (List.length top5Places)).
        -- eexists _, _. split; [reflexivity|]. split; [assumption|reflexivity].
        -- eexists _, _. split; [reflexivity|].
           split; [apply template_explanations_length|reflexivity].
      * eexists _, _. split; [reflexivity|].
        split; [apply template_explanations_length|reflexivity].
    + eexists _, _. split; [reflexivity|].
      split; [apply template_explanations_length|reflexivity].
  - unfold ret. eexists _, _. split; [reflexivity|].
    split; [apply template_explanations_length|reflexivity].
Qed.

Lemma read_explanations_fails n outcome :
  no_explanations_from n outcome ->
  (exists e, read_explanations outcome = Throw e)
  \/ (exists items,
        read_explanations outcome = Ok (AnArray items)
        /\ List.length items <> n).
Proof.
  intros [->|[[body ->]|(content & items & -> & Hparse & Hlen)]]; simpl.
  - left. eauto.
  - left. eauto.
  - right. rewrite Hparse. eauto.
Qed.

(** C5: without a credential, or when the call to the provider throws,
    or when the array received has not one entry per candidate, the
    generator returns the template explanation of every candidate, and
    nothing of what the provider sent. *)
Theorem C5_explanations_fallback :
  forall (top5Places : list Scored.t) (slots : Slots.t) (w : World),
    getOpenRouterApiKey env = None
    \/ (forall info,
          placesInfo top5Places = Ok info ->
          no_explanations_from (List.length top5Places)
            (openrouter env
               (ExplainPrompt info slots (List.length top5Places)))) ->
    exists w',
      generateBatchExplanations env top5Places slots w
      = (Ok (List.map
               (fun c => val (template_explanation (Scored.enrichedData c)))
               top5Places),
         w')
      /\ sessions w' = sessions w.
Proof.
  intros top5Places slots w Hfail.
  unfold generateBatchExplanations.
  destruct (getOpenRouterApiKey env) as [apiKey|].
  - destruct Hfail as [Hkey|Hfail]; [discriminate|].
    unfold catch, bind, lift, record_call, ret.
    destruct (placesInfo top5Places) as [info|e].
    + destruct (read_explanations_fails _ _ (Hfail info eq_refl))
        as [[e ->]|(items & -> & Hlen)].
      * eexists. split; reflexivity.
      * apply Nat.eqb_neq in Hlen. rewrite Hlen.
        eexists. split; reflexivity.
    + eexists. split; reflexivity.
  - unfold ret. exists w. split; reflexivity.
Qed.

End ExplanationProperties.

(* ================================================================== *)
(** ** The greeting short circuit                                      *)
(* ================================================================== *)

(** The words of the first pattern are greetings. *)
Lemma greeting_words_are_greetings :
  Forall (fun word => isGreeting word = true) greetings_long.
Proof. repeat constructor. Qed.

Lemma toLowerCase_idempotent (s : string) :
  toLowerCase (toLowerCase s) = toLowerCase s.
Proof.
  induction s as [|c r IH]; [reflexivity|].
  simpl. rewrite IH. f_equal.
  destruct c as [[] [] [] [] [] [] [] []]; reflexivity.
Qed.

(** Case does not matter to the detection. *)
Lemma isGreeting_ignores_case (message : string) :
  isGreeting (toLowerCase message) = isGreeting message.
Proof. unfold isGreeting. rewrite toLowerCase_idempotent. reflexivity. Qed.

Section GreetingProperties.
Context `{MathLib} `{JsonLib} `{NumberFormat}.
Variable env : Env.

(** C9: a greeting (as [hi]) on a session whose slots are empty gets the
    welcome with no results; no provider is called and no session is
    written: the world after the turn is the world before it. *)
Theorem C9_greeting_short_circuit :
  forall (req : Request.t) (w : World) (message : string),
    Request.message req = val message ->
    isGreeting message = true ->
    Slots.keys_length
      (Session.slots
         (session_or_new
            (sessions w !! request_sessionId env (request_context req))
            (request_initialSlots (request_context req)))) = 0%nat ->
    handleChatSaved env req w
    = (welcome_response
         (Session.slots
            (session_or_new
               (sessions w !! request_sessionId env (request_context req))
               (request_initialSlots (request_context req)))),
       w).
Proof.
  intros req w message Hmsg Hgreet Hkeys.
  unfold handleChatSaved, chat_turn. rewrite Hmsg.
  destruct message as [|c r]; [discriminate Hgreet|].
  cbn [or_null truthy truthy_string].
  unfold bind, sessions_get. rewrite Hgreet, Hkeys.
  reflexivity.
Qed.

End GreetingProperties.

(* ================================================================== *)
(** ** Properties of the ranking                                       *)
(* ================================================================== *)

Lemma insert_by_score_perm (x : Scored.t) (l : list Scored.t) :
  Permutation (x :: l) (insert_by_score x l).
Proof.
  induction l as [|y l IH]; [reflexivity|].
  simpl. destruct (Qlt_le_dec (Scored.score x) (Scored.score y)).
  - rewrite perm_swap. apply perm_skip, IH.
  - reflexivity.
Qed.

Lemma sort_by_score_perm (l : list Scored.t) :
  Permutation l (sort_by_score l).
Proof.
  induction l as [|x l IH]; [reflexivity|].
  simpl. rewrite <- insert_by_score_perm. apply perm_skip, IH.
Qed.

Lemma insert_by_score_sorted (x : Scored.t) (l : list Scored.t) :
  Sorted score_ge l -> Sorted score_ge (insert_by_score x l).
Proof.
  induction 1 as [|y l Hl IH Hy]; [repeat constructor|].
  simpl. destruct (Qlt_le_dec (Scored.score x) (Scored.score y)) as [Hlt|Hle].
  - constructor; [exact IH|].
    destruct l as [|z l]; simpl.
    + constructor. unfold score_ge. lra.
    + destruct (Qlt_le_dec (Scored.score x) (Scored.score z)).
      * constructor. inversion Hy. assumption.
      * constructor. unfold score_ge. lra.
  - constructor; [constructor; assumption|].
    constructor. exact Hle.
Qed.

Lemma sort_by_score_sorted (l : list Scored.t) :
  Sorted score_ge (sort_by_score l).
Proof.
  induction l as [|x l IH]; [constructor|].
  simpl. apply insert_by_score_sorted, IH.
Qed.

(** Every candidate of the ranking has at least the score of every
    candidate behind it. *)
Lemma sort_by_score_descending (l : list Scored.t) :
  StronglySorted score_ge (sort_by_score l).
Proof.
  apply Sorted_StronglySorted; [|apply sort_by_score_sorted].
  intros a b c Hab Hbc. unfold score_ge in *. lra.
Qed.

(** Inserting does not reorder the candidates of one score. *)
Lemma insert_by_score_stable (v : Q) (x : Scored.t) (l : list Scored.t) :
  with_score v (insert_by_score x l) = with_score v (x :: l).
Proof.
  induction l as [|y l IH]; [reflexivity|].
  simpl insert_by_score.
  destruct (Qlt_le_dec (Scored.score x) (Scored.score y)) as [Hlt|Hle];
    [|reflexivity].
  unfold with_score in *. simpl in *. rewrite IH.
  destruct (Qeq_bool (Scored.score x) v) eqn:Ex;
    destruct (Qeq_bool (Scored.score y) v) eqn:Ey; try reflexivity.
  apply Qeq_bool_iff in Ex, Ey. rewrite Ex, Ey in Hlt. lra.
Qed.

Lemma sort_by_score_stable (v : Q) (l : list Scored.t) :
  with_score v (sort_by_score l) = with_score v l.
Proof.
  induction l as [|x l IH]; [reflexivity|].
  simpl sort_by_score. rewrite insert_by_score_stable.
  unfold with_score in *. simpl. rewrite IH. reflexivity.
Qed.

Section RankingProperties.
Context `{MathLib} `{JsonLib} `{NumberFormat}.
Variable env : Env.

(** Scoring keeps the pool: its places, its details, its order. *)
Lemma score_all_keeps_pool pool slots userLocation scored :
  score_all pool slots userLocation = Ok scored ->
  List.map without_score scored = pool.
Proof.
  revert scored. induction pool as [|c pool IH]; intros scored.
  - intros [= <-]. reflexivity.
  - simpl. unfold rbind.
    destruct (scorePlace _ _ _ _) as [v|e]; [|discriminate].
    destruct (score_all pool slots userLocation) as [rest|e]; [|discriminate].
    intros [= <-]. simpl. rewrite (IH rest eq_refl).
    destruct c; reflexivity.
Qed.

Lemma format_results_keys explanations index top5 :
  List.map result_key (format_results_from explanations index top5)
  = List.map scored_key top5.
Proof.
  revert index. induction top5 as [|c top5 IH]; intros index;
    [reflexivity|].
  simpl. rewrite IH. reflexivity.
Qed.

(** C2 (amended): in a recommendation turn whose scoring returns, the
    scored pool is sorted by descending score, candidates of equal score
    staying in the order of the pool, which is the identified candidates
    (the first 20, in the order of the filter) followed by the
    candidates without an identifier (the first 10, in the order of the
    filter); the first 5 of the sorted pool are the results. *)
Theorem C2_ranking_is_stable_sort_of_pool :
  forall (interpretation : Interpretation.t) (sessionId : string)
         (listName : option string) (userLocation : option LatLng.t)
         (w w1 : World) (pool : list Candidate.t) (scored : list Scored.t),
    let slots := Interpretation.slots interpretation in
    let filtered :=
      filterCandidates (places env) (getAllPlaces (places env)) slots
                       listName in
    filtered <> [] ->
    candidates_for_ranking env filtered
      (mkWorld (<[sessionId := Session.mk slots]> (sessions w)) (calls w))
    = (Ok pool, w1) ->
    score_all pool slots userLocation = Ok scored ->
    let ranked := sort_by_score scored in
    List.map Candidate.place pool
    = (firstn 20 (List.filter has_placeId filtered)
       ++ firstn 10 (List.filter (fun p => negb (has_placeId p)) filtered))%list
    /\ List.map without_score scored = pool
    /\ Permutation scored ranked
    /\ StronglySorted score_ge ranked
    /\ (forall v : Q, with_score v ranked = with_score v scored)
    /\ exists body w',
         recommend_turn env interpretation sessionId listName userLocation w
         = (Ok (Json body), w')
         /\ List.map result_key (ChatBody.results body)
            = List.map scored_key (firstn 5 ranked).
Proof.
  intros interpretation sessionId listName userLocation w w1 pool scored
         slots filtered Hne Hpool Hscored ranked.
  split; [|split; [|split; [|split; [|split]]]].
  - destruct (candidates_for_ranking_returns env filtered
                (mkWorld (<[sessionId := Session.mk slots]> (sessions w))
                         (calls w)))
      as (cs & w' & Hrun & Hmap & _).
    rewrite Hrun in Hpool. injection Hpool as <- _.
    rewrite List.map_app, Hmap, List.map_map. simpl.
    rewrite List.map_id. reflexivity.
  - exact (score_all_keeps_pool _ _ _ _ Hscored).
  - apply sort_by_score_perm.
  - apply sort_by_score_descending.
  - intros v. apply sort_by_score_stable.
  - unfold recommend_turn.
    unfold bind at 1. unfold sessions_set at 1.
    cbn [Session.slots].
    fold slots. fold filtered.
    destruct filtered as [|p0 rest] eqn:Ef; [congruence|].
    unfold rank_candidates.
    unfold bind at 1. unfold bind at 1. rewrite Hpool.
    unfold bind at 1. unfold lift at 1. rewrite Hscored.
    unfold ret at 1. fold ranked.
    destruct (firstn 5 ranked) as [|c0 top] eqn:Etop.
    + unfold ret. eexists _, _. split; reflexivity.
    + destruct (explanations_returns env (c0 :: top) slots w1)
        as (ex & w' & Hex & _ & _).
      unfold bind. rewrite Hex. unfold ret.
      eexists _, w'. split; [reflexivity|].
      cbn [ChatBody.results]. apply format_results_keys.
Qed.

End RankingProperties.

(* ================================================================== *)
(** ** The properties on the sample places and turns                   *)
(* ================================================================== *)

Lemma C1_scorer_throws_on_cafe :
  @scorePlace Sample.math Sample.cafe Sample.cheap None None
  = Throw TypeError.
Proof.
  apply (@C1_scorer_throws_without_details Sample.math Sample.cafe
           Sample.cheap None "cheap").
  - reflexivity.
  - discriminate.
  - discriminate.
Defined.

(** The turn of which that call is a part ends with status 500: no
    credential, a price band in the slots of the request, a saved place
    without an identifier. *)
Lemma turn_fails_on_price_without_details :
  fst (@handleChatSaved Sample.math Sample.json Sample.format Sample.offline
         (Sample.say "somewhere cheap" (Some Sample.cheap)) Sample.fresh)
  = Status500 TypeError.
Proof. vm_compute. reflexivity. Qed.

Lemma C10_bistro_scores_90 :
  exists v,
    @scorePlace Sample.math Sample.bistro Sample.all_slots
      (Some Sample.bistro_details) (Some Sample.here) = Ok v
    /\ v <= 90.
Proof.
  exists 90. split; [reflexivity|].
  apply (@C10_score_at_most_90 Sample.math Sample.bistro Sample.all_slots
           (Some Sample.bistro_details) (Some Sample.here) 90).
  reflexivity.
Defined.



(** A tag that matches the cuisine too brings the 15 of that rule with
    the 20 of the category. *)
Lemma tag_may_gain_thirty_five :
  let slots :=
    {| Slots.category := val "cafe"; Slots.cuisine := val "cafe";
       Slots.price := undefined; Slots.vibe := undefined;
       Slots.openNow := undefined; Slots.distanceKm := undefined |} in
  @scorePlace Sample.math Sample.bakery slots None None = Ok 0
  /\ @scorePlace Sample.math (add_tag "cafe" Sample.bakery) slots None None
     = Ok 35.
Proof. split; reflexivity. Qed.

(** The rating adds a whole number of points without details and with
    the rating 5 of the sample details. *)
Lemma whole_rating_points_samples :
  whole_rating_points None
  /\ whole_rating_points (Some Sample.bistro_details).
Proof. split; [exists 0%nat|exists 10%nat]; reflexivity. Qed.

Lemma C7_two_places_unfiltered :
  filterCandidates [] [Sample.cafe; Sample.bakery] Slots.empty None
  = firstn 50 [Sample.cafe; Sample.bakery].
Proof.
  apply (C7_filter_without_slots [] [Sample.cafe; Sample.bakery] Slots.empty).
  repeat split.
Defined.

Lemma C8_cafe_passes_cheap :
  price_keeps (targetLevels "cheap") Sample.cafe = true
  /\ In Sample.cafe
        (filter_by_price Sample.cheap [Sample.bistro; Sample.cafe]).
Proof.
  destruct (C8_unknown_price_is_kept Sample.cafe eq_refl) as (Hrule & Hin & _).
  split.
  - apply Hrule.
  - apply Hin. simpl. tauto.
Defined.

Lemma C4_prose_gives_default :
  exists w',
    @interpretMessageWithGemini Sample.json
      (Sample.with_key Sample.small_talk) "coffee" Sample.cheap Sample.fresh
    = (Ok {| Interpretation.intentType := "recommendations";
             Interpretation.slots := Sample.cheap;
             Interpretation.targetPlaceName := None;
             Interpretation.questionType := None;
             Interpretation.needsFollowUp := false;
             Interpretation.questions := [];
             Interpretation.assistantMessage :=
               "I can help you find places from your saved lists. What are you looking for?" |},
       w')
    /\ sessions w' = sessions Sample.fresh.
Proof.
  apply (@C4_interpreter_fallback Sample.json
           (Sample.with_key Sample.small_talk) "coffee" Sample.cheap
           Sample.fresh).
  right. right. right. right.
  exists (val "Sorry, I can not help with that.").
  split; reflexivity.
Defined.

Lemma C5_four_for_five :
  exists w',
    @generateBatchExplanations Sample.json Sample.format
      (Sample.with_key Sample.four_answers) Sample.five Slots.empty
      Sample.fresh
    = (Ok (List.map
             (fun c =>
                val (@template_explanation Sample.format
                       (Scored.enrichedData c)))
             Sample.five),
       w')
    /\ sessions w' = sessions Sample.fresh.
Proof.
  apply (@C5_explanations_fallback Sample.json Sample.format
           (Sample.with_key Sample.four_answers) Sample.five Slots.empty
           Sample.fresh).
  right. intros info _. right. right.
  exists (val Sample.four_strings), [val "a"; val "b"; val "c"; val "d"].
  split; [reflexivity|]. split; [reflexivity|].
  simpl. lia.
Defined.

Lemma C9_hi_is_welcomed :
  @handleChatSaved Sample.math Sample.json Sample.format Sample.offline
    (Sample.say "hi" None) Sample.fresh
  = (welcome_response Slots.empty, Sample.fresh).
Proof.
  exact (@C9_greeting_short_circuit Sample.math Sample.json Sample.format
           Sample.offline (Sample.say "hi" None) Sample.fresh "hi"
           eq_refl eq_refl eq_refl).
Defined.

Lemma C2_two_places_ranked :
  exists body w',
    @recommend_turn Sample.math Sample.json Sample.format Sample.offline
      (fallback_interpretation Slots.empty) "s1" None None Sample.fresh
    = (Ok (Json body), w')
    /\ List.map result_key (ChatBody.results body)
       = [("Hof Kelsten", 0); ("Cafe Olimpico", 0)].
Proof.
  destruct (@C2_ranking_is_stable_sort_of_pool Sample.math Sample.json
              Sample.format Sample.offline
              (fallback_interpretation Slots.empty) "s1" None None
              Sample.fresh
              (mkWorld (<["s1" := Session.mk Slots.empty]> ∅)
                       [CallPlaceDetails (val "ChIJ1")])
              [Candidate.mk Sample.bakery None; Candidate.mk Sample.cafe None]
              [Sample.unscored Sample.bakery; Sample.unscored Sample.cafe])
    as (_ & _ & _ & _ & _ & body & w' & Hrun & Hkeys).
  - discriminate.
  - reflexivity.
  - reflexivity.
  - exists body, w'. split; [exact Hrun|exact Hkeys].
Defined.

(** Two candidates of equal score come out in the order of the pool,
    the identified one first, though the filter gave them the other way
    round. *)
Lemma C2_ties_follow_the_pool :
  filterCandidates (places Sample.offline)
    (getAllPlaces (places Sample.offline)) Slots.empty None
  = [Sample.cafe; Sample.bakery]
  /\ fst (@rank_candidates Sample.math Sample.offline
            [Sample.cafe; Sample.bakery] Slots.empty None Sample.fresh)
     = Ok [Sample.unscored Sample.bakery; Sample.unscored Sample.cafe]
  /\ ~ ties_keep_filter_order [Sample.cafe; Sample.bakery]
         (firstn 5 [Sample.unscored Sample.bakery;
                    Sample.unscored Sample.cafe]).
Proof.
  split; [reflexivity|]. split; [reflexivity|].
  intros Hties.
  destruct (Hties (Sample.unscored Sample.bakery)
                  (Sample.unscored Sample.cafe))
    as (i & j & Hlt & Hi & Hj).
  - exists 0%nat, 1%nat. repeat split. lia.
  - reflexivity.
  - destruct i as [|[|i]]; destruct j as [|[|j]]; try lia;
      simpl in Hi, Hj;
      try (vm_compute in Hi; discriminate Hi);
      try (destruct j; discriminate Hj);
      try (destruct i; discriminate Hi).
Qed.

(* ================================================================== *)
(** ** More on the scorer                                              *)
(* ================================================================== *)

Section ScorerReturns.
Context `{MathLib}.

Lemma scorePlace_only_throws_TypeError place slots enrichedData userLocation
  e :
  scorePlace place slots enrichedData userLocation = Throw e -> e = TypeError.
Proof.
  unfold scorePlace, rbind, price_points.
  destruct (price_requested slots) as [price|]; [|discriminate].
  destruct (not_null (enriched enrichedData Details.priceLevel));
    [|discriminate].
  destruct enrichedData as [d|]; [|congruence].
  destruct (levels_include (targetLevels price) (Details.priceLevel d));
    discriminate.
Qed.

(** The scorer returns a score exactly when details are given or no
    price band is asked for; what it throws otherwise is a
    [TypeError]. *)
Theorem scorer_returns_unless_price_without_details :
  forall (place : Place.t) (slots : Slots.t)
         (enrichedData : option Details.t) (userLocation : option LatLng.t),
    ((exists v, scorePlace place slots enrichedData userLocation = Ok v)
     <-> (price_requested slots = None \/ enrichedData <> None))
    /\ (forall e, scorePlace place slots enrichedData userLocation = Throw e ->
                  e = TypeError).
Proof.
  intros place slots enrichedData userLocation.
  pose proof (scorePlace_throws_iff place slots enrichedData userLocation)
    as Hiff.
  split; [split|].
  - intros [v Hv].
    destruct (price_requested slots) as [price|] eqn:Ep; [|left; reflexivity].
    right. intros ->.
    destruct Hiff as [_ Hthrow].
    destruct Hthrow as [e He]; [split; congruence|]. congruence.
  - intros Hok.
    destruct (scorePlace place slots enrichedData userLocation) as [v|e] eqn:E;
      [eauto|].
    destruct Hiff as [Hthrow _].
    destruct Hthrow as [Hp He]; [eauto|].
    destruct Hok; congruence.
  - intros e. apply scorePlace_only_throws_TypeError.
Qed.

(** A score that is returned is not negative when the rating of the
    details, if any, is not negative. *)
Theorem returned_score_is_not_negative :
  forall (place : Place.t) (slots : Slots.t)
         (enrichedData : option Details.t) (userLocation : option LatLng.t)
         (v : Q),
    (forall r, enriched enrichedData Details.rating = val r -> 0 <= r) ->
    scorePlace place slots enrichedData userLocation = Ok v ->
    0 <= v.
Proof.
  intros place slots enrichedData userLocation v.
  apply scorePlace_nonneg.
Qed.


End ScorerReturns.

(* ================================================================== *)
(** ** More on the candidate filter                                    *)
(* ================================================================== *)

Lemma filter_sublist {A} (f : A -> bool) (l : list A) :
  sublist (List.filter f l) l.
Proof.
  induction l as [|x l IH]; [constructor|].
  simpl. destruct (f x); [apply sublist_skip|apply sublist_cons]; exact IH.
Qed.

Lemma sublist_In {A} (l1 l2 : list A) (x : A) :
  sublist l1 l2 -> In x l1 -> In x l2.
Proof.
  induction 1 as [|y l1 l2 _ IH|y l1 l2 _ IH]; simpl; [tauto| |tauto].
  intros [->|Hx]; [left; reflexivity|right; apply IH, Hx].
Qed.

Lemma filter_by_category_sublist slots candidates :
  sublist (filter_by_category slots candidates) candidates.
Proof.
  unfold filter_by_category.
  destruct (or_null (Slots.category slots)); [apply filter_sublist|reflexivity].
Qed.

Lemma filter_by_cuisine_sublist slots candidates :
  sublist (filter_by_cuisine slots candidates) candidates.
Proof.
  unfold filter_by_cuisine.
  destruct (or_null (Slots.cuisine slots)); [apply filter_sublist|reflexivity].
Qed.

Lemma filter_by_price_sublist slots candidates :
  sublist (filter_by_price slots candidates) candidates.
Proof.
  unfold filter_by_price.
  destruct (price_requested slots); [apply filter_sublist|reflexivity].
Qed.

(** The three filters and the cap only remove candidates. *)
Lemma narrowed_sublist slots candidates :
  sublist
    (firstn 50
       (filter_by_price slots
          (filter_by_cuisine slots (filter_by_category slots candidates))))
    candidates.
Proof.
  etransitivity; [apply sublist_take|].
  etransitivity; [apply filter_by_price_sublist|].
  etransitivity; [apply filter_by_cuisine_sublist|].
  apply filter_by_category_sublist.
Qed.

(** Whatever the slots and the list name, the candidate filter returns
    at most 50 places; without a list name they are places of its
    input, in the order of the input and without repetition of a
    position. *)
Theorem filter_is_capped_and_keeps_order :
  forall (store : Store) (places : list Place.t) (slots : Slots.t),
    (forall listName,
        (List.length (filterCandidates store places slots listName) <= 50)%nat)
    /\ sublist (filterCandidates store places slots None) places.
Proof.
  intros store places slots. split.
  - intros listName. unfold filterCandidates.
    rewrite List.length_firstn. lia.
  - apply narrowed_sublist.
Qed.

(** With a list name, the candidates are taken from the store and not
    from the places handed over: they are places of the store, in its
    order, all of that list. *)
Theorem filter_scoped_to_list_reads_store :
  forall (store : Store) (places places' : list Place.t) (slots : Slots.t)
         (listName : string),
    listName <> "" ->
    filterCandidates store places slots (Some listName)
    = filterCandidates store places' slots (Some listName)
    /\ sublist (filterCandidates store places slots (Some listName)) store
    /\ Forall (fun p => Place.listName p = val listName)
              (filterCandidates store places slots (Some listName)).
Proof.
  intros store places places' slots listName Hne.
  assert (Ht : truthy listName = true)
    by (destruct listName; [congruence|reflexivity]).
  unfold filterCandidates. rewrite Ht.
  split; [reflexivity|]. split.
  - etransitivity; [apply narrowed_sublist|].
    apply filter_sublist.
  - apply List.Forall_forall. intros p Hp.
    pose proof (narrowed_sublist slots (getPlacesByListName store listName))
      as Hsub.
    apply (sublist_In _ _ p Hsub) in Hp. rename Hp into Hsub'.
    clear Hsub. rename Hsub' into Hsub.
    unfold getPlacesByListName in Hsub.
    apply List.filter_In in Hsub. destruct Hsub as [_ Heq].
    unfold nullable_string_eqb in Heq.
    destruct (Place.listName p) as [| |l]; try discriminate.
    apply String.eqb_eq in Heq. congruence.
Qed.

Lemma some_includes_lowered (texts : list (nullable string))
  (needle : string) :
  needle <> "" ->
  some_includes (lowered texts) needle = true ->
  some_text_contains texts needle.
Proof.
  intros Hn. unfold some_includes, lowered. rewrite existsb_exists.
  intros (tag & Hin & Hinc).
  apply List.in_map_iff in Hin. destruct Hin as (x & <- & Hx).
  apply List.filter_In in Hx. destruct Hx as [Hx Htruthy].
  destruct x as [| |t]; try discriminate.
  exists t. split; assumption.
Qed.

Lemma or_null_string_inv (x : nullable string) (s : string) :
  or_null x = Some s -> x = val s /\ s <> "".
Proof.
  unfold or_null. destruct x as [| |a]; try discriminate.
  destruct a; [discriminate|].
  intros [= <-]. split; [reflexivity|discriminate].
Qed.

(** Every candidate returned satisfies each rule that is active: its
    tags, place tags, type or name contain the category; its tags, place
    tags, name or notes contain the cuisine; its price level is unknown
    or in the band. *)
Theorem filter_results_satisfy_slots :
  forall (store : Store) (places : list Place.t) (slots : Slots.t)
         (listName : option string) (p : Place.t),
    In p (filterCandidates store places slots listName) ->
    (forall category,
        or_null (Slots.category slots) = Some category ->
        some_text_contains (category_tags_filter p) (toLowerCase category))
    /\ (forall cuisine,
           or_null (Slots.cuisine slots) = Some cuisine ->
           some_text_contains (cuisine_tags_filter p) (toLowerCase cuisine))
    /\ (forall band,
           price_requested slots = Some band ->
           is_nullish (Place.priceLevel p) = true
           \/ levels_include (targetLevels band) (Place.priceLevel p) = true).
Proof.
  intros store places slots listName p Hin.
  unfold filterCandidates in Hin. apply firstn_incl in Hin.
  set (source := match listName with
                 | Some l => if truthy l then getPlacesByListName store l
                             else places
                 | None => places
                 end) in Hin.
  split; [|split].
  - intros category Hc.
    destruct (or_null_string_inv _ _ Hc) as [_ Hne].
    assert (Hin' : In p (filter_by_category slots source)).
    { pose proof (filter_by_price_sublist slots
                    (filter_by_cuisine slots (filter_by_category slots source)))
        as S1.
      pose proof (filter_by_cuisine_sublist slots
                    (filter_by_category slots source)) as S2.
      apply (sublist_In _ _ p S2). apply (sublist_In _ _ p S1). exact Hin. }
    unfold filter_by_category in Hin'. rewrite Hc in Hin'.
    apply List.filter_In in Hin'. destruct Hin' as [_ Hm].
    apply some_includes_lowered; [|exact Hm].
    apply toLowerCase_nonempty, Hne.
  - intros cuisine Hc.
    destruct (or_null_string_inv _ _ Hc) as [_ Hne].
    assert (Hin' : In p (filter_by_cuisine slots
                           (filter_by_category slots source))).
    { pose proof (filter_by_price_sublist slots
                    (filter_by_cuisine slots (filter_by_category slots source)))
        as S1.
      apply (sublist_In _ _ p S1). exact Hin. }
    unfold filter_by_cuisine in Hin'. rewrite Hc in Hin'.
    apply List.filter_In in Hin'. destruct Hin' as [_ Hm].
    apply some_includes_lowered; [|exact Hm].
    apply toLowerCase_nonempty, Hne.
  - intros band Hb.
    unfold filter_by_price in Hin. rewrite Hb in Hin.
    apply List.filter_In in Hin. destruct Hin as [_ Hk].
    unfold price_keeps in Hk.
    destruct (is_nullish (Place.priceLevel p)); [left; reflexivity|].
    right. exact Hk.
Qed.

(* ================================================================== *)
(** ** More on the enrichment gate and the two generators              *)
(* ================================================================== *)

Section CallAccounting.
Context `{JsonLib} `{NumberFormat}.
Variable env : Env.

Lemma enrich_all_calls (l : list Place.t) (w : World) :
  exists cs,
    enrich_all env l w
    = (Ok cs,
       mkWorld (sessions w)
               (calls w
                ++ List.map (fun p => CallPlaceDetails (Place.placeId p)) l)).
Proof.
  revert w. induction l as [|p l IH]; intros w.
  - exists []. simpl. unfold ret. rewrite List.app_nil_r.
    destruct w; reflexivity.
  - unfold enrich_all; fold (enrich_all env).
    unfold bind at 1. unfold enrich_one.
    unfold bind at 1. unfold record_call at 1. unfold ret at 1.
    set (w1 := mkWorld (sessions w)
                       (calls w ++ [CallPlaceDetails (Place.placeId p)])).
    set (c := try_catch _ _).
    destruct (IH w1) as (cs & Hcs).
    unfold bind. rewrite Hcs. unfold ret.
    exists (c :: cs). subst w1. simpl.
    rewrite <- List.app_assoc. reflexivity.
Qed.

(** The gate asks for the details of the identified candidates only,
    once each, in the order of the filter, and of no more than 20 of
    them; it asks nothing else. *)
Theorem gate_asks_once_per_identified_candidate :
  forall (filtered : list Place.t) (w : World),
  exists pool,
    candidates_for_ranking env filtered w
    = (Ok pool,
       mkWorld (sessions w)
               (calls w
                ++ List.map (fun p => CallPlaceDetails (Place.placeId p))
                     (firstn 20 (List.filter has_placeId filtered))))
    /\ (List.length
          (List.map (fun p => CallPlaceDetails (Place.placeId p))
             (firstn 20 (List.filter has_placeId filtered))) <= 20)%nat.
Proof.
  intros filtered w. unfold candidates_for_ranking.
  destruct (enrich_all_calls (firstn 20 (List.filter has_placeId filtered)) w)
    as (cs & Hcs).
  unfold bind. rewrite Hcs. unfold ret.
  eexists. split; [reflexivity|].
  rewrite List.length_map, List.length_firstn. lia.
Qed.

(** The explanation generator calls the provider at most once, and not
    at all without a credential or when a price level of the details is
    negative (the prompt cannot be built); it never writes a session and
    returns one entry per candidate. *)
Theorem explanations_call_provider_at_most_once :
  forall (top5Places : list Scored.t) (slots : Slots.t) (w : World),
  exists explanations w',
    generateBatchExplanations env top5Places slots w = (Ok explanations, w')
    /\ List.length explanations = List.length top5Places
    /\ sessions w' = sessions w
    /\ match getOpenRouterApiKey env, placesInfo top5Places with
       | Some _, Ok info =>
           calls w'
           = (calls w
              ++ [CallProvider
                    (ExplainPrompt info slots (List.length top5Places))])%list
       | _, _ => calls w' = calls w
       end.
Proof.
  intros top5Places slots w.
  unfold generateBatchExplanations.
  destruct (getOpenRouterApiKey env) as [apiKey|].
  - unfold catch, bind, lift, record_call, ret.
    destruct (placesInfo top5Places) as [info|e].
    + destruct (read_explanations _) as [[|items]|e].
      * eexists _, _. split; [reflexivity|].
        split; [apply template_explanations_length|]. split; reflexivity.
      * destruct (Nat.eqb_spec (List.length items) (List.length top5Places)).
        -- eexists _, _. split; [reflexivity|].
           split; [assumption|]. split; reflexivity.
        -- eexists _, _. split; [reflexivity|].
           split; [apply template_explanations_length|]. split; reflexivity.
      * eexists _, _. split; [reflexivity|].
        split; [apply template_explanations_length|]. split; reflexivity.
    + eexists _, _. split; [reflexivity|].
      split; [apply template_explanations_length|]. split; reflexivity.
  - unfold ret. eexists _, _. split; [reflexivity|].
    split; [apply template_explanations_length|]. split; reflexivity.
Qed.

(** With a credential, a prompt that can be built and an answer whose
    array has one entry per candidate, the explanations are the entries
    of the provider, as they are. *)
Theorem explanations_of_the_provider_are_kept :
  forall (top5Places : list Scored.t) (slots : Slots.t) (w : World)
         (apiKey info : string) (content : nullable string)
         (items : list (nullable string)),
    getOpenRouterApiKey env = Some apiKey ->
    placesInfo top5Places = Ok info ->
    openrouter env (ExplainPrompt info slots (List.length top5Places))
    = FetchResponds true (BodyContent content) ->
    JSON_parse_explanations (json_array_text content) = Some (AnArray items) ->
    List.length items = List.length top5Places ->
    fst (generateBatchExplanations env top5Places slots w) = Ok items.
Proof.
  intros top5Places slots w apiKey info content items Hkey Hinfo Hout Hparse
         Hlen.
  unfold generateBatchExplanations. rewrite Hkey.
  unfold catch, bind, lift, record_call, ret. rewrite Hinfo, Hout.
  unfold read_explanations. simpl negb. cbv iota.
  rewrite Hparse.
  apply Nat.eqb_eq in Hlen. rewrite Hlen. reflexivity.
Qed.

(** The interpreter calls the provider once when there is a credential
    and not otherwise; its message is never empty, its intent is never
    the empty text, and its slots are those of the provider or, failing
    them, the slots it was given. *)
Theorem interpreter_calls_once_and_answers_well :
  forall (message : string) (currentSlots : Slots.t) (w : World),
  exists interpretation w',
    interpretMessageWithGemini env message currentSlots w
    = (Ok interpretation, w')
    /\ sessions w' = sessions w
    /\ calls w'
       = match getOpenRouterApiKey env with
         | Some _ =>
             (calls w
              ++ [CallProvider (InterpretPrompt message currentSlots)])%list
         | None => calls w
         end
    /\ Interpretation.assistantMessage interpretation <> ""
    /\ Interpretation.intentType interpretation <> ""
    /\ (Interpretation.slots interpretation = currentSlots
        \/ exists content result,
             openrouter env (InterpretPrompt message currentSlots)
             = FetchResponds true (BodyContent content)
             /\ JSON_parse_reply (json_object_text content)
                = Some (ReplyValue result)
             /\ Reply.slots result
                = val (Interpretation.slots interpretation)).
Proof.
  intros message currentSlots w.
  assert (Hor : forall (x : nullable string) (d : string),
             d <> "" -> or_else x d <> "").
  { intros x d Hd. unfold or_else. destruct x as [| |a]; try exact Hd.
    destruct a; [exact Hd|discriminate]. }
  unfold interpretMessageWithGemini.
  destruct (getOpenRouterApiKey env) as [apiKey|].
  - unfold bind, record_call, ret.
    eexists _, _. split; [reflexivity|].
    split; [reflexivity|]. split; [reflexivity|].
    unfold read_interpretation.
    destruct (openrouter env (InterpretPrompt message currentSlots))
      as [|ok body]; [simpl; repeat split; try discriminate; left; reflexivity|].
    destruct ok; [|simpl; repeat split; try discriminate; left; reflexivity].
    simpl negb. cbv iota.
    destruct body as [| |content];
      try (simpl; repeat split; try discriminate; left; reflexivity).
    destruct (JSON_parse_reply (json_object_text content))
      as [[|result]|] eqn:Eparse;
      try (simpl; repeat split; try discriminate; left; reflexivity).
    simpl try_catch.
    split; [apply Hor; discriminate|].
    split; [apply Hor; discriminate|].
    cbn [Interpretation.slots].
    destruct (Reply.slots result) as [| |s] eqn:Es;
      try (left; reflexivity).
    right. exists content, result. repeat split; assumption.
  - unfold ret. eexists _, _. split; [reflexivity|].
    split; [reflexivity|]. split; [reflexivity|].
    simpl. repeat split; try discriminate. left. reflexivity.
Qed.

End CallAccounting.

(* ================================================================== *)
(** ** More on the orchestrator                                        *)
(* ================================================================== *)

Lemma StronglySorted_firstn {A} (R : A -> A -> Prop) (n : nat) (l : list A) :
  StronglySorted R l -> StronglySorted R (firstn n l).
Proof.
  intros Hs. revert n. induction Hs as [|x l Hs IH Hx]; intros [|n]; simpl;
    try constructor.
  - apply IH.
  - apply List.Forall_forall. intros y Hy. apply firstn_incl in Hy.
    rewrite List.Forall_forall in Hx. apply Hx, Hy.
Qed.

Section TurnProperties.
Context `{MathLib} `{JsonLib} `{NumberFormat}.
Variable env : Env.

(** What an informational turn returns and does. *)
Lemma answer_turn_shape interpretation session w :
  exists r w',
    answer_turn env interpretation session w = (r, w')
    /\ sessions w' = sessions w
    /\ (calls w' = calls w
        \/ exists placeId, calls w' = (calls w ++ [CallPlaceDetails placeId])%list)
    /\ match r with
       | Ok response =>
           exists text,
             response = chat_body text (Session.slots session) [] null
       | Throw e => e = TypeError
       end.
Proof.
  unfold answer_turn. unfold bind at 1. unfold lift at 1.
  destruct (find_target _ _) as [[target|]|e] eqn:Ef.
  - destruct (truthy (Place.placeId target)).
    + unfold catch, bind, record_call, lift, ret.
      destruct (fetchPlaceDetails env (Place.placeId target)) as [ed|e].
      * destruct (informational_answer target _ ed) as [answer|e];
          eexists _, _; (split; [reflexivity|]); (split; [reflexivity|]);
          (split; [right; eexists; reflexivity|]); eexists; reflexivity.
      * eexists _, _. split; [reflexivity|]. split; [reflexivity|].
        split; [right; eexists; reflexivity|]. eexists; reflexivity.
    + unfold ret. eexists _, _. split; [reflexivity|]. split; [reflexivity|].
      split; [left; reflexivity|]. eexists; reflexivity.
  - unfold ret. eexists _, _. split; [reflexivity|]. split; [reflexivity|].
    split; [left; reflexivity|]. eexists; reflexivity.
  - eexists _, _. split; [reflexivity|]. split; [reflexivity|].
    split; [left; reflexivity|].
    unfold find_target in Ef.
    destruct (Interpretation.targetPlaceName interpretation) as [n|];
      [|discriminate].
    destruct (List.find _ _); [discriminate|].
    revert Ef. generalize (getAllPlaces (places env)).
    induction l as [|p l IH]; simpl; [discriminate|].
    unfold rbind, name_overlaps.
    destruct (Place.name p) as [| |nm]; try (intros [= <-]; reflexivity).
    destruct (_ || _); [discriminate|]. exact IH.
Qed.

Lemma format_results_below explanations (r : ResultRecord.t) (c : Scored.t)
  index top5 :
  ResultRecord.score r = Scored.score c ->
  Forall (score_ge c) top5 ->
  Forall (result_ge r) (format_results_from explanations index top5).
Proof.
  intros Hr Hc. revert index.
  induction Hc as [|d top5 Hd Hc IH]; intros index; simpl; constructor.
  - unfold result_ge. rewrite Hr. exact Hd.
  - apply IH.
Qed.

Lemma format_results_sorted explanations index top5 :
  StronglySorted score_ge top5 ->
  StronglySorted result_ge (format_results_from explanations index top5).
Proof.
  intros Hs. revert index.
  induction Hs as [|c top5 Hs IH Hc]; intros index; simpl; constructor.
  - apply IH.
  - apply (format_results_below explanations _ c); [reflexivity|exact Hc].
Qed.

Lemma format_results_length explanations index top5 :
  List.length (format_results_from explanations index top5)
  = List.length top5.
Proof.
  revert index. induction top5 as [|c top5 IH]; intros index; simpl;
    [reflexivity|]. rewrite IH. reflexivity.
Qed.

(** What a recommendation turn returns and does. *)
Lemma recommend_turn_shape interpretation sessionId listName userLocation w :
  exists r w',
    recommend_turn env interpretation sessionId listName userLocation w
    = (r, w')
    /\ sessions w'
       = <[sessionId := Session.mk (Interpretation.slots interpretation)]>
           (sessions w)
    /\ match r with
       | Ok (Json body) =>
           (exists explanations index scored,
              ChatBody.results body
              = format_results_from explanations index
                  (firstn 5 (sort_by_score scored)))
           /\ ChatBody.updatedSlots body = Interpretation.slots interpretation
       | Ok _ => False
       | Throw e => e = TypeError
       end.
Proof.
  unfold recommend_turn.
  unfold bind at 1. unfold sessions_set at 1. cbn [Session.slots].
  set (slots := Interpretation.slots interpretation).
  set (w0 := mkWorld _ _).
  destruct (filterCandidates _ _ _ _) as [|p0 rest].
  - unfold ret. eexists _, _. split; [reflexivity|]. split; [reflexivity|].
    split; [|reflexivity].
    exists [], 0%nat, []. reflexivity.
  - unfold rank_candidates.
    destruct (candidates_for_ranking_returns env (p0 :: rest) w0)
      as (cs & w1 & Hrun & _ & Hs1).
    unfold bind at 1. unfold bind at 1. rewrite Hrun.
    unfold bind at 1. unfold lift at 1.
    destruct (score_all _ slots userLocation) as [scored|e] eqn:Escore.
    + unfold ret at 1.
      destruct (firstn 5 (sort_by_score scored)) as [|c0 top] eqn:Etop.
      * unfold ret. eexists _, _. split; [reflexivity|].
        split; [exact Hs1|]. split; [|reflexivity].
        exists [], 0%nat, scored. rewrite Etop. reflexivity.
      * destruct (explanations_returns env (c0 :: top) slots w1)
          as (ex & w2 & Hex & _ & Hs2).
        unfold bind. rewrite Hex. unfold ret.
        eexists _, _. split; [reflexivity|].
        split; [rewrite Hs2; exact Hs1|]. split; [|reflexivity].
        exists ex, 0%nat, scored. rewrite Etop. reflexivity.
    + eexists _, _. split; [reflexivity|]. split; [exact Hs1|].
      clear Hrun. revert e Escore.
      generalize (cs ++ List.map (fun place => Candidate.mk place None)
                     (firstn 10
                        (List.filter (fun p => negb (has_placeId p))
                                     (p0 :: rest))))%list.
      induction l as [|c l IH]; intros e; simpl; [discriminate|].
      unfold rbind.
      destruct (scorePlace _ _ _ _) as [v|e'] eqn:Ev.
      * destruct (score_all l slots userLocation) as [sc|e'']; [discriminate|].
        intros [= <-]. apply (IH e''). reflexivity.
      * intros [= <-].
        exact (scorePlace_only_throws_TypeError _ _ _ _ _ Ev).
Qed.

(** The turn once the message is there and the welcome is not due. *)
Lemma chat_turn_interprets req w message :
  Request.message req = val message ->
  message <> "" ->
  greeted env req w message = false ->
  chat_turn env req w
  = bind
      (interpretMessageWithGemini env message
         (Session.slots (turn_session env req w)))
      (fun interpretation =>
         if String.eqb (Interpretation.intentType interpretation)
                       "informational"
         then answer_turn env interpretation (turn_session env req w)
         else recommend_turn env interpretation
                (request_sessionId env (request_context req))
                (Context.listName (request_context req))
                (Context.userLocation (request_context req)))
      w.
Proof.
  intros Hmsg Hne Hg. unfold chat_turn.
  rewrite Hmsg, (or_null_string _ Hne).
  unfold bind at 1. unfold sessions_get.
  unfold greeted, turn_session in Hg. rewrite Hg. reflexivity.
Qed.

(** A turn whose message is read as an informational question writes no
    session; it answers with a text, the slots of the session and no
    results, or ends with status 500 when a saved place without a name
    is met while the target is looked for. *)
Theorem informational_turn_writes_no_session :
  forall (req : Request.t) (w w1 : World) (message : string)
         (interpretation : Interpretation.t),
    Request.message req = val message ->
    message <> "" ->
    greeted env req w message = false ->
    interpretMessageWithGemini env message
      (Session.slots (turn_session env req w)) w = (Ok interpretation, w1) ->
    Interpretation.intentType interpretation = "informational" ->
    sessions (snd (handleChatSaved env req w)) = sessions w
    /\ (fst (handleChatSaved env req w) = Status500 TypeError
        \/ exists text,
             fst (handleChatSaved env req w)
             = chat_body text (Session.slots (turn_session env req w)) []
                         null).
Proof.
  intros req w w1 message interpretation Hmsg Hne Hg Hint Hinfo.
  unfold handleChatSaved.
  rewrite (chat_turn_interprets req w message Hmsg Hne Hg).
  unfold bind. rewrite Hint, Hinfo, String.eqb_refl.
  destruct (answer_turn_shape interpretation (turn_session env req w) w1)
    as (r & w' & Hrun & Hs & _ & Hr).
  rewrite Hrun.
  destruct (interpreter_returns env message
              (Session.slots (turn_session env req w)) w)
    as (i' & w1' & Hint' & Hs1).
  rewrite Hint in Hint'. injection Hint' as <- <-.
  destruct r as [response|e]; simpl.
  - split; [congruence|]. right. exact Hr.
  - split; [congruence|]. left. congruence.
Qed.

(** A turn whose message is read as a request for recommendations
    stores the slots of the interpretation under the session identifier
    before anything else: they are there after the turn, also when the
    turn ends with status 500, and no other session is touched. *)
Theorem recommendation_turn_stores_the_slots :
  forall (req : Request.t) (w w1 : World) (message : string)
         (interpretation : Interpretation.t),
    Request.message req = val message ->
    message <> "" ->
    greeted env req w message = false ->
    interpretMessageWithGemini env message
      (Session.slots (turn_session env req w)) w = (Ok interpretation, w1) ->
    Interpretation.intentType interpretation <> "informational" ->
    let sessionId := request_sessionId env (request_context req) in
    let after := sessions (snd (handleChatSaved env req w)) in
    after !! sessionId
    = Some (Session.mk (Interpretation.slots interpretation))
    /\ forall other, other <> sessionId -> after !! other = sessions w !! other.
Proof.
  intros req w w1 message interpretation Hmsg Hne Hg Hint Hrec sessionId after.
  assert (Hafter : after
                   = <[sessionId :=
                         Session.mk (Interpretation.slots interpretation)]>
                       (sessions w)).
  { subst after. unfold handleChatSaved.
    rewrite (chat_turn_interprets req w message Hmsg Hne Hg).
    unfold bind. rewrite Hint.
    apply String.eqb_neq in Hrec. rewrite Hrec.
    destruct (recommend_turn_shape interpretation sessionId
                (Context.listName (request_context req))
                (Context.userLocation (request_context req)) w1)
      as (r & w' & Hrun & Hs & _).
    fold sessionId. rewrite Hrun.
    destruct (interpreter_returns env message
                (Session.slots (turn_session env req w)) w)
      as (i' & w1' & Hint' & Hs1).
    rewrite Hint in Hint'. injection Hint' as <- <-.
    destruct r; simpl; rewrite Hs, Hs1; reflexivity. }
  rewrite Hafter. split.
  - apply lookup_insert_eq.
  - intros other Hother. apply lookup_insert_ne. congruence.
Qed.

(** When the candidate filter leaves nothing, the turn answers that
    nothing matches, with no results and no question, and asks neither
    for details nor for explanations. *)
Theorem empty_filter_ends_the_turn :
  forall (interpretation : Interpretation.t) (sessionId : string)
         (listName : option string) (userLocation : option LatLng.t)
         (w : World),
    filterCandidates (places env) (getAllPlaces (places env))
      (Interpretation.slots interpretation) listName = [] ->
    recommend_turn env interpretation sessionId listName userLocation w
    = (Ok (chat_body NO_MATCH (Interpretation.slots interpretation) []
                     undefined),
       mkWorld
         (<[sessionId := Session.mk (Interpretation.slots interpretation)]>
            (sessions w))
         (calls w)).
Proof.
  intros interpretation sessionId listName userLocation w Hempty.
  unfold recommend_turn. unfold bind at 1. unfold sessions_set at 1.
  cbn [Session.slots]. rewrite Hempty. reflexivity.
Qed.

(** Whatever the request, a turn that answers with results gives at most
    five of them, the best score first. *)
Theorem results_are_at_most_five_best_first :
  forall (req : Request.t) (w w' : World) (body : ChatBody.t),
    handleChatSaved env req w = (Json body, w') ->
    (List.length (ChatBody.results body) <= 5)%nat
    /\ StronglySorted result_ge (ChatBody.results body).
Proof.
  intros req w w' body Hrun.
  assert (Hnil : forall b : ChatBody.t, ChatBody.results b = [] ->
             (List.length (ChatBody.results b) <= 5)%nat
             /\ StronglySorted result_ge (ChatBody.results b)).
  { intros b ->. split; [simpl; lia|constructor]. }
  unfold handleChatSaved in Hrun.
  destruct (Request.message req) as [| |message] eqn:Hmsg;
    try (unfold chat_turn in Hrun; rewrite Hmsg in Hrun; discriminate Hrun).
  destruct message as [|c m];
    [unfold chat_turn in Hrun; rewrite Hmsg in Hrun; discriminate Hrun|].
  destruct (greeted env req w (String c m)) eqn:Hg.
  - unfold chat_turn in Hrun. rewrite Hmsg in Hrun.
    cbn [or_null truthy truthy_string] in Hrun.
    unfold bind, sessions_get in Hrun.
    unfold greeted, turn_session in Hg. rewrite Hg in Hrun.
    unfold ret, chat_body in Hrun. injection Hrun as <- _.
    apply Hnil. reflexivity.
  - rewrite (chat_turn_interprets req w (String c m) Hmsg) in Hrun;
      [|discriminate|exact Hg].
    unfold bind in Hrun.
    destruct (interpreter_returns env (String c m)
                (Session.slots (turn_session env req w)) w)
      as (interpretation & w1 & Hint & _).
    rewrite Hint in Hrun.
    destruct (String.eqb _ _).
    + destruct (answer_turn_shape interpretation (turn_session env req w) w1)
        as (r & w2 & Hans & _ & _ & Hr).
      rewrite Hans in Hrun.
      destruct r as [response|e]; [|discriminate Hrun].
      destruct Hr as [text ->]. unfold chat_body in Hrun.
      injection Hrun as <- _. apply Hnil. reflexivity.
    + destruct (recommend_turn_shape interpretation
                  (request_sessionId env (request_context req))
                  (Context.listName (request_context req))
                  (Context.userLocation (request_context req)) w1)
        as (r & w2 & Hrec & _ & Hr).
      rewrite Hrec in Hrun.
      destruct r as [response|e]; [|discriminate Hrun].
      injection Hrun as -> _.
      destruct Hr as [(ex & index & scored & ->) _]. split.
      * rewrite format_results_length, List.length_firstn. lia.
      * apply format_results_sorted, StronglySorted_firstn,
          sort_by_score_descending.
Qed.

End TurnProperties.

(* ================================================================== *)
(** ** More on the ranking                                             *)
(* ================================================================== *)

Lemma StronglySorted_app_cross {A} (R : A -> A -> Prop) (l1 l2 : list A) :
  StronglySorted R (l1 ++ l2) ->
  forall a b, In a l1 -> In b l2 -> R a b.
Proof.
  induction l1 as [|x l1 IH]; simpl; intros Hs a b Ha Hb; [tauto|].
  inversion Hs as [|? ? Hs' Hx]; subst.
  destruct Ha as [->|Ha].
  - rewrite List.Forall_forall in Hx. apply Hx.
    apply List.in_or_app. right. exact Hb.
  - apply (IH Hs' a b Ha Hb).
Qed.

(** Where the ranking is cut, no candidate that is left out has a higher
    score than one that is kept. *)
Theorem no_better_candidate_is_left_out :
  forall (scored : list Scored.t) (n : nat) (kept left_out : Scored.t),
    In kept (firstn n (sort_by_score scored)) ->
    In left_out (skipn n (sort_by_score scored)) ->
    Scored.score left_out <= Scored.score kept.
Proof.
  intros scored n kept left_out Hk Hl.
  pose proof (sort_by_score_descending scored) as Hs.
  rewrite <- (List.firstn_skipn n (sort_by_score scored)) in Hs.
  exact (StronglySorted_app_cross _ _ _ Hs kept left_out Hk Hl).
Qed.

Lemma same_score_equiv : Equivalence same_score.
Proof.
  unfold same_score. split.
  - intros a. reflexivity.
  - intros a b Hab. symmetry. exact Hab.
  - intros a b c Hab Hbc. rewrite Hab. exact Hbc.
Qed.

Lemma descending_without_ties (l : list Scored.t) :
  StronglySorted score_ge l ->
  SetoidList.NoDupA same_score l ->
  StronglySorted score_gt l.
Proof.
  induction 1 as [|x l Hs IH Hx]; intros Hnd; constructor.
  - apply IH. inversion Hnd; assumption.
  - inversion Hnd as [|? ? Hnot Hnd']; subst.
    apply List.Forall_forall. intros y Hy.
    rewrite List.Forall_forall in Hx. specialize (Hx y Hy).
    unfold score_ge in Hx. unfold score_gt.
    destruct (Qlt_le_dec (Scored.score y) (Scored.score x)) as [Hlt|Hle];
      [exact Hlt|].
    exfalso. apply Hnot. apply SetoidList.InA_alt.
    exists y. split; [|exact Hy]. unfold same_score. lra.
Qed.

(** Two strictly descending arrangements of the same candidates are the
    same list. *)
Lemma strictly_descending_unique (l1 l2 : list Scored.t) :
  StronglySorted score_gt l1 ->
  StronglySorted score_gt l2 ->
  Permutation l1 l2 ->
  l1 = l2.
Proof.
  intros H1. revert l2.
  induction H1 as [|x l1 Hs1 IH Hx]; intros l2 H2 Hp.
  - apply Permutation_nil in Hp. congruence.
  - destruct l2 as [|y l2];
      [apply Permutation_sym, Permutation_nil in Hp; discriminate|].
    inversion H2 as [|? ? Hs2 Hy]; subst.
    assert (Hxy : x = y).
    { assert (Hin1 : In y (x :: l1))
        by (apply (Permutation_in _ (Permutation_sym Hp)); left; reflexivity).
      assert (Hin2 : In x (y :: l2))
        by (apply (Permutation_in _ Hp); left; reflexivity).
      destruct Hin1 as [Heq|Hin1]; [exact Heq|].
      destruct Hin2 as [Heq|Hin2]; [congruence|].
      rewrite List.Forall_forall in Hx, Hy.
      specialize (Hx y Hin1). specialize (Hy x Hin2).
      unfold score_gt in *. lra. }
    subst y. f_equal. apply IH; [exact Hs2|].
    exact (Permutation_cons_inv Hp).
Qed.

(** The order in which the candidates are scored matters for ties only:
    two pools with the same candidates, no two of them with the same
    score, get the same ranking. *)
Theorem ranking_depends_on_order_for_ties_only :
  forall (scored scored' : list Scored.t),
    Permutation scored scored' ->
    SetoidList.NoDupA same_score scored ->
    sort_by_score scored = sort_by_score scored'.
Proof.
  intros scored scored' Hp Hnd.
  assert (Hnd1 : SetoidList.NoDupA same_score (sort_by_score scored)).
  { eapply SetoidPermutation.PermutationA_preserves_NoDupA;
      [exact same_score_equiv| |exact Hnd].
    apply SetoidPermutation.Permutation_PermutationA;
      [exact same_score_equiv|apply sort_by_score_perm]. }
  assert (Hnd2 : SetoidList.NoDupA same_score (sort_by_score scored')).
  { eapply SetoidPermutation.PermutationA_preserves_NoDupA;
      [exact same_score_equiv| |exact Hnd].
    apply SetoidPermutation.Permutation_PermutationA;
      [exact same_score_equiv|].
    rewrite <- (sort_by_score_perm scored'). exact Hp. }
  apply strictly_descending_unique.
  - apply descending_without_ties;
      [apply sort_by_score_descending|exact Hnd1].
  - apply descending_without_ties;
      [apply sort_by_score_descending|exact Hnd2].
  - rewrite <- (sort_by_score_perm scored), <- (sort_by_score_perm scored').
    exact Hp.
Qed.

(* ================================================================== *)
(** ** More on the text handed to the parser                           *)
(* ================================================================== *)

Lemma after_first_split (c : ascii) (s r : string) :
  after_first c s = Some r ->
  exists pre, s = pre ++ String c r /\ contains_unit c pre = false.
Proof.
  revert r. induction s as [|a s IH]; intros r; simpl; [discriminate|].
  destruct (Ascii.eqb a c) eqn:E.
  - intros [= <-]. apply Ascii.eqb_eq in E. subst a.
    exists "". split; reflexivity.
  - intros Hr. destruct (IH r Hr) as (pre & -> & Hpre).
    exists (String a pre). split; [reflexivity|].
    simpl. rewrite E. exact Hpre.
Qed.

Lemma after_first_found (c : ascii) (pre r : string) :
  contains_unit c pre = false ->
  after_first c (pre ++ String c r) = Some r.
Proof.
  induction pre as [|a pre IH]; simpl.
  - intros _. rewrite Ascii.eqb_refl. reflexivity.
  - destruct (Ascii.eqb a c); [discriminate|]. exact IH.
Qed.

Lemma upto_last_none (c : ascii) (s : string) :
  upto_last c s = None <-> contains_unit c s = false.
Proof.
  induction s as [|a s IH]; simpl; [tauto|].
  destruct (upto_last c s) as [t|].
  - split; [discriminate|].
    intros Hf. apply orb_false_iff in Hf. destruct Hf as [_ Hf].
    apply IH in Hf. discriminate.
  - destruct (Ascii.eqb a c); simpl.
    + split; discriminate.
    + split; [intros _; apply IH; reflexivity|reflexivity].
Qed.

Lemma upto_last_split (c : ascii) (s t : string) :
  upto_last c s = Some t ->
  exists mid post,
    s = mid ++ String c post
    /\ contains_unit c post = false
    /\ t = mid ++ String c "".
Proof.
  revert t. induction s as [|a s IH]; intros t; simpl; [discriminate|].
  destruct (upto_last c s) as [t'|] eqn:E.
  - intros [= <-]. destruct (IH t' eq_refl) as (mid & post & -> & Hpost & ->).
    exists (String a mid), post. repeat split. exact Hpost.
  - destruct (Ascii.eqb a c) eqn:Ea; [|discriminate].
    intros [= <-]. apply Ascii.eqb_eq in Ea. subst a.
    exists "", s. repeat split. apply upto_last_none, E.
Qed.

Lemma upto_last_found (c : ascii) (mid post : string) :
  contains_unit c post = false ->
  upto_last c (mid ++ String c post) = Some (mid ++ String c "").
Proof.
  intros Hpost. induction mid as [|a mid IH]; simpl.
  - apply upto_last_none in Hpost. rewrite Hpost, Ascii.eqb_refl. reflexivity.
  - rewrite IH. reflexivity.
Qed.

(** What is extracted from the answer of the provider is the part of the
    text from its first opening bracket to its last closing bracket
    behind it, both included; nothing is extracted exactly when no
    closing bracket follows the first opening one. *)
Theorem match_span_is_first_open_to_last_close :
  forall (open close : ascii) (text m : string),
    match_span open close text = Some m
    <-> exists pre mid post,
          text = pre ++ String open (mid ++ String close post)
          /\ contains_unit open pre = false
          /\ contains_unit close post = false
          /\ m = String open (mid ++ String close "").
Proof.
  intros open close text m. unfold match_span. split.
  - destruct (after_first open text) as [r|] eqn:Ea; [|discriminate].
    destruct (upto_last close r) as [t|] eqn:Eu; [|discriminate].
    intros [= <-].
    destruct (after_first_split _ _ _ Ea) as (pre & -> & Hpre).
    destruct (upto_last_split _ _ _ Eu) as (mid & post & -> & Hpost & ->).
    exists pre, mid, post. repeat split; assumption.
  - intros (pre & mid & post & -> & Hpre & Hpost & ->).
    rewrite (after_first_found _ _ _ Hpre), (upto_last_found _ _ _ Hpost).
    reflexivity.
Qed.

(* ================================================================== *)
(** ** More on the greeting detection                                  *)
(* ================================================================== *)

Lemma trimStart_head (s : string) (c : ascii) (r : string) :
  trimStart s = String c r -> is_space c = false.
Proof.
  induction s as [|a s IH]; simpl; [discriminate|].
  destruct (is_space a) eqn:E; [exact IH|].
  intros [= <- _]. exact E.
Qed.

Lemma trimEnd_head (s : string) (c : ascii) (r : string) :
  trimEnd s = String c r -> exists r', s = String c r'.
Proof.
  destruct s as [|a s]; simpl; [discriminate|].
  destruct (trimEnd s).
  - destruct (is_space a); [discriminate|].
    intros [= <- _]. eexists; reflexivity.
  - intros [= <- _]. eexists; reflexivity.
Qed.

Lemma trim_head (s : string) (c : ascii) (r : string) :
  trim s = String c r -> is_space c = false.
Proof.
  unfold trim. intros Ht.
  destruct (trimEnd_head _ _ _ Ht) as [r' Hs].
  exact (trimStart_head _ _ _ Hs).
Qed.

Lemma short_greetings_are_long (s : string) :
  word_then_boundary greetings_short s = true ->
  word_then_boundary greetings_long s = true.
Proof.
  unfold word_then_boundary, greetings_short, greetings_long.
  cbn [existsb].
  repeat match goal with
         | |- context [match strip_prefix ?w ?t with _ => _ end] =>
             let b := fresh "b" in
             set (b := match strip_prefix w t with
                       | Some rest => at_boundary rest
                       | None => false
                       end)
         end.
  repeat match goal with b : bool |- _ => destruct b end; simpl;
    intros; try reflexivity; try discriminate.
Qed.

(** The second pattern never adds a greeting: on the trimmed message its
    white space alternative cannot apply and its three words are words
    of the first pattern.  A message is a greeting exactly when, case
    folded and trimmed, it begins with a word of the first pattern that
    ends the message or is followed by white space or one of [!.,?], and
    has at most five tokens. *)
Theorem greeting_is_decided_by_first_pattern :
  forall message : string,
    isGreeting message
    = greeting_pattern_1 (trim (toLowerCase message))
      && (List.length (split_ws (trim (toLowerCase message))) <=? 5)%nat.
Proof.
  intros message. unfold isGreeting.
  set (m := trim (toLowerCase message)).
  f_equal.
  destruct (greeting_pattern_1 m) eqn:E1; [reflexivity|].
  simpl. unfold greeting_pattern_2.
  assert (Hshort : word_then_boundary greetings_short m = false).
  { destruct (word_then_boundary greetings_short m) eqn:E; [|reflexivity].
    apply short_greetings_are_long in E.
    unfold greeting_pattern_1 in E1. congruence. }
  rewrite Hshort, orb_false_r.
  destruct m as [|c r] eqn:Em; [reflexivity|].
  subst m. rewrite (trim_head _ _ _ Em). reflexivity.
Qed.

(* ================================================================== *)
(** ** Sorting with a comparator                                       *)
(* ================================================================== *)

Lemma insert_behind_perm {A} (behind : A -> A -> bool) (x : A) (l : list A) :
  Permutation (x :: l) (insert_behind behind x l).
Proof.
  induction l as [|y l IH]; [reflexivity|].
  simpl. destruct (behind x y).
  - rewrite perm_swap. apply perm_skip, IH.
  - reflexivity.
Qed.

Lemma sort_with_perm {A} (behind : A -> A -> bool) (l : list A) :
  Permutation l (sort_with behind l).
Proof.
  induction l as [|x l IH]; [reflexivity|].
  simpl. rewrite <- insert_behind_perm. apply perm_skip, IH.
Qed.

Lemma insert_behind_sorted {A} (behind : A -> A -> bool)
  (R : A -> A -> Prop) (x : A) (l : list A) :
  (forall a b, behind a b = true -> R b a) ->
  (forall a b, behind a b = false -> R a b) ->
  Sorted R l -> Sorted R (insert_behind behind x l).
Proof.
  intros Htrue Hfalse.
  induction 1 as [|y l Hl IH Hy]; [repeat constructor|].
  simpl. destruct (behind x y) eqn:Exy.
  - constructor; [exact IH|].
    destruct l as [|z l]; simpl.
    + constructor. apply Htrue, Exy.
    + destruct (behind x z).
      * constructor. inversion Hy. assumption.
      * constructor. apply Htrue, Exy.
  - constructor; [constructor; assumption|].
    constructor. apply Hfalse, Exy.
Qed.

Lemma sort_with_sorted {A} (behind : A -> A -> bool) (R : A -> A -> Prop)
  (l : list A) :
  (forall a b, behind a b = true -> R b a) ->
  (forall a b, behind a b = false -> R a b) ->
  (forall a b c, R a b -> R b c -> R a c) ->
  StronglySorted R (sort_with behind l).
Proof.
  intros Htrue Hfalse Htrans.
  apply Sorted_StronglySorted; [exact Htrans|].
  induction l as [|x l IH]; [constructor|].
  simpl. apply insert_behind_sorted; assumption.
Qed.

Lemma Qlt_bool_true (a b : Q) : Qlt_bool a b = true -> a < b.
Proof.
  unfold Qlt_bool. intros Hb. apply negb_true_iff in Hb.
  destruct (Qlt_le_dec a b) as [Hlt|Hle]; [exact Hlt|].
  apply Qle_bool_iff in Hle. congruence.
Qed.

Lemma Qlt_bool_false (a b : Q) : Qlt_bool a b = false -> b <= a.
Proof.
  unfold Qlt_bool. intros Hb. apply negb_false_iff in Hb.
  apply Qle_bool_iff. exact Hb.
Qed.

Lemma map_defined_keyed {A} (f : A -> option Q) (l : list A)
  (keyed : list (A * Q)) :
  map_defined (fun x => option_map (fun k => (x, k)) (f x)) l = Some keyed ->
  List.map fst keyed = l
  /\ Forall (fun xk => f (fst xk) = Some (snd xk)) keyed.
Proof.
  revert keyed. induction l as [|x l IH]; intros keyed; simpl.
  - intros [= <-]. split; constructor.
  - destruct (f x) as [k|] eqn:Ek; simpl; [|discriminate].
    destruct (map_defined _ l) as [ks|]; [|discriminate].
    intros [= <-]. destruct (IH ks eq_refl) as [Hm Hf].
    split; [simpl; congruence|]. constructor; assumption.
Qed.

(* ================================================================== *)
(** ** Properties of the scoring utilities                             *)
(* ================================================================== *)

Section ScoringProperties.
Context `{MathLib}.

(** The utility score of a place, when it is a number, is a number from
    50 to 100, never less than the base of 50; in a context without a
    user location no distance is computed and the score is always a
    number. *)
Theorem utility_score_is_between_50_and_100 :
  forall (place : Place.t) (context : ScoreContext.t),
    (forall v, Scoring.scorePlace place context = Some v -> 50 <= v <= 100)
    /\ (or_null (ScoreContext.userLat context) = None
        \/ or_null (ScoreContext.userLng context) = None ->
        exists v, Scoring.scorePlace place context = Some v).
Proof.
  intros place context. unfold Scoring.scorePlace.
  set (base := Scoring.distance_scored place context).
  assert (Hbase : forall s, base = Some s -> 50 <= s).
  { subst base. unfold Scoring.distance_scored. intros s.
    destruct (or_null (ScoreContext.userLat context)) as [ulat|];
      [|intros [= <-]; lra].
    destruct (or_null (ScoreContext.userLng context)) as [ulng|];
      [|intros [= <-]; lra].
    destruct (to_number (Place.lat place)) as [plat|]; [|discriminate].
    destruct (to_number (Place.lng place)) as [plng|]; [|discriminate].
    intros [= <-].
    pose proof (Q.le_max_l 0 (30 - Scoring.calculateDistance ulat ulng plat
                                     plng * 2)).
    lra. }
  assert (Hdef : or_null (ScoreContext.userLat context) = None
                 \/ or_null (ScoreContext.userLng context) = None ->
                 exists s, base = Some s).
  { subst base. unfold Scoring.distance_scored. intros [Hnone|Hnone].
    - rewrite Hnone. eauto.
    - rewrite Hnone.
      destruct (or_null (ScoreContext.userLat context)); eauto. }
  clearbody base.
  set (c1 := truthy (ScoreContext.category context) && _).
  set (c2 := negb _ && _).
  set (c3 := truthy (ScoreContext.vibe context) && _).
  clearbody c1 c2 c3.
  split.
  - intros v Hv.
    destruct base as [s|];
      [|destruct c1, c2, c3; simpl in Hv; discriminate Hv].
    specialize (Hbase s eq_refl).
    destruct c1, c2, c3; simpl in Hv; injection Hv as <-;
      (split; [apply Q.min_glb; [lra|];
               match goal with
               | |- _ <= Qmax 0 ?x =>
                   pose proof (Q.le_max_r 0 x); lra
               end
              |apply Q.le_min_l]).
  - intros Hnone. destruct (Hdef Hnone) as [s ->].
    destruct c1, c2, c3; simpl; eauto.
Qed.

(** When every score is a number, [sortByScore] returns the places it
    was given, each once, by descending score. *)
Theorem sortByScore_is_a_descending_permutation :
  forall (places sorted : list Place.t) (context : ScoreContext.t),
    Scoring.sortByScore places context = Some sorted ->
    Permutation places sorted
    /\ exists scored : list (Place.t * Q),
         List.map fst scored = sorted
         /\ Forall (fun ps => Scoring.scorePlace (fst ps) context
                              = Some (snd ps)) scored
         /\ StronglySorted (fun a b => snd b <= snd a) scored.
Proof.
  intros places sorted context. unfold Scoring.sortByScore.
  destruct (map_defined _ places) as [scored|] eqn:Em; [|discriminate].
  intros [= <-].
  destruct (map_defined_keyed (fun p => Scoring.scorePlace p context)
              places scored Em) as [Hfst Hall].
  pose proof (sort_with_perm Scoring.lower_score scored) as Hp.
  split.
  - rewrite <- Hfst. apply Permutation_map, Hp.
  - exists (sort_with Scoring.lower_score scored). split; [reflexivity|].
    split.
    + apply List.Forall_forall. intros ps Hin.
      rewrite List.Forall_forall in Hall. apply Hall.
      apply (Permutation_in _ (Permutation_sym Hp)), Hin.
    + apply sort_with_sorted.
      * intros a b Hab. apply Qlt_bool_true in Hab. lra.
      * intros a b Hab. apply Qlt_bool_false in Hab. exact Hab.
      * intros a b c Hab Hbc. lra.
Qed.

(** What [getRecommendations] returns: at most 10 of the given places,
    of the type and the vibe asked for, and of exactly the price level
    of the context.  When the context has no price level (or the level
    0), that level is [null]: only places whose price level is [null]
    are recommended. *)
Theorem recommendations_are_filtered_and_capped :
  forall (places : list Place.t) (context : RecContext.t)
         (r : Recommendation.t),
    getRecommendations places context = Some r ->
    (List.length (Recommendation.results r) <= 10)%nat
    /\ (forall p, In p (Recommendation.results r) ->
          In p places
          /\ (forall category,
                 or_null (RecContext.category context) = Some category ->
                 Place.type p = val category)
          /\ (forall vibe,
                 or_null (RecContext.vibe context) = Some vibe ->
                 Place.vibe p = val vibe)
          /\ number_is (Place.priceLevel p)
                       (or_null (RecContext.priceLevel context)) = true
          /\ (or_null (RecContext.priceLevel context) = None ->
              Place.priceLevel p = null)).
Proof.
  intros places context r. unfold getRecommendations.
  set (interpreted := interpret_context context).
  set (filtered := recommendation_filter interpreted places).
  assert (Hfiltered : forall p, In p filtered ->
            In p places
            /\ (forall category,
                   or_null (RecContext.category context) = Some category ->
                   Place.type p = val category)
            /\ (forall vibe,
                   or_null (RecContext.vibe context) = Some vibe ->
                   Place.vibe p = val vibe)
            /\ number_is (Place.priceLevel p)
                         (or_null (RecContext.priceLevel context)) = true
            /\ (or_null (RecContext.priceLevel context) = None ->
                Place.priceLevel p = null)).
  { assert (Heqb : forall x s, nullable_string_eqb x s = true -> x = val s).
    { intros x s. unfold nullable_string_eqb.
      destruct x as [| |a]; try discriminate.
      intros Ha. apply String.eqb_eq in Ha. congruence. }
    subst filtered. unfold recommendation_filter. subst interpreted.
    cbn [interpret_context Interpreted.category Interpreted.vibe
         Interpreted.priceLevel].
    intros p Hp.
    assert (Hin3 : In p
              (List.filter
                 (fun p => number_is (Place.priceLevel p)
                             (or_null (RecContext.priceLevel context)))
                 match or_null (RecContext.category context) with
                 | Some category =>
                     List.filter
                       (fun p => nullable_string_eqb (Place.type p) category)
                       places
                 | None => places
                 end)).
    { destruct (or_null (RecContext.vibe context));
        [apply List.filter_In in Hp; tauto|exact Hp]. }
    apply List.filter_In in Hin3. destruct Hin3 as [Hin2 Hprice].
    split; [|split; [|split; [|split]]].
    - destruct (or_null (RecContext.category context));
        [apply List.filter_In in Hin2; tauto|exact Hin2].
    - intros category Hc. rewrite Hc in Hin2.
      apply List.filter_In in Hin2. apply Heqb. tauto.
    - intros vibe Hv. rewrite Hv in Hp.
      apply List.filter_In in Hp. apply Heqb. tauto.
    - exact Hprice.
    - intros Hnone. rewrite Hnone in Hprice. unfold number_is in Hprice.
      destruct (Place.priceLevel p); [discriminate|reflexivity|discriminate]. }
  clearbody filtered.
  destruct (Interpreted.userLocation interpreted) as [u|].
  - destruct (map_defined _ filtered) as [keyed|] eqn:Em; [|discriminate].
    simpl. intros [= <-]. cbn [Recommendation.results].
    destruct (map_defined_keyed (flat_distance u) filtered keyed Em)
      as [Hfst _].
    split; [rewrite List.length_firstn; lia|].
    intros p Hp. apply firstn_incl in Hp. apply Hfiltered.
    rewrite <- Hfst.
    apply (Permutation_in _ (Permutation_sym
             (Permutation_map fst (sort_with_perm farther keyed)))), Hp.
  - simpl. intros [= <-]. cbn [Recommendation.results].
    split; [rewrite List.length_firstn; lia|].
    intros p Hp. apply firstn_incl in Hp. apply Hfiltered, Hp.
Qed.

(** With a user location, the recommendations are the nearest first, by
    the flat distance; without one they keep the order of the places. *)
Theorem recommendations_are_nearest_first :
  forall (places : list Place.t) (context : RecContext.t)
         (r : Recommendation.t),
    getRecommendations places context = Some r ->
    match Interpreted.userLocation (interpret_context context) with
    | Some u =>
        exists keyed : list (Place.t * Q),
          Recommendation.results r = firstn 10 (List.map fst keyed)
          /\ Permutation
               (recommendation_filter (interpret_context context) places)
               (List.map fst keyed)
          /\ Forall (fun pd => flat_distance u (fst pd) = Some (snd pd)) keyed
          /\ StronglySorted (fun a b => snd a <= snd b) keyed
    | None =>
        Recommendation.results r
        = firstn 10 (recommendation_filter (interpret_context context) places)
    end.
Proof.
  intros places context r. unfold getRecommendations.
  destruct (Interpreted.userLocation (interpret_context context)) as [u|].
  - destruct (map_defined _ _) as [keyed|] eqn:Em; [|discriminate].
    simpl. intros [= <-]. cbn [Recommendation.results].
    destruct (map_defined_keyed (flat_distance u) _ keyed Em) as [Hfst Hall].
    pose proof (sort_with_perm farther keyed) as Hp.
    exists (sort_with farther keyed). split; [reflexivity|].
    split; [rewrite <- Hfst; apply Permutation_map, Hp|]. split.
    + apply List.Forall_forall. intros pd Hin.
      rewrite List.Forall_forall in Hall. apply Hall.
      apply (Permutation_in _ (Permutation_sym Hp)), Hin.
    + apply sort_with_sorted.
      * intros a b Hab. apply Qlt_bool_true in Hab. lra.
      * intros a b Hab. apply Qlt_bool_false in Hab. exact Hab.
      * intros a b c Hab Hbc. lra.
  - simpl. intros [= <-]. reflexivity.
Qed.

End ScoringProperties.

(* ================================================================== *)
(** ** Properties of the place store                                   *)
(* ================================================================== *)

Lemma find_app_none {A} (f : A -> bool) (l1 l2 : list A) :
  List.find f l1 = None -> List.find f (l1 ++ l2) = List.find f l2.
Proof.
  induction l1 as [|x l1 IH]; simpl; [reflexivity|].
  destruct (f x); [discriminate|exact IH].
Qed.

Lemma find_app_some {A} (f : A -> bool) (l1 l2 : list A) (x : A) :
  List.find f l1 = Some x -> List.find f (l1 ++ l2) = Some x.
Proof.
  induction l1 as [|y l1 IH]; simpl; [discriminate|].
  destruct (f y); [tauto|exact IH].
Qed.

(** A place that is added under an identifier that no stored place has
    is found under it and counted; the places stored under other
    identifiers are found as before. *)
Theorem added_place_is_found :
  forall (id createdAt : string) (placeData : PlaceData.t)
         (places : list Saved.t),
    Forall (fun p => Saved.id p <> id) places ->
    Data.getPlaceById (snd (Data.addPlace id createdAt placeData places)) id
    = Some (fst (Data.addPlace id createdAt placeData places))
    /\ Data.getPlacesCount (snd (Data.addPlace id createdAt placeData places))
       = S (Data.getPlacesCount places)
    /\ forall other,
         other <> id ->
         Data.getPlaceById
           (snd (Data.addPlace id createdAt placeData places)) other
         = Data.getPlaceById places other.
Proof.
  intros id createdAt placeData places Hfresh.
  unfold Data.addPlace, Data.getPlaceById, Data.getPlacesCount.
  cbn [fst snd]. split; [|split].
  - rewrite find_app_none.
    + simpl. unfold Saved.id at 1. cbn [Saved.place Place.id].
      rewrite String.eqb_refl. reflexivity.
    + induction Hfresh as [|p l Hp _ IH]; simpl; [reflexivity|].
      apply String.eqb_neq in Hp. rewrite Hp. exact IH.
  - rewrite List.length_app. simpl. lia.
  - intros other Hother.
    destruct (List.find (fun p => String.eqb (Saved.id p) other) places)
      as [p|] eqn:Ef.
    + apply find_app_some. exact Ef.
    + rewrite (find_app_none _ _ _ Ef). simpl.
      unfold Saved.id at 1. cbn [Saved.place Place.id].
      assert (Hne : String.eqb id other = false)
        by (apply String.eqb_neq; congruence).
      rewrite Hne. reflexivity.
Qed.

(** [updatePlaceCoords] changes the first place of the identifier and no
    other: the identifiers and their order stay, the place returned is
    the one found with the coordinates applied, it is what is found
    afterwards, and an identifier that is not stored changes nothing. *)
Theorem update_changes_the_place_found_only :
  forall (places : list Saved.t) (placeId : string) (coords : Coords.t),
    let found := fst (Data.updatePlaceCoords places placeId coords) in
    let places' := snd (Data.updatePlaceCoords places placeId coords) in
    List.map Saved.id places' = List.map Saved.id places
    /\ found
       = option_map (Data.with_coords coords)
                    (Data.getPlaceById places placeId)
    /\ Data.getPlaceById places' placeId = found
    /\ (forall other,
           other <> placeId ->
           Data.getPlaceById places' other = Data.getPlaceById places other)
    /\ (Data.getPlaceById places placeId = None -> places' = places).
Proof.
  intros places placeId coords. cbv zeta.
  induction places as [|p rest IH]; simpl.
  - repeat split; reflexivity.
  - unfold Data.getPlaceById in *. simpl.
    destruct (String.eqb (Saved.id p) placeId) eqn:Ep; simpl.
    + assert (Hid : Saved.id (Data.with_coords coords p) = Saved.id p)
        by reflexivity.
      rewrite Hid, Ep. repeat split; try reflexivity.
      * intros other Hother.
        apply String.eqb_eq in Ep.
        assert (Hne : String.eqb (Saved.id p) other = false)
          by (apply String.eqb_neq; congruence).
        rewrite Hne. reflexivity.
      * discriminate.
    + destruct (Data.updatePlaceCoords rest placeId coords)
        as [found rest'] eqn:Eu.
      simpl in *. destruct IH as (Hids & Hfound & Hget & Hother & Hnone).
      rewrite Ep. repeat split.
      * f_equal. exact Hids.
      * exact Hfound.
      * exact Hget.
      * intros other Ho. destruct (String.eqb (Saved.id p) other);
          [reflexivity|apply Hother, Ho].
      * intros Hn. f_equal. apply Hnone, Hn.
Qed.

Lemma or_else_truthy (x : nullable string) (d : string) :
  truthy x = true -> val (or_else x d) = x.
Proof.
  destruct x as [| |s]; try discriminate.
  intros Hs. change (truthy s = true) in Hs.
  unfold or_else. rewrite Hs. reflexivity.
Qed.

Lemma or_null_truthy {A} `{Truthy A} (x : nullable A) :
  truthy x = true -> exists a, x = val a /\ or_null x = Some a.
Proof.
  destruct x as [| |a]; try discriminate.
  intros Ha. change (truthy a = true) in Ha.
  exists a. unfold or_null. rewrite Ha. split; reflexivity.
Qed.

(** The place that [addPlace] makes of some data is the same place, by
    [placeExistsByUrl], as the data. *)
Lemma same_by_url_added (id createdAt name : string) (d : PlaceData.t)
  (places : list Saved.t) :
  PlaceData.name d = val name ->
  name <> "" ->
  Data.same_by_url name (PlaceData.url d)
    (Data.default_null (PlaceData.notes d))
    (fst (Data.addPlace id createdAt d places)) = true.
Proof.
  intros Hname Hne. unfold Data.addPlace, Data.same_by_url.
  cbn [fst Saved.place Saved.url Place.name Place.notes].
  rewrite Hname.
  assert (Hn : or_else (val name) "" = name)
    by (destruct name; [congruence|reflexivity]).
  rewrite Hn. unfold nullable_string_eqb. rewrite String.eqb_refl.
  cbn [negb].
  unfold or_null_value, or_null, Data.default_null.
  destruct (PlaceData.url d) as [| |u]; destruct (PlaceData.notes d) as [| |n];
    try reflexivity;
    try (destruct u as [|cu u]; try reflexivity;
         simpl; rewrite Ascii.eqb_refl, String.eqb_refl; reflexivity);
    try (destruct n as [|cn n]; try reflexivity;
         simpl; rewrite Ascii.eqb_refl, String.eqb_refl; reflexivity);
    try (destruct u as [|cu u]; destruct n as [|cn n]; try reflexivity;
         simpl; rewrite Ascii.eqb_refl, String.eqb_refl; reflexivity).
Qed.

Lemma placeExistsByUrl_grows (places more : list Saved.t)
  (name url note : nullable string) :
  Data.placeExistsByUrl places name url note = true ->
  Data.placeExistsByUrl (places ++ more) name url note = true.
Proof.
  unfold Data.placeExistsByUrl.
  destruct (or_null name); [|discriminate].
  rewrite existsb_app. intros ->. reflexivity.
Qed.

Lemma placeExistsByUrl_added (id createdAt : string) (d : PlaceData.t)
  (places : list Saved.t) :
  truthy (PlaceData.name d) = true ->
  Data.placeExistsByUrl (snd (Data.addPlace id createdAt d places))
    (PlaceData.name d) (PlaceData.url d) (PlaceData.notes d) = true.
Proof.
  intros Hname.
  destruct (or_null_truthy _ Hname) as (name & Hn & Hon).
  assert (Hne : name <> "").
  { intros ->. rewrite Hn in Hname. discriminate. }
  unfold Data.placeExistsByUrl. rewrite Hon.
  pose proof (same_by_url_added id createdAt name d places Hn Hne) as Hsame.
  unfold Data.addPlace in *. cbn [fst snd] in *.
  rewrite existsb_app. apply orb_true_intro. right.
  cbn [existsb]. apply orb_true_intro. left. exact Hsame.
Qed.

(** Data that [validatePlaceData] accepts has a name and coordinates in
    range, neither of them 0 (the equator and the prime meridian are
    refused), and [addPlace] stores that name and those coordinates. *)
Theorem valid_data_is_stored_as_given :
  forall (d : PlaceData.t) (id createdAt : string) (places : list Saved.t),
    validatePlaceData d = true ->
    exists (name : string) (lat lng : Q),
      PlaceData.name d = val name /\ name <> ""
      /\ PlaceData.lat d = val lat /\ PlaceData.lng d = val lng
      /\ -90 <= lat <= 90 /\ ~ lat == 0
      /\ -180 <= lng <= 180 /\ ~ lng == 0
      /\ let stored := Saved.place (fst (Data.addPlace id createdAt d places)) in
         Place.name stored = val name
         /\ Place.lat stored = val lat
         /\ Place.lng stored = val lng.
Proof.
  intros d id createdAt places. unfold validatePlaceData.
  destruct (or_null (PlaceData.name d)) as [name|] eqn:En; [|discriminate].
  destruct (or_null (PlaceData.lat d)) as [lat|] eqn:Elat; [|discriminate].
  destruct (or_null (PlaceData.lng d)) as [lng|] eqn:Elng; [|discriminate].
  destruct (Qlt_bool lat (-90) || Qlt_bool 90 lat) eqn:E1; [discriminate|].
  destruct (Qlt_bool lng (-180) || Qlt_bool 180 lng) eqn:E2; [discriminate|].
  intros _.
  apply orb_false_iff in E1, E2. destruct E1 as [E1a E1b], E2 as [E2a E2b].
  apply Qlt_bool_false in E1a, E1b, E2a, E2b.
  destruct (or_null_string_inv _ _ En) as [Hname Hne].
  assert (Hnum : forall (x : nullable Q) (q : Q),
             or_null x = Some q -> x = val q /\ ~ q == 0).
  { intros x q. unfold or_null. destruct x as [| |a]; try discriminate.
    destruct (truthy a) eqn:Ea; [|discriminate].
    intros [= <-]. split; [reflexivity|].
    unfold truthy, truthy_number in Ea. apply negb_true_iff in Ea.
    intros Hz. apply Qeq_bool_iff in Hz. congruence. }
  destruct (Hnum _ _ Elat) as [Hlat Hlat0].
  destruct (Hnum _ _ Elng) as [Hlng Hlng0].
  exists name, lat, lng.
  repeat (split; [assumption || (split; assumption)|]).
  unfold Data.addPlace. cbn [fst Saved.place Place.name Place.lat Place.lng].
  unfold or_null_value. rewrite Elat, Elng.
  rewrite Hname.
  assert (Hn : or_else (val name) "" = name)
    by (destruct name; [congruence|reflexivity]).
  rewrite Hn. repeat split.
Qed.

(* ================================================================== *)
(** ** Properties of the import of a list                              *)
(* ================================================================== *)

Lemma trimEnd_idempotent (s : string) : trimEnd (trimEnd s) = trimEnd s.
Proof.
  induction s as [|c r IH]; [reflexivity|].
  simpl. destruct (trimEnd r) as [|a t] eqn:Et.
  - destruct (is_space c) eqn:Ec; [reflexivity|].
    simpl. rewrite Ec. reflexivity.
  - simpl in IH. simpl. rewrite IH. reflexivity.
Qed.

Lemma trimStart_fixed (s : string) :
  match s with
  | EmptyString => True
  | String c _ => is_space c = false
  end ->
  trimStart s = s.
Proof. destruct s as [|c r]; [reflexivity|]. simpl. intros ->. reflexivity. Qed.

Lemma trim_idempotent (s : string) : trim (trim s) = trim s.
Proof.
  unfold trim.
  rewrite (trimStart_fixed (trimEnd (trimStart s))).
  - apply trimEnd_idempotent.
  - destruct (trimEnd (trimStart s)) as [|c r] eqn:E; [exact I|].
    exact (trim_head s c r E).
Qed.

Lemma blank_trimmed (title : string) :
  blank (val title) = false -> blank (val (trim title)) = false.
Proof.
  unfold blank, or_null.
  destruct (truthy title); [|discriminate].
  intros Hb. apply String.eqb_neq in Hb.
  destruct (trim title) as [|c r] eqn:Et; [congruence|].
  cbn [truthy truthy_string]. rewrite <- Et, trim_idempotent, Et.
  reflexivity.
Qed.

(** What the loop over the place tags leaves: the tags it started with,
    then the place tags that were not among them, each once. *)
Lemma push_new_tags_spec (allTags placeTags : list string) :
  exists extra,
    push_new_tags allTags placeTags = (allTags ++ extra)%list
    /\ List.NoDup extra
    /\ (forall t, In t extra -> In t placeTags /\ ~ In t allTags)
    /\ (forall t, In t placeTags -> In t (allTags ++ extra)).
Proof.
  revert allTags. induction placeTags as [|tag rest IH]; intros allTags.
  - exists []. simpl. rewrite List.app_nil_r.
    repeat split; [constructor|tauto|tauto|tauto].
  - simpl. destruct (existsb (String.eqb tag) allTags) eqn:Ex.
    + destruct (IH allTags) as (extra & Heq & Hnd & Hin & Hall).
      exists extra. repeat split; try assumption.
      * right. apply Hin, H.
      * apply Hin, H.
      * intros t [<-|Ht]; [|apply Hall, Ht].
        apply existsb_exists in Ex. destruct Ex as (x & Hx & Hxe).
        apply String.eqb_eq in Hxe. subst x.
        apply List.in_or_app. left. exact Hx.
    + destruct (IH (allTags ++ [tag])%list)
        as (extra & Heq & Hnd & Hin & Hall).
      assert (Hnot : ~ In tag allTags).
      { intros Hi. apply Bool.not_true_iff_false in Ex. apply Ex.
        apply existsb_exists. exists tag. split; [exact Hi|].
        apply String.eqb_refl. }
      exists (tag :: extra). rewrite Heq, <- List.app_assoc.
      split; [reflexivity|]. split; [|split].
      * constructor; [|exact Hnd].
        intros Hi. destruct (Hin tag Hi) as [_ Hn].
        apply Hn, List.in_or_app. right. left. reflexivity.
      * intros t [<-|Ht]; [split; [left; reflexivity|exact Hnot]|].
        destruct (Hin t Ht) as [Hr Hn]. split; [right; exact Hr|].
        intros Hi. apply Hn, List.in_or_app. left. exact Hi.
      * intros t [<-|Ht].
        -- apply List.in_or_app. right. left. reflexivity.
        -- specialize (Hall t Ht). rewrite <- List.app_assoc in Hall.
           exact Hall.
Qed.

Lemma parse_tags_nonempty (text : string) :
  Forall (fun t => t <> "") (parse_tags text).
Proof.
  unfold parse_tags. apply List.Forall_forall. intros t Ht.
  apply List.filter_In in Ht. destruct Ht as [_ Ht].
  intros ->. discriminate.
Qed.

Lemma places_of_rows_ok listName listTags records :
  (List.length (places_of_rows listName listTags records)
   <= List.length records)%nat
  /\ Forall (parsed_place_ok listName listTags)
            (places_of_rows listName listTags records).
Proof.
  induction records as [|row rest [IHl IHf]]; simpl.
  - split; [lia|constructor].
  - destruct (blank (Row.Title row)) eqn:Eb; [split; [lia|exact IHf]|].
    destruct (Row.Title row) as [| |title] eqn:Et;
      try (split; [lia|exact IHf]).
    split; [simpl; lia|]. constructor; [|exact IHf].
    unfold parsed_place_ok, place_of_row.
    cbn [PlaceData.name PlaceData.listName PlaceData.listTags PlaceData.lat
         PlaceData.lng PlaceData.placeId PlaceData.placeTags PlaceData.tags].
    split; [apply blank_trimmed, Eb|].
    split; [eexists; reflexivity|].
    repeat (split; [reflexivity|]).
    set (placeTags := match or_null (Row.Tags row) with
                      | Some tags =>
                          if truthy (trim tags) then parse_tags tags else []
                      | None => []
                      end).
    destruct (push_new_tags_spec listTags placeTags)
      as (extra & Heq & Hnd & Hin & Hall).
    exists placeTags, extra. rewrite Heq.
    repeat (split; [reflexivity || assumption|]).
    subst placeTags. destruct (or_null (Row.Tags row)); [|constructor].
    destruct (truthy (trim s)); [apply parse_tags_nonempty|constructor].
Qed.

Section ImportProperties.
Context `{CsvLib}.

Lemma parsed_places_ok_of_parse csvContent listName parsed :
  parseCSV csvContent listName = Some parsed ->
  Forall (parsed_place_ok listName (ParsedCsv.listTags parsed))
         (ParsedCsv.places parsed).
Proof.
  unfold parseCSV.
  destruct (csv_parse csvContent) as [records|]; [|discriminate].
  destruct records as [|metadataRow rest].
  - intros [= <-]. constructor.
  - destruct (blank (Row.Title metadataRow)); intros [= <-].
    + exact (proj2 (places_of_rows_ok listName _ rest)).
    + exact (proj2 (places_of_rows_ok listName [] (metadataRow :: rest))).
Qed.

(** Of a file that parses, [parseCSV] counts every record and returns at
    most as many places.  Each place has a name that is not blank and is
    trimmed, the name of the list, no coordinates and no identifier; its
    tags are the tags of the list followed by those of its own tags that
    are not among them, each once, and none of its own tags is empty. *)
Theorem parsed_places_are_well_formed :
  forall (csvContent listName : string) (parsed : ParsedCsv.t),
    parseCSV csvContent listName = Some parsed ->
    ParsedCsv.listName parsed = listName
    /\ (exists records,
          csv_parse csvContent = Some records
          /\ ParsedCsv.totalRows parsed = List.length records)
    /\ (List.length (ParsedCsv.places parsed)
        <= ParsedCsv.totalRows parsed)%nat
    /\ Forall (parsed_place_ok listName (ParsedCsv.listTags parsed))
              (ParsedCsv.places parsed).
Proof.
  intros csvContent listName parsed. unfold parseCSV.
  destruct (csv_parse csvContent) as [records|]; [|discriminate].
  destruct records as [|metadataRow rest].
  - intros [= <-]. simpl. repeat split; try constructor.
    exists []. split; reflexivity.
  - destruct (blank (Row.Title metadataRow)) eqn:Eb; intros [= <-];
      cbn [ParsedCsv.listName ParsedCsv.totalRows ParsedCsv.places
           ParsedCsv.listTags].
    + split; [reflexivity|]. split; [eexists; split; reflexivity|].
      destruct (places_of_rows_ok listName
                  match or_null (Row.Tags metadataRow) with
                  | Some tags => parse_tags tags
                  | None => []
                  end rest) as [Hl Hf].
      split; [simpl; lia|exact Hf].
    + split; [reflexivity|]. split; [eexists; split; reflexivity|].
      exact (places_of_rows_ok listName [] (metadataRow :: rest)).
Qed.

End ImportProperties.

(** What the loop of [processCSVFile] does to the counters and to the
    store. *)
Lemma import_places_spec fresh placesData count places count' places' :
  import_places fresh placesData count places = (count', places') ->
  (ImportCount.imported count' + ImportCount.duplicates count'
   + ImportCount.skipped count'
   = ImportCount.imported count + ImportCount.duplicates count
     + ImportCount.skipped count + List.length placesData)%nat
  /\ (ImportCount.skipped count'
      = ImportCount.skipped count
        + List.length (List.filter (fun d => blank (PlaceData.name d))
                                   placesData))%nat
  /\ exists added,
       places' = (places ++ added)%list
       /\ (ImportCount.imported count'
           = ImportCount.imported count + List.length added)%nat
       /\ ImportCount.importedPlaceIds count'
          = (ImportCount.importedPlaceIds count
             ++ List.map Saved.id added)%list
       /\ ((List.length (ImportCount.placesPreview count) <= 5)%nat ->
           (List.length (ImportCount.placesPreview count') <= 5)%nat).
Proof.
  revert count places. induction placesData as [|d rest IH];
    intros count places; simpl.
  - intros [= <- <-]. split; [lia|]. split; [lia|].
    exists []. rewrite !List.app_nil_r. simpl. repeat split; [lia|tauto].
  - destruct (blank (PlaceData.name d)) eqn:Eb.
    + intros Hrun. apply IH in Hrun.
      cbn [ImportCount.imported ImportCount.duplicates ImportCount.skipped
           ImportCount.importedPlaceIds ImportCount.placesPreview] in Hrun.
      destruct Hrun as (Hsum & Hskip & added & Hs & Hi & Hids & Hprev).
      split; [lia|]. split; [simpl; lia|].
      exists added. repeat split; assumption.
    + destruct (Data.placeExistsByUrl places _ _ _) eqn:Ex.
      * intros Hrun. apply IH in Hrun.
        cbn [ImportCount.imported ImportCount.duplicates ImportCount.skipped
             ImportCount.importedPlaceIds ImportCount.placesPreview] in Hrun.
        destruct Hrun as (Hsum & Hskip & added & Hs & Hi & Hids & Hprev).
        split; [lia|]. split; [lia|].
        exists added. repeat split; assumption.
      * destruct (fresh (ImportCount.imported count)) as [id createdAt].
        unfold Data.addPlace.
        set (place := Saved.mk _ _ _ _ _ _ _).
        intros Hrun. apply IH in Hrun.
        cbn [ImportCount.imported ImportCount.duplicates ImportCount.skipped
             ImportCount.importedPlaceIds ImportCount.placesPreview] in Hrun.
        destruct Hrun as (Hsum & Hskip & added & Hs & Hi & Hids & Hprev).
        split; [lia|]. split; [lia|].
        exists (place :: added). rewrite Hs, Hids, <- !List.app_assoc.
        split; [reflexivity|]. split; [simpl; lia|].
        split; [reflexivity|].
        intros Hle. apply Hprev.
        destruct (Nat.ltb_spec
                    (List.length (ImportCount.placesPreview count)) 5);
          [rewrite List.length_app; simpl; lia|exact Hle].
Qed.

(** After the loop, every place of the data that has a name is in the
    store, by [placeExistsByUrl]. *)
Lemma import_places_all_exist fresh placesData count places count' places' :
  import_places fresh placesData count places = (count', places') ->
  Forall (fun d =>
            blank (PlaceData.name d) = false ->
            Data.placeExistsByUrl places' (PlaceData.name d)
              (PlaceData.url d) (PlaceData.notes d) = true)
         placesData.
Proof.
  revert count places. induction placesData as [|d rest IH];
    intros count places Hrun; [constructor|].
  assert (Htruthy : blank (PlaceData.name d) = false ->
                    truthy (PlaceData.name d) = true).
  { unfold blank, or_null. destruct (PlaceData.name d) as [| |s];
      try discriminate.
    change (truthy (val s)) with (truthy s).
    destruct (truthy s); [reflexivity|discriminate]. }
  cbn [import_places] in Hrun.
  destruct (blank (PlaceData.name d)) eqn:Eb.
  - constructor; [|exact (IH _ _ Hrun)].
    intros Hf. rewrite Eb in Hf. discriminate Hf.
  - destruct (Data.placeExistsByUrl places _ _ _) eqn:Ex.
    + constructor; [|exact (IH _ _ Hrun)].
      intros _.
      destruct (import_places_spec _ _ _ _ _ _ Hrun)
        as (_ & _ & added & Hs & _).
      rewrite Hs. apply placeExistsByUrl_grows, Ex.
    + destruct (fresh (ImportCount.imported count)) as [id createdAt].
      pose proof (placeExistsByUrl_added id createdAt d places
                    (Htruthy eq_refl)) as Hadd.
      destruct (Data.addPlace id createdAt d places) as [place places1].
      cbn [snd] in Hadd.
      constructor; [|exact (IH _ _ Hrun)].
      intros _.
      destruct (import_places_spec _ _ _ _ _ _ Hrun)
        as (_ & _ & added & Hs & _).
      rewrite Hs. apply placeExistsByUrl_grows, Hadd.
Qed.

(** Over data that is in the store already, the loop only counts
    duplicates. *)
Lemma import_places_all_duplicates fresh placesData count places :
  Forall (fun d =>
            blank (PlaceData.name d) = false
            /\ Data.placeExistsByUrl places (PlaceData.name d)
                 (PlaceData.url d) (PlaceData.notes d) = true)
         placesData ->
  import_places fresh placesData count places
  = (ImportCount.mk (ImportCount.imported count)
       (ImportCount.duplicates count + List.length placesData)
       (ImportCount.skipped count)
       (ImportCount.placesPreview count)
       (ImportCount.importedPlaceIds count),
     places).
Proof.
  intros Hall. revert count.
  induction Hall as [|d rest [Hb Hx] _ IH]; intros count; simpl.
  - rewrite Nat.add_0_r. destruct count; reflexivity.
  - rewrite Hb, Hx, IH.
    cbn [ImportCount.imported ImportCount.duplicates ImportCount.skipped
         ImportCount.importedPlaceIds ImportCount.placesPreview].
    f_equal. f_equal. lia.
Qed.

Section ProcessCsvProperties.
Context `{CsvLib}.

Lemma import_accounts_for_every_place_aux
  (fresh : nat -> string * string) (csvContent listName : string)
  (places places' : list Saved.t) (r : ImportResult.t) :
  processCSVFile fresh csvContent listName places = Some (r, places') ->
  exists parsed,
    parseCSV csvContent listName = Some parsed
    /\ (ImportCount.imported (ImportResult.count r)
        + ImportCount.duplicates (ImportResult.count r)
        = List.length (ParsedCsv.places parsed))%nat
    /\ Forall (fun d =>
                 blank (PlaceData.name d) = false
                 /\ Data.placeExistsByUrl places' (PlaceData.name d)
                      (PlaceData.url d) (PlaceData.notes d) = true)
              (ParsedCsv.places parsed).
Proof.
  unfold processCSVFile.
  destruct (parseCSV csvContent listName) as [parsed|] eqn:Ep;
    [|discriminate].
  destruct (import_places fresh (ParsedCsv.places parsed) ImportCount.zero
              places) as [count places1] eqn:Ei.
  intros [= <- <-]. cbn [ImportResult.count].
  destruct (import_places_spec _ _ _ _ _ _ Ei) as (Hsum & Hskip & _).
  pose proof (import_places_all_exist _ _ _ _ _ _ Ei) as Hex.
  pose proof (parsed_places_ok_of_parse _ _ _ Ep) as Hok.
  assert (Hnone : List.filter (fun d => blank (PlaceData.name d))
                              (ParsedCsv.places parsed) = []).
  { apply filter_none. eapply List.Forall_impl; [|exact Hok].
    intros d Hd. apply Hd. }
  rewrite Hnone in Hskip. simpl in *.
  exists parsed. split; [reflexivity|]. split; [lia|].
  apply List.Forall_forall. intros d Hd.
  rewrite List.Forall_forall in Hok, Hex.
  assert (Hb : blank (PlaceData.name d) = false) by apply (Hok d Hd).
  split; [exact Hb|apply (Hex d Hd), Hb].
Qed.

(** An import accounts for every place of the file: each is imported or
    a duplicate and none is skipped; the store grows by the places
    imported, whose identifiers are returned in their order; at most
    five places are shown. *)
Theorem import_accounts_for_every_place :
  forall (fresh : nat -> string * string) (csvContent listName : string)
         (places places' : list Saved.t) (r : ImportResult.t),
    processCSVFile fresh csvContent listName places = Some (r, places') ->
    exists parsed added,
      parseCSV csvContent listName = Some parsed
      /\ (ImportCount.imported (ImportResult.count r)
          + ImportCount.duplicates (ImportResult.count r)
          = List.length (ParsedCsv.places parsed))%nat
      /\ ImportCount.skipped (ImportResult.count r) = 0%nat
      /\ places' = (places ++ added)%list
      /\ List.length added = ImportCount.imported (ImportResult.count r)
      /\ ImportCount.importedPlaceIds (ImportResult.count r)
         = List.map Saved.id added
      /\ (List.length (ImportCount.placesPreview (ImportResult.count r))
          <= 5)%nat
      /\ ImportResult.totalRows r = ParsedCsv.totalRows parsed.
Proof.
  intros fresh csvContent listName places places' r. unfold processCSVFile.
  destruct (parseCSV csvContent listName) as [parsed|] eqn:Ep;
    [|discriminate].
  destruct (import_places fresh (ParsedCsv.places parsed) ImportCount.zero
              places) as [count places1] eqn:Ei.
  intros [= <- <-]. cbn [ImportResult.count ImportResult.totalRows].
  destruct (import_places_spec _ _ _ _ _ _ Ei)
    as (Hsum & Hskip & added & Hs & Hi & Hids & Hprev).
  pose proof (parsed_places_ok_of_parse _ _ _ Ep) as Hok.
  assert (Hnone : List.filter (fun d => blank (PlaceData.name d))
                              (ParsedCsv.places parsed) = []).
  { apply filter_none. eapply List.Forall_impl; [|exact Hok].
    intros d Hd. apply Hd. }
  rewrite Hnone in Hskip. simpl in *.
  exists parsed, added.
  repeat split; try assumption; try lia; try (apply Hprev; lia).
Qed.

(** Importing the same file a second time imports nothing: every place
    of the file is counted as a duplicate and the store stays as it
    is. *)
Theorem importing_again_adds_nothing :
  forall (fresh fresh' : nat -> string * string)
         (csvContent listName : string)
         (places places' : list Saved.t) (r : ImportResult.t),
    processCSVFile fresh csvContent listName places = Some (r, places') ->
    exists r',
      processCSVFile fresh' csvContent listName places' = Some (r', places')
      /\ ImportCount.imported (ImportResult.count r') = 0%nat
      /\ ImportCount.skipped (ImportResult.count r') = 0%nat
      /\ ImportCount.duplicates (ImportResult.count r')
         = (ImportCount.imported (ImportResult.count r)
            + ImportCount.duplicates (ImportResult.count r))%nat
      /\ ImportCount.importedPlaceIds (ImportResult.count r') = [].
Proof.
  intros fresh fresh' csvContent listName places places' r Hrun.
  destruct (import_accounts_for_every_place_aux fresh csvContent listName
              places places' r Hrun) as (parsed & Hp & Hlen & Hex).
  unfold processCSVFile. rewrite Hp.
  rewrite (import_places_all_duplicates fresh' _ ImportCount.zero places' Hex).
  eexists. split; [reflexivity|].
  cbn [ImportResult.count ImportCount.imported ImportCount.skipped
       ImportCount.duplicates ImportCount.importedPlaceIds ImportCount.zero].
  repeat split. lia.
Qed.

End ProcessCsvProperties.

(* ================================================================== *)
(** ** Properties of the place details                                 *)
(* ================================================================== *)

Lemma or_null_value_not_falsy {A} `{Truthy A} (x : nullable A) (a : A) :
  or_null_value x = val a -> truthy a = true.
Proof.
  unfold or_null_value, or_null. destruct x as [| |b]; try discriminate.
  destruct (truthy b) eqn:Eb; [|discriminate].
  intros [= <-]. exact Eb.
Qed.

(** Normalized details hold no falsy signal: a rating or a price level
    of 0 and an [openNow] of [false] are all turned into [null], and at
    most three reviews are kept.  So a place that is closed reads as a
    place whose opening is unknown: the scorer never gives the 5 of the
    closed match, and the answer to a question about its hours is that
    there is no information. *)
Theorem normalized_details_never_say_closed :
  forall (data : Raw.t) (placeId : nullable string),
    let n := PlaceDetails.normalizePlaceDetails data placeId in
    let d := Normalized.details n in
    openNow_of (Some d) <> val false
    /\ (forall q, Details.rating d = val q -> ~ q == 0)
    /\ (forall q, Details.priceLevel d = val q -> ~ q == 0)
    /\ (List.length (Normalized.reviews n) <= 3)%nat
    /\ Details.placeId d = placeId
    /\ (forall slots,
          open_now_points slots (Some d)
          = if nullable_bool_is (Slots.openNow slots) true
               && nullable_bool_is (openNow_of (Some d)) true
            then 15 else 0)
    /\ (forall hours name,
          Raw.regularOpeningHours data = val hours ->
          RawHours.openNow hours = val false ->
          openNow_of (Some d) = null
          /\ answer_hours name (Some d)
             = Ok ("I don't have opening hours information for " ++ name
                   ++ ".")).
Proof.
  intros data placeId n d.
  assert (Hnum : forall (x : nullable Q) (q : Q),
             or_null_value x = val q -> ~ q == 0).
  { intros x q Hq Hz. apply or_null_value_not_falsy in Hq.
    unfold truthy, truthy_number in Hq. apply negb_true_iff in Hq.
    apply Qeq_bool_iff in Hz. congruence. }
  assert (Hopen : openNow_of (Some d) <> val false).
  { subst d n. unfold openNow_of, PlaceDetails.normalizePlaceDetails.
    cbn [enriched Normalized.details Details.openingHours opt_chain].
    destruct (Raw.regularOpeningHours data) as [| |hours];
      cbn [opt_chain OpeningHours.openNow]; try discriminate.
    intros Hf. apply or_null_value_not_falsy in Hf. discriminate. }
  split; [exact Hopen|].
  split; [intros q; apply Hnum|].
  split; [intros q; apply Hnum|].
  split.
  { subst n. unfold PlaceDetails.normalizePlaceDetails.
    cbn [Normalized.reviews].
    destruct (Raw.reviews data) as [| |rs]; simpl; try lia.
    rewrite List.length_map, List.length_firstn. lia. }
  split; [reflexivity|].
  split.
  { intros slots. unfold open_now_points.
    destruct (nullable_bool_is (Slots.openNow slots) true
              && nullable_bool_is (openNow_of (Some d)) true);
      [reflexivity|].
    destruct (openNow_of (Some d)) as [| |b] eqn:Eo;
      try (rewrite andb_false_r; reflexivity).
    destruct b; [|congruence].
    rewrite andb_false_r. reflexivity. }
  intros hours name Hh Hclosed.
  assert (Hnull : openNow_of (Some d) = null).
  { subst d n. unfold openNow_of, PlaceDetails.normalizePlaceDetails.
    cbn [enriched Normalized.details Details.openingHours].
    rewrite Hh. cbn [opt_chain OpeningHours.openNow].
    rewrite Hclosed. reflexivity. }
  split; [exact Hnull|].
  unfold answer_hours. rewrite Hnull. reflexivity.
Qed.

(** [fetchPlaceDetails] resolves to details only when a key is
    configured, the identifier is not empty and the API answers a 2xx
    response with data, and then to that data, normalized; in every
    other case it resolves to [null].  It sends one request, and none
    without a key or an identifier. *)
Theorem details_are_fetched_with_key_and_identifier :
  forall (env : PlaceDetails.Env) (placeId : nullable string),
    let key_configured :=
      truthy (PlaceDetails.GOOGLE_PLACES_API_KEY env)
      || truthy (PlaceDetails.GOOGLE_MAPS_API_KEY env) in
    let fetched := fst (PlaceDetails.fetchPlaceDetails env placeId) in
    let requests := snd (PlaceDetails.fetchPlaceDetails env placeId) in
    (forall n,
        fetched = Some n
        <-> key_configured = true
            /\ exists id status data,
                 or_null placeId = Some id
                 /\ PlaceDetails.places_api env id
                    = PlaceDetails.Responds true status
                        (PlaceDetails.BodyData data)
                 /\ n = PlaceDetails.normalizePlaceDetails data placeId)
    /\ requests
       = match or_null placeId with
         | Some id => if key_configured then [id] else []
         | None => []
         end.
Proof.
  intros env placeId. cbv zeta. unfold PlaceDetails.fetchPlaceDetails.
  destruct (truthy (PlaceDetails.GOOGLE_PLACES_API_KEY env)) eqn:E1;
    [|cbv iota;
      destruct (truthy (PlaceDetails.GOOGLE_MAPS_API_KEY env)) eqn:E2].
  - rewrite E1. cbn [negb orb].
    destruct (or_null placeId) as [id|]; cbn [fst snd].
    + split; [|reflexivity]. intros n. split.
      * intros Hn. split; [reflexivity|].
        destruct (PlaceDetails.places_api env id) as [|ok status body]
          eqn:Eapi; [discriminate Hn|].
        destruct ok; [|destruct (status =? 404)%Z; discriminate Hn].
        destruct body as [| |data]; try discriminate Hn.
        simpl in Hn. injection Hn as <-.
        exists id, status, data. repeat split. exact Eapi.
      * intros (_ & id' & status & data & [= <-] & -> & ->). reflexivity.
    + split; [|reflexivity]. intros n. split; [discriminate|].
      intros (_ & id' & _ & _ & Hid & _). discriminate Hid.
  - cbn [negb orb].
    destruct (or_null placeId) as [id|]; cbn [fst snd].
    + split; [|reflexivity]. intros n. split.
      * intros Hn. split; [reflexivity|].
        destruct (PlaceDetails.places_api env id) as [|ok status body]
          eqn:Eapi; [discriminate Hn|].
        destruct ok; [|destruct (status =? 404)%Z; discriminate Hn].
        destruct body as [| |data]; try discriminate Hn.
        simpl in Hn. injection Hn as <-.
        exists id, status, data. repeat split. exact Eapi.
      * intros (_ & id' & status & data & [= <-] & -> & ->). reflexivity.
    + split; [|reflexivity]. intros n. split; [discriminate|].
      intros (_ & id' & _ & _ & Hid & _). discriminate Hid.
  - cbn [negb orb fst snd].
    split; [|destruct (or_null placeId); reflexivity].
    intros n. split; [discriminate|]. intros [Hk _]. discriminate Hk.
Qed.

(* ================================================================== *)
(** ** The properties at work on samples                               *)
(* ================================================================== *)

Lemma bistro_score_is_not_negative :
  exists v,
    @scorePlace Sample.math Sample.bistro Sample.all_slots
      (Some Sample.bistro_details) (Some Sample.here) = Ok v
    /\ 0 <= v.
Proof.
  exists 90. split; [reflexivity|].
  apply (@returned_score_is_not_negative Sample.math Sample.bistro
           Sample.all_slots (Some Sample.bistro_details) (Some Sample.here)
           90).
  - intros r Hr. injection Hr as <-. discriminate.
  - reflexivity.
Defined.


Lemma montreal_list_is_read_from_store :
  filterCandidates [Sample.bistro; Sample.cafe] [] Slots.empty
    (Some "Montreal")
  = filterCandidates [Sample.bistro; Sample.cafe] [Sample.cafe] Slots.empty
      (Some "Montreal")
  /\ sublist
       (filterCandidates [Sample.bistro; Sample.cafe] [] Slots.empty
          (Some "Montreal"))
       [Sample.bistro; Sample.cafe]
  /\ Forall (fun p => Place.listName p = val "Montreal")
            (filterCandidates [Sample.bistro; Sample.cafe] [] Slots.empty
               (Some "Montreal")).
Proof.
  apply (filter_scoped_to_list_reads_store [Sample.bistro; Sample.cafe] []
           [Sample.cafe] Slots.empty "Montreal").
  discriminate.
Defined.

Lemma cafe_satisfies_its_category :
  In Sample.cafe
     (filterCandidates [Sample.cafe; Sample.bakery]
        [Sample.cafe; Sample.bakery] (Sample.category_only "Cafe") None)
  /\ some_text_contains (category_tags_filter Sample.cafe) "cafe".
Proof.
  assert (Hin : In Sample.cafe
                   (filterCandidates [Sample.cafe; Sample.bakery]
                      [Sample.cafe; Sample.bakery]
                      (Sample.category_only "Cafe") None))
    by (left; reflexivity).
  split; [exact Hin|].
  exact (proj1 (filter_results_satisfy_slots [Sample.cafe; Sample.bakery]
                  [Sample.cafe; Sample.bakery] (Sample.category_only "Cafe")
                  None Sample.cafe Hin)
           "Cafe" eq_refl).
Defined.

Lemma four_answers_are_kept :
  fst (@generateBatchExplanations Sample.json Sample.format
         (Sample.with_key Sample.four_answers) Demo.four Slots.empty
         Sample.fresh)
  = Ok [val "a"; val "b"; val "c"; val "d"].
Proof.
  eapply (@explanations_of_the_provider_are_kept Sample.json Sample.format
            (Sample.with_key Sample.four_answers) Demo.four Slots.empty
            Sample.fresh);
    reflexivity.
Defined.

Lemma question_turn_writes_no_session :
  sessions
    (snd (@handleChatSaved Sample.math Demo.json_question Sample.format
            (Sample.with_key Demo.empty_object)
            (Sample.say "when is Cafe Olimpico open" None) Sample.fresh))
  = sessions Sample.fresh
  /\ (fst (@handleChatSaved Sample.math Demo.json_question Sample.format
             (Sample.with_key Demo.empty_object)
             (Sample.say "when is Cafe Olimpico open" None) Sample.fresh)
      = Status500 TypeError
      \/ exists text,
           fst (@handleChatSaved Sample.math Demo.json_question Sample.format
                  (Sample.with_key Demo.empty_object)
                  (Sample.say "when is Cafe Olimpico open" None)
                  Sample.fresh)
           = chat_body text Slots.empty [] null).
Proof.
  eapply (@informational_turn_writes_no_session Sample.math
            Demo.json_question Sample.format
            (Sample.with_key Demo.empty_object)
            (Sample.say "when is Cafe Olimpico open" None) Sample.fresh);
    [reflexivity|discriminate|reflexivity|lazy; reflexivity|reflexivity].
Defined.

Lemma coffee_turn_stores_the_slots :
  sessions
    (snd (@handleChatSaved Sample.math Sample.json Sample.format
            Sample.offline (Sample.say "coffee" (Some Sample.cheap))
            Sample.fresh)) !! "s1"
  = Some (Session.mk Sample.cheap)
  /\ forall other,
       other <> "s1" ->
       sessions
         (snd (@handleChatSaved Sample.math Sample.json Sample.format
                 Sample.offline (Sample.say "coffee" (Some Sample.cheap))
                 Sample.fresh)) !! other
       = sessions Sample.fresh !! other.
Proof.
  apply (@recommendation_turn_stores_the_slots Sample.math Sample.json
           Sample.format Sample.offline
           (Sample.say "coffee" (Some Sample.cheap)) Sample.fresh
           Sample.fresh "coffee" (fallback_interpretation Sample.cheap));
    [reflexivity|discriminate|reflexivity|reflexivity|discriminate].
Defined.

Lemma no_museum_is_saved :
  @recommend_turn Sample.math Sample.json Sample.format Sample.offline
    (fallback_interpretation (Sample.category_only "museum")) "s1" None None
    Sample.fresh
  = (Ok (chat_body NO_MATCH (Sample.category_only "museum") [] undefined),
     mkWorld (<["s1" := Session.mk (Sample.category_only "museum")]> ∅) []).
Proof.
  apply (@empty_filter_ends_the_turn Sample.math Sample.json Sample.format
           Sample.offline
           (fallback_interpretation (Sample.category_only "museum")) "s1"
           None None Sample.fresh).
  reflexivity.
Defined.

Lemma coffee_results_are_ranked :
  exists body w',
    @handleChatSaved Sample.math Sample.json Sample.format Sample.offline
      (Sample.say "coffee" None) Sample.fresh
    = (Json body, w')
    /\ (List.length (ChatBody.results body) <= 5)%nat
    /\ StronglySorted result_ge (ChatBody.results body).
Proof.
  eexists. eexists. split; [reflexivity|].
  eapply (@results_are_at_most_five_best_first Sample.math Sample.json
            Sample.format Sample.offline (Sample.say "coffee" None)
            Sample.fresh).
  reflexivity.
Defined.

Lemma lowest_of_three_is_left_out :
  In Demo.middle (firstn 2 (sort_by_score Demo.pool))
  /\ In Demo.low (skipn 2 (sort_by_score Demo.pool))
  /\ Scored.score Demo.low <= Scored.score Demo.middle.
Proof.
  assert (Hkept : In Demo.middle (firstn 2 (sort_by_score Demo.pool)))
    by (right; left; reflexivity).
  assert (Hleft : In Demo.low (skipn 2 (sort_by_score Demo.pool)))
    by (left; reflexivity).
  split; [exact Hkept|]. split; [exact Hleft|].
  exact (no_better_candidate_is_left_out Demo.pool 2 Demo.middle Demo.low
           Hkept Hleft).
Defined.

Lemma reversed_pool_ranks_alike :
  sort_by_score Demo.pool = sort_by_score (rev Demo.pool).
Proof.
  apply (ranking_depends_on_order_for_ties_only Demo.pool (rev Demo.pool)).
  - apply Permutation_rev.
  - repeat (constructor;
            [intros Hin;
             repeat match goal with
                    | Hx : SetoidList.InA _ _ _ |- _ =>
                        inversion Hx; clear Hx; subst
                    end;
             match goal with
             | Hs : same_score _ _ |- _ => vm_compute in Hs; discriminate Hs
             end
            |]).
    constructor.
Defined.

Lemma cozy_places_sorted :
  @Scoring.sortByScore Sample.math [Sample.cafe; Sample.bistro] Demo.cozy
  = Some [Sample.bistro; Sample.cafe]
  /\ Permutation [Sample.cafe; Sample.bistro] [Sample.bistro; Sample.cafe]
  /\ exists scored : list (Place.t * Q),
       List.map fst scored = [Sample.bistro; Sample.cafe]
       /\ Forall (fun ps => @Scoring.scorePlace Sample.math (fst ps) Demo.cozy
                            = Some (snd ps)) scored
       /\ StronglySorted (fun a b => snd b <= snd a) scored.
Proof.
  split; [reflexivity|].
  apply (@sortByScore_is_a_descending_permutation Sample.math
           [Sample.cafe; Sample.bistro] [Sample.bistro; Sample.cafe]
           Demo.cozy).
  reflexivity.
Defined.

Lemma only_unpriced_places_are_recommended :
  exists r,
    @getRecommendations Sample.math [Sample.bistro; Sample.cafe] Demo.anything
    = Some r
    /\ Recommendation.results r = [Sample.cafe]
    /\ forall p, In p (Recommendation.results r) -> Place.priceLevel p = null.
Proof.
  eexists. split; [reflexivity|]. split; [reflexivity|].
  intros p Hp.
  exact (proj2 (proj2 (proj2 (proj2
           (proj2 (@recommendations_are_filtered_and_capped Sample.math
                     [Sample.bistro; Sample.cafe] Demo.anything _ eq_refl)
                  p Hp))))
           eq_refl).
Defined.

Lemma recommendations_around_are_nearest_first :
  exists r,
    @getRecommendations Sample.math [Sample.cafe; Sample.bakery] Demo.around
    = Some r
    /\ exists keyed : list (Place.t * Q),
         Recommendation.results r = firstn 10 (List.map fst keyed)
         /\ Permutation
              (recommendation_filter (interpret_context Demo.around)
                 [Sample.cafe; Sample.bakery])
              (List.map fst keyed)
         /\ Forall (fun pd =>
                      @flat_distance Sample.math
                        (LatLng.mk (91 # 2) (-147 # 2)) (fst pd)
                      = Some (snd pd)) keyed
         /\ StronglySorted (fun a b => snd a <= snd b) keyed.
Proof.
  eexists. split; [reflexivity|].
  exact (@recommendations_are_nearest_first Sample.math
           [Sample.cafe; Sample.bakery] Demo.around _ eq_refl).
Defined.

Lemma second_place_is_found :
  Forall (fun p => Saved.id p <> "p2") Demo.one_place
  /\ Data.getPlaceById
       (snd (Data.addPlace "p2" "2024-01-02T00:00:00.000Z" Demo.located
               Demo.one_place)) "p2"
     = Some (fst (Data.addPlace "p2" "2024-01-02T00:00:00.000Z" Demo.located
                    Demo.one_place))
  /\ Data.getPlacesCount
       (snd (Data.addPlace "p2" "2024-01-02T00:00:00.000Z" Demo.located
               Demo.one_place))
     = 2%nat
  /\ forall other,
       other <> "p2" ->
       Data.getPlaceById
         (snd (Data.addPlace "p2" "2024-01-02T00:00:00.000Z" Demo.located
                 Demo.one_place)) other
       = Data.getPlaceById Demo.one_place other.
Proof.
  assert (Hfresh : Forall (fun p => Saved.id p <> "p2") Demo.one_place)
    by (repeat constructor; discriminate).
  split; [exact Hfresh|].
  exact (added_place_is_found "p2" "2024-01-02T00:00:00.000Z" Demo.located
           Demo.one_place Hfresh).
Defined.

Lemma located_data_is_stored :
  validatePlaceData Demo.located = true
  /\ exists (name : string) (lat lng : Q),
       PlaceData.name Demo.located = val name /\ name <> ""
       /\ PlaceData.lat Demo.located = val lat
       /\ PlaceData.lng Demo.located = val lng
       /\ -90 <= lat <= 90 /\ ~ lat == 0
       /\ -180 <= lng <= 180 /\ ~ lng == 0
       /\ Place.name
            (Saved.place (fst (Data.addPlace "p1" "t" Demo.located [])))
          = val name
       /\ Place.lat
            (Saved.place (fst (Data.addPlace "p1" "t" Demo.located [])))
          = val lat
       /\ Place.lng
            (Saved.place (fst (Data.addPlace "p1" "t" Demo.located [])))
          = val lng.
Proof.
  split; [reflexivity|].
  exact (valid_data_is_stored_as_given Demo.located "p1" "t" [] eq_refl).
Defined.

Lemma sample_file_parses_well :
  exists parsed,
    @parseCSV Demo.csv "Saved Places.csv" "Montreal" = Some parsed
    /\ ParsedCsv.listTags parsed = ["food"; "montreal"]
    /\ ParsedCsv.totalRows parsed = 4%nat
    /\ List.length (ParsedCsv.places parsed) = 2%nat
    /\ Forall (parsed_place_ok "Montreal" (ParsedCsv.listTags parsed))
              (ParsedCsv.places parsed).
Proof.
  eexists. split; [reflexivity|].
  split; [reflexivity|]. split; [reflexivity|]. split; [reflexivity|].
  exact (proj2 (proj2 (proj2
           (@parsed_places_are_well_formed Demo.csv "Saved Places.csv"
              "Montreal" _ eq_refl)))).
Defined.

Lemma sample_import_accounts_for_its_places :
  exists r places',
    @processCSVFile Demo.csv Demo.ids "Saved Places.csv" "Montreal"
      Demo.one_place
    = Some (r, places')
    /\ ImportCount.imported (ImportResult.count r) = 1%nat
    /\ ImportCount.duplicates (ImportResult.count r) = 1%nat
    /\ exists parsed added,
         @parseCSV Demo.csv "Saved Places.csv" "Montreal" = Some parsed
         /\ (ImportCount.imported (ImportResult.count r)
             + ImportCount.duplicates (ImportResult.count r)
             = List.length (ParsedCsv.places parsed))%nat
         /\ ImportCount.skipped (ImportResult.count r) = 0%nat
         /\ places' = (Demo.one_place ++ added)%list
         /\ List.length added = ImportCount.imported (ImportResult.count r)
         /\ ImportCount.importedPlaceIds (ImportResult.count r)
            = List.map Saved.id added
         /\ (List.length (ImportCount.placesPreview (ImportResult.count r))
             <= 5)%nat
         /\ ImportResult.totalRows r = ParsedCsv.totalRows parsed.
Proof.
  eexists. eexists. split; [reflexivity|].
  split; [reflexivity|]. split; [reflexivity|].
  exact (@import_accounts_for_every_place Demo.csv Demo.ids
           "Saved Places.csv" "Montreal" Demo.one_place _ _ eq_refl).
Defined.

Lemma sample_import_twice :
  exists r places' r',
    @processCSVFile Demo.csv Demo.ids "Saved Places.csv" "Montreal" []
    = Some (r, places')
    /\ ImportCount.imported (ImportResult.count r) = 2%nat
    /\ @processCSVFile Demo.csv Demo.ids "Saved Places.csv" "Montreal" places'
       = Some (r', places')
    /\ ImportCount.imported (ImportResult.count r') = 0%nat
    /\ ImportCount.skipped (ImportResult.count r') = 0%nat
    /\ ImportCount.duplicates (ImportResult.count r')
       = (ImportCount.imported (ImportResult.count r)
          + ImportCount.duplicates (ImportResult.count r))%nat
    /\ ImportCount.importedPlaceIds (ImportResult.count r') = [].
Proof.
  destruct (@importing_again_adds_nothing Demo.csv Demo.ids Demo.ids
              "Saved Places.csv" "Montreal" [] _ _ eq_refl)
    as (r' & Hagain).
  eexists. eexists. exists r'.
  split; [reflexivity|]. split; [reflexivity|]. exact Hagain.
Defined.
